(** * RecruitConnect: access control and application workflow

    A shallow embedding of the Flask back end under [server/]:
    [models.py], [decorators.py], [auth.py] (register, login, change of
    password), [routes/jobs.py] and [routes/applications.py].

    The relational store is a record of three tables, each a list of rows
    in insertion order.  A view function takes the URL parameters, the
    request and the store, and returns the response together with the
    store it leaves behind: the committed one after [db.session.commit()],
    the one it was given on every early [return].

    Request bodies and query strings are taken well typed, as the
    docstrings of the handlers give them: a JSON field that a handler
    reads as a string is a string when present.  Text is held as the
    bytes of its UTF-8 encoding: [Py.len] and [Py.strip] read it by code
    point, as [len] and [str.strip] do, and [Py.lower] is [str.lower] on
    ASCII text.  Failures of the store itself (a commit that raises, and
    the [except Exception] branch that rolls it back) are outside the
    model. *)

From Stdlib Require Import List String Ascii ZArith Lia Bool Sorted.
From Stdlib Require Import Decimal DecimalString.
Import ListNotations.

Local Open Scope string_scope.
Local Open Scope Z_scope.

(** ** Python strings *)

Module Py.

(** A Python [str] is a sequence of code points; a [string] here holds
    the bytes of its UTF-8 encoding.  A byte 10xxxxxx continues the
    character that the last other byte began. *)
Definition is_continuation (c : ascii) : bool :=
  let n := N_of_ascii c in
  ((128 <=? n)%N && (n <? 192)%N)%bool.

(** The continuation bytes [s] starts with (none in well-formed text),
    then its characters, each with the bytes that encode it. *)
Fixpoint split_chars (s : string) : string * list string :=
  match s with
  | EmptyString => (EmptyString, [])
  | String c s' =>
      let (tail, cs) := split_chars s' in
      if is_continuation c then (String c tail, cs)
      else (EmptyString, String c tail :: cs)
  end.

(** The characters of [s], in order. *)
Definition chars (s : string) : list string :=
  let (orphan, cs) := split_chars s in
  match orphan with
  | EmptyString => cs
  | _ => orphan :: cs
  end.

(** [ord(ch)]: the code point that the bytes of the character [ch]
    encode. *)
Definition ord (ch : string) : Z :=
  match ch with
  | EmptyString => 0
  | String c rest =>
      let n := Z.of_N (N_of_ascii c) in
      let lead := if n <? 128 then n
                  else if n <? 224 then n - 192
                  else if n <? 240 then n - 224
                  else n - 240 in
      fold_left (fun v b => 64 * v + (Z.of_N (N_of_ascii b) - 128))
                (list_ascii_of_string rest) lead
  end.

(** [ch.isspace()]: the code points U+0009 to U+000D, U+001C to U+0020,
    U+0085, U+00A0, U+1680, U+2000 to U+200A, U+2028, U+2029, U+202F,
    U+205F and U+3000. *)
Definition is_space (ch : string) : bool :=
  let cp := ord ch in
  ((9 <=? cp) && (cp <=? 13)) || ((28 <=? cp) && (cp <=? 32))
  || (cp =? 133) || (cp =? 160) || (cp =? 5760)
  || ((8192 <=? cp) && (cp <=? 8202))
  || (cp =? 8232) || (cp =? 8233) || (cp =? 8239) || (cp =? 8287)
  || (cp =? 12288).

(** The characters left once the leading white space is dropped. *)
Fixpoint lstrip (cs : list string) : list string :=
  match cs with
  | [] => []
  | ch :: cs' => if is_space ch then lstrip cs' else cs
  end.

(** [str.strip()]: white space is dropped at both ends. *)
Definition strip (s : string) : string :=
  String.concat "" (List.rev (lstrip (List.rev (lstrip (chars s))))).

(** [len(s)]: the number of code points. *)
Definition len (s : string) : Z := Z.of_nat (List.length (chars s)).

(** [str.isascii()] *)
Fixpoint isascii (s : string) : bool :=
  match s with
  | EmptyString => true
  | String c s' => (N_of_ascii c <? 128)%N && isascii s'
  end.

Definition lower_ascii (c : ascii) : ascii :=
  let n := nat_of_ascii c in
  if (65 <=? n)%nat && (n <=? 90)%nat then ascii_of_nat (n + 32) else c.

(** [str.lower()] of ASCII text ([isascii]): the letters A to Z are
    mapped and every other byte is kept.  Letters outside ASCII are not
    lower-cased: where the lower-cased text of a request is stored or
    compared with stored text, the properties below are stated for ASCII
    input. *)
Fixpoint lower (s : string) : string :=
  match s with
  | EmptyString => EmptyString
  | String c s' => String (lower_ascii c) (lower s')
  end.

(** [str(n)] for an integer, as an f-string prints it. *)
Definition str (n : Z) : string := NilZero.string_of_int (Z.to_int n).

(** [sep.join(l)] *)
Fixpoint join (sep : string) (l : list string) : string :=
  match l with
  | [] => ""
  | [s] => s
  | s :: l' => s ++ sep ++ join sep l'
  end.

(** [x in l] for a list of strings. *)
Definition mem (x : string) (l : list string) : bool :=
  existsb (String.eqb x) l.

(** [d.get(k, default)] once the field has been read. *)
Definition get {A : Type} (field : option A) (default : A) : A :=
  match field with
  | Some v => v
  | None => default
  end.

End Py.

(** ** JSON values and responses *)

Set Warnings "-register-all".

(** What [jsonify] is given.  [JTime t] is [t.isoformat()] for the
    datetime [t]: the text is not modelled, the instant is kept. *)
Inductive json : Type :=
| JNull
| JBool (b : bool)
| JInt (n : Z)
| JStr (s : string)
| JTime (t : Z)
| JList (l : list json)
| JObj (fields : list (string * json)).

Definition JOpt (o : option string) : json :=
  match o with
  | Some s => JStr s
  | None => JNull
  end.

(** A view returns [jsonify(body), code]. *)
Record response : Type := Response { body : json; code : Z }.

(** [jsonify({'error': e, 'message': m}), c] *)
Definition error_response (e m : string) (c : Z) : response :=
  Response (JObj [("error", JStr e); ("message", JStr m)]) c.

(** Field of a JSON object, [JNull] when it has none. *)
Definition field (k : string) (j : json) : json :=
  match j with
  | JObj fs =>
      match find (fun kv => String.eqb (fst kv) k) fs with
      | Some kv => snd kv
      | None => JNull
      end
  | _ => JNull
  end.

(** ** models.py *)

Module UserRole.
Definition EMPLOYER : string := "employer".
Definition JOB_SEEKER : string := "job_seeker".
End UserRole.

Module ApplicationStatus.
Definition PENDING : string := "pending".
Definition ACCEPTED : string := "accepted".
Definition REJECTED : string := "rejected".
Definition WITHDRAWN : string := "withdrawn".
End ApplicationStatus.

Module User.
Record t : Type := mk {
  id : Z;
  email : string;
  password_hash : string;
  role : string;
  full_name : option string;
  company_name : option string;
  phone : option string;
  created_at : Z;
  updated_at : Z
}.

Definition to_dict (self : t) : json :=
  JObj [("id", JInt (id self));
        ("email", JStr (email self));
        ("role", JStr (role self));
        ("full_name", JOpt (full_name self));
        ("company_name", JOpt (company_name self));
        ("phone", JOpt (phone self));
        ("created_at", JTime (created_at self));
        ("updated_at", JTime (updated_at self))].
End User.

Module Job.
Record t : Type := mk {
  id : Z;
  title : string;
  description : string;
  requirements : option string;
  salary_range : option string;
  location : option string;
  job_type : option string;
  experience_level : option string;
  is_remote : bool;
  is_active : bool;
  created_at : Z;
  updated_at : Z;
  employer_id : Z
}.
End Job.

Module Application.
Record t : Type := mk {
  id : Z;
  job_id : Z;
  applicant_id : Z;
  status : string;
  cover_letter : option string;
  resume_url : option string;
  additional_info : option string;
  created_at : Z;
  updated_at : Z
}.

(** [application.status = s] followed by a commit at time [now]
    ([updated_at] has [onupdate=datetime.utcnow]). *)
Definition set_status (s : string) (now : Z) (self : t) : t :=
  mk (id self) (job_id self) (applicant_id self) s (cover_letter self)
     (resume_url self) (additional_info self) (created_at self) now.
End Application.

(** ** The store *)

Record database : Type := Database {
  users : list User.t;
  jobs : list Job.t;
  applications : list Application.t
}.

Section Table.
Context {R : Type} (pk : R -> Z).

(** [Model.query.get(k)]: the row whose primary key is [k]. *)
Definition query_get (rows : list R) (k : Z) : option R :=
  find (fun r => pk r =? k) rows.

(** The key an INTEGER PRIMARY KEY column gives the next row. *)
Definition next_id (rows : list R) : Z :=
  1 + fold_right Z.max 0 (map pk rows).

(** UPDATE of the row with key [k]. *)
Fixpoint update_row (k : Z) (f : R -> R) (rows : list R) : list R :=
  match rows with
  | [] => []
  | r :: rows' =>
      if pk r =? k then f r :: rows' else r :: update_row k f rows'
  end.

(** DELETE of the row with key [k]. *)
Definition delete_row (k : Z) (rows : list R) : list R :=
  filter (fun r => negb (pk r =? k)) rows.

(** [query.count()] *)
Definition count (rows : list R) : Z := Z.of_nat (List.length rows).
End Table.

Definition get_user (db : database) (k : Z) : option User.t :=
  query_get User.id (users db) k.

Definition get_job_row (db : database) (k : Z) : option Job.t :=
  query_get Job.id (jobs db) k.

Definition get_application_row (db : database) (k : Z) : option Application.t :=
  query_get Application.id (applications db) k.

(** [Application.query.filter_by(job_id=j, applicant_id=u).first()] *)
Definition first_application (db : database) (j u : Z) : option Application.t :=
  find (fun a => (Application.job_id a =? j) && (Application.applicant_id a =? u))
       (applications db).

(** *** Serialisation of rows: the [to_dict] family *)

(** [self.employer.company_name if self.employer else None] *)
Definition employer_company (db : database) (j : Job.t) : json :=
  match get_user db (Job.employer_id j) with
  | Some u => JOpt (User.company_name u)
  | None => JNull
  end.

Definition Job_to_dict (db : database) (self : Job.t) : json :=
  JObj [("id", JInt (Job.id self));
        ("title", JStr (Job.title self));
        ("description", JStr (Job.description self));
        ("requirements", JOpt (Job.requirements self));
        ("salary_range", JOpt (Job.salary_range self));
        ("location", JOpt (Job.location self));
        ("job_type", JOpt (Job.job_type self));
        ("experience_level", JOpt (Job.experience_level self));
        ("is_remote", JBool (Job.is_remote self));
        ("is_active", JBool (Job.is_active self));
        ("employer_id", JInt (Job.employer_id self));
        ("employer_name", employer_company db self);
        ("created_at", JTime (Job.created_at self));
        ("updated_at", JTime (Job.updated_at self));
        ("application_count",
          JInt (count (filter (fun a => Application.job_id a =? Job.id self)
                              (applications db))))].

Definition Job_to_summary (db : database) (self : Job.t) : json :=
  JObj [("id", JInt (Job.id self));
        ("title", JStr (Job.title self));
        ("company_name", employer_company db self);
        ("location", JOpt (Job.location self));
        ("job_type", JOpt (Job.job_type self));
        ("salary_range", JOpt (Job.salary_range self));
        ("is_remote", JBool (Job.is_remote self));
        ("created_at", JTime (Job.created_at self))].

Definition Application_to_dict (db : database) (self : Application.t) : json :=
  let job := get_job_row db (Application.job_id self) in
  let applicant := get_user db (Application.applicant_id self) in
  JObj [("id", JInt (Application.id self));
        ("job_id", JInt (Application.job_id self));
        ("job_title", match job with Some j => JStr (Job.title j) | None => JNull end);
        ("applicant_id", JInt (Application.applicant_id self));
        ("applicant_name",
          match applicant with Some u => JOpt (User.full_name u) | None => JNull end);
        ("applicant_email",
          match applicant with Some u => JStr (User.email u) | None => JNull end);
        ("status", JStr (Application.status self));
        ("cover_letter", JOpt (Application.cover_letter self));
        ("resume_url", JOpt (Application.resume_url self));
        ("additional_info", JOpt (Application.additional_info self));
        ("created_at", JTime (Application.created_at self));
        ("updated_at", JTime (Application.updated_at self))].

Definition Application_to_applicant_view (db : database) (self : Application.t) : json :=
  let job := get_job_row db (Application.job_id self) in
  JObj [("id", JInt (Application.id self));
        ("job_id", JInt (Application.job_id self));
        ("job_title", match job with Some j => JStr (Job.title j) | None => JNull end);
        ("employer_name",
          match job with Some j => employer_company db j | None => JNull end);
        ("status", JStr (Application.status self));
        ("applied_at", JTime (Application.created_at self))].

(** ** Requests and views *)

(** What the token service answers for the request's bearer token. *)
Inductive token : Type :=
| Valid (identity : Z)
| Expired
| Invalid
| Absent.

(** A request: its token, the clock ([datetime.utcnow()]) and what the
    handler reads from it, the JSON body or the query string. *)
Record request (P : Type) : Type := Request {
  jwt : token;
  now : Z;
  payload : P
}.
Arguments Request {P}.
Arguments jwt {P}.
Arguments now {P}.
Arguments payload {P}.

(** The URL parameters Flask passes as keyword arguments. *)
Definition kwargs : Type := list (string * Z).

Definition kwarg (name : string) (kw : kwargs) : option Z :=
  match find (fun kv => String.eqb (fst kv) name) kw with
  | Some kv => Some (snd kv)
  | None => None
  end.

Definition result : Type := (response * database)%type.

Definition view (P : Type) : Type := kwargs -> request P -> database -> result.

(** A function below [jwt_required()]: its first argument is what
    [get_jwt_identity()] returns inside it. *)
Definition protected (P : Type) : Type := Z -> view P.

(** ** main.py: the token callbacks and the 500 handler *)

Definition expired_token_callback : response :=
  error_response "Token expired"
    "Your access token has expired. Please log in again." 401.

Definition invalid_token_callback : response :=
  error_response "Invalid token" "The provided token is invalid." 401.

Definition unauthorized_callback : response :=
  error_response "Authorization required"
    "Access token is required for this endpoint." 401.

Definition internal_error : response :=
  error_response "Internal server error" "An unexpected error occurred." 500.

(** [@jwt_required()] *)
Definition jwt_required {P : Type} (fn : protected P) : view P :=
  fun kw req db =>
    match jwt req with
    | Valid identity => fn identity kw req db
    | Expired => (expired_token_callback, db)
    | Invalid => (invalid_token_callback, db)
    | Absent => (unauthorized_callback, db)
    end.

(** The call of a view function whose one parameter is the keyword
    argument [name].  Without that argument the call raises before the
    function's [try] is entered, which Flask answers through the 500
    handler of [main.py]; no route calls its function that way. *)
Definition with_kwarg {P : Type} (name : string)
    (fn : Z -> Z -> request P -> database -> result) : protected P :=
  fun user_id kw req db =>
    match kwarg name kw with
    | Some v => fn v user_id req db
    | None => (internal_error, db)
    end.

(** ** decorators.py *)

Definition user_not_found (c : Z) : response :=
  error_response "User not found"
    "The user associated with this token no longer exists" c.

Definition employer_required {P : Type} (fn : protected P) : view P :=
  jwt_required (fun user_id kw req db =>
    match get_user db user_id with
    | None => (user_not_found 401, db)
    | Some user =>
        if negb (User.role user =? UserRole.EMPLOYER)%string then
          (Response (JObj [("error", JStr "Access denied");
                           ("message", JStr "Only employers can access this resource");
                           ("your_role", JStr (User.role user))]) 403, db)
        else fn user_id kw req db
    end).

Definition job_seeker_required {P : Type} (fn : protected P) : view P :=
  jwt_required (fun user_id kw req db =>
    match get_user db user_id with
    | None => (user_not_found 401, db)
    | Some user =>
        if negb (User.role user =? UserRole.JOB_SEEKER)%string then
          (Response (JObj [("error", JStr "Access denied");
                           ("message", JStr "Only job seekers can access this resource");
                           ("your_role", JStr (User.role user))]) 403, db)
        else fn user_id kw req db
    end).

(** A SQLAlchemy model as [resource_owner_or_employer_required] uses it:
    its name, its primary-key lookup, and the columns [hasattr] probes
    for ([None] where the class has no such attribute). *)
Record model (R : Type) : Type := Model {
  name : string;
  get : database -> Z -> option R;
  attr_employer_id : option (R -> Z);
  attr_user_id : option (R -> Z);
  attr_applicant_id : option (R -> Z)
}.
Arguments Model {R}.
Arguments name {R}.
Arguments get {R}.
Arguments attr_employer_id {R}.
Arguments attr_user_id {R}.
Arguments attr_applicant_id {R}.

Definition JobModel : model Job.t :=
  Model "Job" get_job_row (Some Job.employer_id) None None.

Definition ApplicationModel : model Application.t :=
  Model "Application" get_application_row None None (Some Application.applicant_id).

(** [hasattr(resource, a) and resource.a == v] *)
Definition hasattr_eq {R : Type} (a : option (R -> Z)) (resource : R) (v : Z) : bool :=
  match a with
  | Some col => col resource =? v
  | None => false
  end.

Definition access_denied : response :=
  error_response "Access denied"
    "You do not have permission to access or modify this resource" 403.

Definition resource_owner_or_employer_required {P R : Type}
    (resource_model : model R) (resource_id_param : string)
    (fn : protected P) : view P :=
  jwt_required (fun user_id kw req db =>
    match get_user db user_id with
    | None => (user_not_found 401, db)
    | Some user =>
        let resource_id := kwarg resource_id_param kw in
        match resource_id with
        | None | Some 0 =>
            (error_response "Resource ID not found"
               ("Could not find " ++ resource_id_param ++ " in request parameters")
               400, db)
        | Some resource_id =>
            match get resource_model db resource_id with
            | None =>
                (error_response "Resource not found"
                   (name resource_model ++ " with ID " ++ Py.str resource_id
                    ++ " not found") 404, db)
            | Some resource =>
                let owner_checks :=
                  if hasattr_eq (attr_applicant_id resource_model) resource (User.id user)
                  then fn user_id kw req db
                  else if hasattr_eq (attr_user_id resource_model) resource (User.id user)
                  then fn user_id kw req db
                  else (access_denied, db) in
                if (User.role user =? UserRole.EMPLOYER)%string then
                  if hasattr_eq (attr_employer_id resource_model) resource (User.id user)
                  then fn user_id kw req db
                  else if hasattr_eq (attr_user_id resource_model) resource (User.id user)
                  then fn user_id kw req db
                  else owner_checks
                else owner_checks
            end
        end
    end).

(** ** routes/applications.py *)

(** The JSON body of [POST /api/applications]. *)
Record application_data : Type := ApplicationData {
  data_job_id : option Z;
  data_cover_letter : option string;
  data_resume_url : option string;
  data_additional_info : option string
}.

(** The JSON body of [PUT /api/applications/<id>/status]. *)
Record status_data : Type := StatusData {
  data_status : option string
}.

Definition no_data_provided : response :=
  error_response "No data provided" "Request body must contain JSON data" 400.

Definition application_not_found (application_id : Z) : response :=
  error_response "Application not found"
    ("No application found with ID " ++ Py.str application_id) 404.

Definition job_not_found (job_id : Z) : response :=
  error_response "Job not found" ("No job found with ID " ++ Py.str job_id) 404.

Definition job_not_available : response :=
  error_response "Job not available" "This job posting is no longer active" 400.

Definition already_applied (existing_application : Application.t) : response :=
  Response (JObj [("error", JStr "Already applied");
                  ("message", JStr "You have already applied to this job");
                  ("application_id", JInt (Application.id existing_application));
                  ("status", JStr (Application.status existing_application))]) 409.

(** The body is [None] when [request.get_json()] is falsy (no body, or an
    empty object). *)
Definition create_application : protected (option application_data) :=
  fun user_id _ req db =>
    let user := get_user db user_id in
    match payload req with
    | None => (no_data_provided, db)
    | Some data =>
        match data_job_id data with
        | None | Some 0 =>
            (error_response "Missing job ID" "Job ID is required" 400, db)
        | Some job_id =>
            match get_job_row db job_id with
            | None => (job_not_found job_id, db)
            | Some job =>
                if negb (Job.is_active job) then (job_not_available, db)
                else
                  match user with
                  | None =>
                      (error_response "Failed to submit application"
                         "'NoneType' object has no attribute 'id'" 500, db)
                  | Some user =>
                      match first_application db job_id (User.id user) with
                      | Some existing_application =>
                          (already_applied existing_application, db)
                      | None =>
                          let application :=
                            Application.mk
                              (next_id Application.id (applications db))
                              job_id (User.id user) ApplicationStatus.PENDING
                              (Some (Py.strip (Py.get (data_cover_letter data) "")))
                              (Some (Py.strip (Py.get (data_resume_url data) "")))
                              (Some (Py.strip (Py.get (data_additional_info data) "")))
                              (now req) (now req) in
                          let db' :=
                            Database (users db) (jobs db)
                                     (applications db ++ [application])%list in
                          (Response
                             (JObj [("message", JStr "Application submitted successfully");
                                    ("application", Application_to_dict db' application)])
                             201, db')
                      end
                  end
            end
        end
    end.

Definition cannot_withdraw (application : Application.t) : response :=
  error_response "Cannot withdraw application"
    ("Application status is " ++ Application.status application
     ++ ". Only pending applications can be withdrawn.") 400.

Definition set_application_status (db : database) (application_id : Z)
    (s : string) (t : Z) : database :=
  Database (users db) (jobs db)
           (update_row Application.id application_id
                       (Application.set_status s t) (applications db)).

Definition withdraw_application (application_id : Z) (user_id : Z)
    (req : request unit) (db : database) : result :=
  match get_application_row db application_id with
  | None => (application_not_found application_id, db)
  | Some application =>
      if negb (Application.applicant_id application =? user_id) then
        (error_response "Access denied"
           "You can only withdraw your own applications" 403, db)
      else if negb (Application.status application =? ApplicationStatus.PENDING)%string then
        (cannot_withdraw application, db)
      else
        let db' := set_application_status db application_id
                     ApplicationStatus.WITHDRAWN (now req) in
        (Response
           (JObj [("message", JStr "Application withdrawn successfully");
                  ("application",
                    Application_to_dict db'
                      (Application.set_status ApplicationStatus.WITHDRAWN (now req)
                                              application))])
           200, db')
  end.

Definition valid_statuses : list string :=
  [ApplicationStatus.ACCEPTED; ApplicationStatus.REJECTED].

Definition cannot_update_status (application : Application.t) : response :=
  error_response "Cannot update status"
    ("Application status is already " ++ Application.status application) 400.

Definition update_application_status (application_id : Z) (user_id : Z)
    (req : request (option status_data)) (db : database) : result :=
  match get_application_row db application_id with
  | None => (application_not_found application_id, db)
  | Some application =>
      match payload req with
      | None | Some (StatusData None) =>
          (error_response "Missing status" "Status is required" 400, db)
      | Some (StatusData (Some status)) =>
          let new_status := Py.lower status in
          if negb (Py.mem new_status valid_statuses) then
            (error_response "Invalid status"
               ("Status must be one of: " ++ Py.join ", " valid_statuses) 400, db)
          else if negb (Application.status application =? ApplicationStatus.PENDING)%string then
            (cannot_update_status application, db)
          else
            let db' := set_application_status db application_id new_status (now req) in
            (Response
               (JObj [("message", JStr "Application status updated successfully");
                      ("application",
                        Application_to_dict db'
                          (Application.set_status new_status (now req) application))])
               200, db')
      end
  end.

Definition application_deleted : response :=
  Response (JObj [("message", JStr "Application deleted successfully")]) 200.

Definition cannot_delete : response :=
  error_response "Cannot delete application"
    "Application must be withdrawn before deletion" 400.

Definition delete_application (application_id : Z) (user_id : Z)
    (req : request unit) (db : database) : result :=
  match get_application_row db application_id with
  | None => (application_not_found application_id, db)
  | Some application =>
      if negb (Application.applicant_id application =? user_id) then
        (error_response "Access denied"
           "You can only delete your own applications" 403, db)
      else if negb (Application.status application =? ApplicationStatus.WITHDRAWN)%string then
        (cannot_delete, db)
      else
        (application_deleted,
         Database (users db) (jobs db)
                  (delete_row Application.id application_id (applications db)))
  end.

Definition check_application_status (job_id : Z) (user_id : Z)
    (req : request unit) (db : database) : result :=
  match get_job_row db job_id with
  | None => (job_not_found job_id, db)
  | Some job =>
      match first_application db job_id user_id with
      | Some application =>
          (Response (JObj [("has_applied", JBool true);
                           ("application",
                             Application_to_applicant_view db application)]) 200, db)
      | None => (Response (JObj [("has_applied", JBool false)]) 200, db)
      end
  end.

(** ** Queries the jobs listing runs *)

(** [query.order_by(key.desc())]: rows by decreasing key; rows with equal
    keys stay in table order. *)
Section OrderBy.
Context {R : Type} (key : R -> Z).

Fixpoint insert_desc (r : R) (rows : list R) : list R :=
  match rows with
  | [] => [r]
  | x :: rows' =>
      if key x <=? key r then r :: x :: rows' else x :: insert_desc r rows'
  end.

Definition order_by_desc (rows : list R) : list R :=
  fold_right insert_desc [] rows.
End OrderBy.

Record Pagination (R : Type) : Type := MkPagination {
  items : list R;
  page : Z;
  per_page : Z;
  total : Z;
  pages : Z;
  has_next : bool;
  has_prev : bool
}.
Arguments MkPagination {R}.
Arguments items {R}.
Arguments page {R}.
Arguments per_page {R}.
Arguments total {R}.
Arguments pages {R}.
Arguments has_next {R}.
Arguments has_prev {R}.

(** The least number of pages of [b] rows that hold [a] rows. *)
Definition ceil_div (a b : Z) : Z := (a + b - 1) / b.

(** Modelled from the spec: [query.paginate(page=, per_page=,
    error_out=False)] belongs to Flask-SQLAlchemy and is not among the
    sources.  The spec gives it for page >= 1 and per_page >= 1: the items
    are the rows from offset (page - 1) * per_page, at most per_page of
    them; total_items counts the rows of the query; total_pages is
    ceil(total_items / per_page); has_next and has_prev tell whether a
    page follows or precedes; a page past the end has no items and is not
    an error.  Where the spec is silent (page < 1, per_page < 1) the model
    takes page 1 and per_page 20, as the library does when [error_out] is
    off. *)
Definition paginate {R : Type} (query : list R) (page_arg per_page_arg : Z)
  : Pagination R :=
  let page := if page_arg <? 1 then 1 else page_arg in
  let per_page := if per_page_arg <? 1 then 20 else per_page_arg in
  let total := count query in
  let pages := if total =? 0 then 0 else ceil_div total per_page in
  MkPagination
    (firstn (Z.to_nat per_page) (skipn (Z.to_nat ((page - 1) * per_page)) query))
    page per_page total pages (page <? pages) (page >? 1).

(** ** routes/jobs.py *)

(** The query string of [GET /api/jobs].  [page], [per_page] and
    [employer_id] are read with [type=int]: a value that is no integer
    reads as absent. *)
Record job_list_args : Type := JobListArgs {
  arg_page : option Z;
  arg_per_page : option Z;
  arg_search : option string;
  arg_location : option string;
  arg_job_type : option string;
  arg_is_remote : option string;
  arg_employer_id : option Z
}.

(** The JSON body of [POST /api/jobs] and [PUT /api/jobs/<id>]. *)
Record job_data : Type := JobData {
  data_title : option string;
  data_description : option string;
  data_requirements : option string;
  data_salary_range : option string;
  data_location : option string;
  data_job_type : option string;
  data_experience_level : option string;
  data_is_remote : option bool;
  data_is_active : option bool
}.

Definition pagination_json {R : Type} (page per_page : Z) (pagination : Pagination R)
  : json :=
  JObj [("page", JInt page);
        ("per_page", JInt per_page);
        ("total_items", JInt (total pagination));
        ("total_pages", JInt (pages pagination));
        ("has_next", JBool (has_next pagination));
        ("has_prev", JBool (has_prev pagination))].

Definition option_string_eqb (o : option string) (s : string) : bool :=
  match o with
  | Some v => String.eqb v s
  | None => false
  end.

Section JobListing.
(** [column.ilike(pattern)] is the store's: value first, pattern second. *)
Variable ilike : string -> string -> bool.

Definition option_ilike (o : option string) (pattern : string) : bool :=
  match o with
  | Some v => ilike v pattern
  | None => false
  end.

(** [query.filter(cond)] when [guard] holds, [query] otherwise. *)
Definition filter_if {R : Type} (guard : bool) (cond : R -> bool) (query : list R)
  : list R :=
  if guard then filter cond query else query.

Definition is_remote_bool (is_remote : string) : bool :=
  Py.mem (Py.lower is_remote) ["true"; "1"; "yes"].

(** The query of [get_all_jobs], up to [order_by]. *)
Definition get_all_jobs_query (db : database) (args : job_list_args) : list Job.t :=
  let search := Py.strip (Py.get (arg_search args) "") in
  let location := Py.strip (Py.get (arg_location args) "") in
  let job_type := Py.strip (Py.get (arg_job_type args) "") in
  let is_remote := arg_is_remote args in
  let employer_id := arg_employer_id args in
  let query := filter Job.is_active (jobs db) in
  let query :=
    filter_if (negb (search =? "")%string)
      (fun j => let search_term := "%" ++ search ++ "%" in
                ilike (Job.title j) search_term
                || ilike (Job.description j) search_term) query in
  let query :=
    filter_if (negb (location =? "")%string)
      (fun j => option_ilike (Job.location j) ("%" ++ location ++ "%")) query in
  let query :=
    filter_if (negb (job_type =? "")%string)
      (fun j => option_string_eqb (Job.job_type j) job_type) query in
  let query :=
    match is_remote with
    | Some is_remote =>
        filter (fun j => Bool.eqb (Job.is_remote j) (is_remote_bool is_remote)) query
    | None => query
    end in
  let query :=
    match employer_id with
    | None | Some 0 => query
    | Some employer_id => filter (fun j => Job.employer_id j =? employer_id) query
    end in
  order_by_desc Job.created_at query.

Definition get_all_jobs_page (db : database) (args : job_list_args)
  : Pagination Job.t :=
  paginate (get_all_jobs_query db args)
           (Py.get (arg_page args) 1) (Py.get (arg_per_page args) 10).

Definition get_all_jobs : protected job_list_args :=
  fun _ _ req db =>
    let page := Py.get (arg_page (payload req)) 1 in
    let per_page := Py.get (arg_per_page (payload req)) 10 in
    let pagination := get_all_jobs_page db (payload req) in
    let jobs := items pagination in
    (Response
       (JObj [("jobs", JList (map (Job_to_summary db) jobs));
              ("pagination", pagination_json page per_page pagination)])
       200, db).
End JobListing.

Definition job_deactivated : response :=
  error_response "Job not available" "This job posting has been deactivated" 404.

Definition get_job (job_id : Z) (user_id : Z) (req : request unit) (db : database)
  : result :=
  match get_job_row db job_id with
  | None => (job_not_found job_id, db)
  | Some job =>
      if negb (Job.is_active job) then (job_deactivated, db)
      else (Response (JObj [("job", Job_to_dict db job)]) 200, db)
  end.

Definition validation_failed (messages : list string) : response :=
  Response (JObj [("error", JStr "Validation failed");
                  ("messages", JList (map JStr messages))]) 400.

Definition create_job : protected (option job_data) :=
  fun user_id _ req db =>
    let user := get_user db user_id in
    match payload req with
    | None => (no_data_provided, db)
    | Some data =>
        let title := Py.strip (Py.get (data_title data) "") in
        let description := Py.strip (Py.get (data_description data) "") in
        let errors :=
          ((if (title =? "")%string then ["Job title is required"]
            else if Py.len title <? 5
                 then ["Job title must be at least 5 characters long"]
                 else [])
           ++ (if (description =? "")%string then ["Job description is required"]
               else []))%list in
        match errors with
        | _ :: _ => (validation_failed errors, db)
        | [] =>
            match user with
            | None =>
                (error_response "Failed to create job"
                   "'NoneType' object has no attribute 'id'" 500, db)
            | Some user =>
                let job :=
                  Job.mk (next_id Job.id (jobs db)) title description
                    (Some (Py.strip (Py.get (data_requirements data) "")))
                    (Some (Py.strip (Py.get (data_salary_range data) "")))
                    (Some (Py.strip (Py.get (data_location data) "")))
                    (Some (Py.lower (Py.strip (Py.get (data_job_type data) ""))))
                    (Some (Py.lower (Py.strip (Py.get (data_experience_level data) ""))))
                    (Py.get (data_is_remote data) false)
                    true (now req) (now req) (User.id user) in
                let db' := Database (users db) (jobs db ++ [job])%list (applications db) in
                (Response (JObj [("message", JStr "Job posted successfully");
                                 ("job", Job_to_dict db' job)]) 201, db')
            end
        end
    end.

Definition option_eqb (a b : option string) : bool :=
  match a, b with
  | Some x, Some y => String.eqb x y
  | None, None => true
  | _, _ => false
  end.

(** Whether two versions of a job row agree on the columns [update_job]
    assigns: the flush writes the row, and [onupdate] refreshes
    [updated_at], only when one of them changed. *)
Definition same_columns (a b : Job.t) : bool :=
  String.eqb (Job.title a) (Job.title b)
  && String.eqb (Job.description a) (Job.description b)
  && option_eqb (Job.requirements a) (Job.requirements b)
  && option_eqb (Job.salary_range a) (Job.salary_range b)
  && option_eqb (Job.location a) (Job.location b)
  && option_eqb (Job.job_type a) (Job.job_type b)
  && option_eqb (Job.experience_level a) (Job.experience_level b)
  && Bool.eqb (Job.is_remote a) (Job.is_remote b)
  && Bool.eqb (Job.is_active a) (Job.is_active b).

(** [if k in data: job.col = f(data[k])] *)
Definition assign {A B : Type} (supplied : option A) (f : A -> B) (current : B) : B :=
  match supplied with
  | Some v => f v
  | None => current
  end.

Definition update_job (job_id : Z) (user_id : Z) (req : request (option job_data))
    (db : database) : result :=
  match get_job_row db job_id with
  | None => (job_not_found job_id, db)
  | Some job =>
      match payload req with
      | None => (no_data_provided, db)
      | Some data =>
          let title := assign (data_title data) Py.strip (Job.title job) in
          if match data_title data with Some _ => (title =? "")%string | None => false end
          then (validation_failed ["Job title cannot be empty"], db)
          else
            let description :=
              assign (data_description data) Py.strip (Job.description job) in
            if match data_description data with
               | Some _ => (description =? "")%string
               | None => false
               end
            then (validation_failed ["Job description cannot be empty"], db)
            else
              let assigned (updated_at : Z) :=
                Job.mk (Job.id job) title description
                  (assign (data_requirements data)
                          (fun v => Some (Py.strip v)) (Job.requirements job))
                  (assign (data_salary_range data)
                          (fun v => Some (Py.strip v)) (Job.salary_range job))
                  (assign (data_location data)
                          (fun v => Some (Py.strip v)) (Job.location job))
                  (assign (data_job_type data)
                          (fun v => Some (Py.lower (Py.strip v))) (Job.job_type job))
                  (assign (data_experience_level data)
                          (fun v => Some (Py.lower (Py.strip v)))
                          (Job.experience_level job))
                  (assign (data_is_remote data) (fun v => v) (Job.is_remote job))
                  (assign (data_is_active data) (fun v => v) (Job.is_active job))
                  (Job.created_at job) updated_at (Job.employer_id job) in
              let job' :=
                if same_columns job (assigned (Job.updated_at job))
                then job else assigned (now req) in
              let db' :=
                Database (users db) (update_row Job.id job_id (fun _ => job') (jobs db))
                         (applications db) in
              (Response (JObj [("message", JStr "Job updated successfully");
                               ("job", Job_to_dict db' job')]) 200, db')
      end
  end.

(** ** auth.py: login *)

(** The JSON body of [POST /api/auth/login]. *)
Record login_data : Type := LoginData {
  data_email : option string;
  data_password : option string
}.

Definition authentication_failed : response :=
  error_response "Authentication failed" "Invalid email or password" 401.

Section Login.
(** The credential verifier and the token service, both external:
    [check_password_hash(stored, password)], [create_access_token] and
    [create_refresh_token]. *)
Variable check_password_hash : string -> string -> bool.
Variables create_access_token create_refresh_token : Z -> string.

(** [User.check_password] *)
Definition check_password (self : User.t) (password : string) : bool :=
  check_password_hash (User.password_hash self) password.

Definition login : view (option login_data) :=
  fun _ req db =>
    match payload req with
    | None => (no_data_provided, db)
    | Some data =>
        let email := Py.lower (Py.strip (Py.get (data_email data) "")) in
        let password := Py.get (data_password data) "" in
        if (email =? "")%string || (password =? "")%string then
          (error_response "Missing credentials"
             "Email and password are required" 400, db)
        else
          match find (fun u => String.eqb (User.email u) email) (users db) with
          | None => (authentication_failed, db)
          | Some user =>
              if negb (check_password user password) then
                (authentication_failed, db)
              else
                (Response
                   (JObj [("message", JStr "Login successful");
                          ("user", User.to_dict user);
                          ("access_token", JStr (create_access_token (User.id user)));
                          ("refresh_token", JStr (create_refresh_token (User.id user)));
                          ("token_type", JStr "Bearer")]) 200, db)
          end
    end.
End Login.

(** ** The routes: each view function under its decorators *)

Module Route.

Definition create_application : request (option application_data) -> database -> result :=
  job_seeker_required create_application [].

Definition withdraw_application (application_id : Z)
  : request unit -> database -> result :=
  job_seeker_required (with_kwarg "application_id" withdraw_application)
                      [("application_id", application_id)].

Definition update_application_status (application_id : Z)
  : request (option status_data) -> database -> result :=
  employer_required
    (fun _ =>
       resource_owner_or_employer_required ApplicationModel "application_id"
         (with_kwarg "application_id" update_application_status))
    [("application_id", application_id)].

Definition delete_application (application_id : Z)
  : request unit -> database -> result :=
  job_seeker_required (with_kwarg "application_id" delete_application)
                      [("application_id", application_id)].

Definition check_application_status (job_id : Z)
  : request unit -> database -> result :=
  job_seeker_required (with_kwarg "job_id" check_application_status)
                      [("job_id", job_id)].

Definition get_all_jobs (ilike : string -> string -> bool)
  : request job_list_args -> database -> result :=
  jwt_required (get_all_jobs ilike) [].

Definition get_job (job_id : Z) : request unit -> database -> result :=
  jwt_required (with_kwarg "job_id" get_job) [("job_id", job_id)].

Definition create_job : request (option job_data) -> database -> result :=
  employer_required create_job [].

Definition update_job (job_id : Z) : request (option job_data) -> database -> result :=
  employer_required
    (fun _ =>
       resource_owner_or_employer_required JobModel "job_id"
         (with_kwarg "job_id" update_job))
    [("job_id", job_id)].

End Route.

(** ** Sequences of requests *)

(** The requests that write the [jobs] and [applications] tables. *)
Inductive operation : Type :=
| Apply (req : request (option application_data))
| Withdraw (application_id : Z) (req : request unit)
| Decide (application_id : Z) (req : request (option status_data))
| DeleteApplication (application_id : Z) (req : request unit)
| CreateJob (req : request (option job_data))
| UpdateJob (job_id : Z) (req : request (option job_data)).

Definition run (op : operation) (db : database) : result :=
  match op with
  | Apply req => Route.create_application req db
  | Withdraw application_id req => Route.withdraw_application application_id req db
  | Decide application_id req => Route.update_application_status application_id req db
  | DeleteApplication application_id req => Route.delete_application application_id req db
  | CreateJob req => Route.create_job req db
  | UpdateJob job_id req => Route.update_job job_id req db
  end.

(** The store after the operations [ops], run in order. *)
Definition run_all (ops : list operation) (db : database) : database :=
  fold_left (fun db op => snd (run op db)) ops db.

(** ** decorators.py: the general role check *)

(** [role_required(allowed_roles)] *)
Definition role_required {P : Type} (allowed_roles : list string) (fn : protected P)
  : view P :=
  jwt_required (fun user_id kw req db =>
    match get_user db user_id with
    | None => (user_not_found 401, db)
    | Some user =>
        if negb (Py.mem (User.role user) allowed_roles) then
          (Response
             (JObj [("error", JStr "Access denied");
                    ("message",
                      JStr ("This action requires one of the following roles: "
                            ++ Py.join ", " allowed_roles));
                    ("required_roles", JList (map JStr allowed_roles));
                    ("your_role", JStr (User.role user))]) 403, db)
        else fn user_id kw req db
    end).

(** ** routes/applications.py: the views that read *)

(** The query string of [GET /api/applications] and of
    [GET /api/jobs/<id>/applications] (which reads no [job_id]). *)
Record application_list_args : Type := ApplicationListArgs {
  list_page : option Z;
  list_per_page : option Z;
  list_status : option string;
  list_job_id : option Z
}.

Definition known_statuses : list string :=
  [ApplicationStatus.PENDING; ApplicationStatus.ACCEPTED;
   ApplicationStatus.REJECTED; ApplicationStatus.WITHDRAWN].

Definition invalid_role : response :=
  error_response "Invalid role" "User has an invalid role" 400.

(** [Application.query.join(Job).filter(Job.employer_id == k)]: the join is
    on the foreign key [applications.job_id = jobs.id]. *)
Definition applications_to_jobs_of (db : database) (k : Z) : list Application.t :=
  flat_map
    (fun a =>
       map (fun _ => a)
           (filter (fun j => (Job.id j =? Application.job_id a)
                             && (Job.employer_id j =? k)) (jobs db)))
    (applications db).

(** [if status and status in [...]: query = query.filter(status == ...)] *)
Definition filter_status (status : string) (query : list Application.t)
  : list Application.t :=
  filter_if (negb (status =? "")%string && Py.mem status known_statuses)
            (fun a => String.eqb (Application.status a) status) query.

(** The query of [get_my_applications] for the caller [user]; [None] when
    the role is neither of the two. *)
Definition get_my_applications_query (db : database) (user : User.t)
    (args : application_list_args) : option (list Application.t) :=
  let status := Py.lower (Py.strip (Py.get (list_status args) "")) in
  let job_id := list_job_id args in
  let base :=
    if (User.role user =? UserRole.JOB_SEEKER)%string then
      Some (filter (fun a => Application.applicant_id a =? User.id user)
                   (applications db))
    else if (User.role user =? UserRole.EMPLOYER)%string then
      Some (applications_to_jobs_of db (User.id user))
    else None in
  match base with
  | None => None
  | Some query =>
      let query := filter_status status query in
      let query :=
        match job_id with
        | None | Some 0 => query
        | Some job_id => filter (fun a => Application.job_id a =? job_id) query
        end in
      Some (order_by_desc Application.created_at query)
  end.

Definition get_my_applications : protected application_list_args :=
  fun user_id _ req db =>
    match get_user db user_id with
    | None => (user_not_found 404, db)
    | Some user =>
        let page := Py.get (list_page (payload req)) 1 in
        let per_page := Py.get (list_per_page (payload req)) 10 in
        match get_my_applications_query db user (payload req) with
        | None => (invalid_role, db)
        | Some query =>
            let pagination := paginate query page per_page in
            let applications := items pagination in
            (Response
               (JObj [("applications",
                        JList (map (Application_to_applicant_view db) applications));
                      ("pagination", pagination_json page per_page pagination)])
               200, db)
        end
    end.

Definition get_application (application_id : Z) (user_id : Z) (req : request unit)
    (db : database) : result :=
  match get_user db user_id with
  | None => (user_not_found 404, db)
  | Some user =>
      match get_application_row db application_id with
      | None => (application_not_found application_id, db)
      | Some application =>
          let granted :=
            (Response (JObj [("application", Application_to_dict db application)]) 200,
             db) in
          if (User.role user =? UserRole.JOB_SEEKER)%string then
            if negb (Application.applicant_id application =? User.id user) then
              (error_response "Access denied"
                 "You can only view your own applications" 403, db)
            else granted
          else if (User.role user =? UserRole.EMPLOYER)%string then
            match get_job_row db (Application.job_id application) with
            | None =>
                (error_response "Failed to fetch application"
                   "'NoneType' object has no attribute 'employer_id'" 500, db)
            | Some job =>
                if negb (Job.employer_id job =? User.id user) then
                  (error_response "Access denied"
                     "You can only view applications to your jobs" 403, db)
                else granted
            end
          else (invalid_role, db)
      end
  end.

(** ** routes/jobs.py: deletion and the employer's listings *)

(** The query string of [GET /api/jobs/my-jobs]. *)
Record my_jobs_args : Type := MyJobsArgs {
  mine_page : option Z;
  mine_per_page : option Z;
  mine_include_inactive : option string
}.

(** The query of [get_my_jobs]. *)
Definition get_my_jobs_query (db : database) (user_id : Z) (args : my_jobs_args)
  : list Job.t :=
  let include_inactive :=
    (Py.lower (Py.get (mine_include_inactive args) "false") =? "true")%string in
  let query := filter (fun j => Job.employer_id j =? user_id) (jobs db) in
  let query := filter_if (negb include_inactive) Job.is_active query in
  order_by_desc Job.created_at query.

Definition get_my_jobs : protected my_jobs_args :=
  fun user_id _ req db =>
    let page := Py.get (mine_page (payload req)) 1 in
    let per_page := Py.get (mine_per_page (payload req)) 10 in
    let pagination := paginate (get_my_jobs_query db user_id (payload req)) page per_page in
    let jobs := items pagination in
    (Response
       (JObj [("jobs", JList (map (Job_to_dict db) jobs));
              ("pagination", pagination_json page per_page pagination)])
       200, db).

(** The query of [get_job_applications]. *)
Definition get_job_applications_query (db : database) (job_id : Z)
    (args : application_list_args) : list Application.t :=
  let status := Py.lower (Py.strip (Py.get (list_status args) "")) in
  let query := filter (fun a => Application.job_id a =? job_id) (applications db) in
  let query := filter_status status query in
  order_by_desc Application.created_at query.

Definition get_job_applications (job_id : Z) (user_id : Z)
    (req : request application_list_args) (db : database) : result :=
  match get_job_row db job_id with
  | None => (job_not_found job_id, db)
  | Some job =>
      let page := Py.get (list_page (payload req)) 1 in
      let per_page := Py.get (list_per_page (payload req)) 10 in
      let pagination :=
        paginate (get_job_applications_query db job_id (payload req)) page per_page in
      let applications := items pagination in
      (Response
         (JObj [("applications", JList (map (Application_to_dict db) applications));
                ("job", Job_to_summary db job);
                ("pagination", pagination_json page per_page pagination)])
         200, db)
  end.

(** [job.is_active = False] followed by a commit at time [t]; a job that
    is inactive already is not written. *)
Definition deactivate (t : Z) (job : Job.t) : Job.t :=
  if Job.is_active job then
    Job.mk (Job.id job) (Job.title job) (Job.description job) (Job.requirements job)
           (Job.salary_range job) (Job.location job) (Job.job_type job)
           (Job.experience_level job) (Job.is_remote job) false
           (Job.created_at job) t (Job.employer_id job)
  else job.

Section DeleteJob.
(** [db.session.delete(job)] followed by [db.session.commit()]: the store
    the commit leaves, or the text of the exception it raises.  What the
    ORM does with the applications of the job is decided by the mapper
    configuration and the store, not by the route. *)
Variable session_delete_job : database -> Job.t -> database + string.

(** [hard] is the query parameter of that name. *)
Definition delete_job (job_id : Z) (user_id : Z) (req : request (option string))
    (db : database) : result :=
  match get_job_row db job_id with
  | None => (job_not_found job_id, db)
  | Some job =>
      let hard_delete := (Py.lower (Py.get (payload req) "false") =? "true")%string in
      let deleted (message : string) (db' : database) : result :=
        (Response (JObj [("message", JStr message); ("job_id", JInt job_id)]) 200, db') in
      if hard_delete then
        match session_delete_job db job with
        | inl db' => deleted "Job permanently deleted" db'
        | inr e => (error_response "Failed to delete job" e 500, db)
        end
      else
        deleted "Job deactivated (not deleted)"
                (Database (users db)
                          (update_row Job.id job_id (fun _ => deactivate (now req) job)
                                      (jobs db))
                          (applications db))
  end.
End DeleteJob.

(** The routes of these views. *)
Module Endpoint.

Definition get_my_applications : request application_list_args -> database -> result :=
  jwt_required get_my_applications [].

Definition get_application (application_id : Z) : request unit -> database -> result :=
  jwt_required (with_kwarg "application_id" get_application)
               [("application_id", application_id)].

Definition get_my_jobs : request my_jobs_args -> database -> result :=
  employer_required get_my_jobs [].

Definition get_job_applications (job_id : Z)
  : request application_list_args -> database -> result :=
  employer_required
    (fun _ =>
       resource_owner_or_employer_required JobModel "job_id"
         (with_kwarg "job_id" get_job_applications))
    [("job_id", job_id)].

Definition delete_job (session_delete_job : database -> Job.t -> database + string)
    (job_id : Z) : request (option string) -> database -> result :=
  employer_required
    (fun _ =>
       resource_owner_or_employer_required JobModel "job_id"
         (with_kwarg "job_id" (delete_job session_delete_job)))
    [("job_id", job_id)].

End Endpoint.

(** ** auth.py: registration, the current user, passwords *)

(** [c in s] for a character. *)
Fixpoint contains_char (c : ascii) (s : string) : bool :=
  match s with
  | EmptyString => false
  | String d s' => Ascii.eqb d c || contains_char c s'
  end.

(** [v if v else None] *)
Definition or_none (v : string) : option string :=
  if (v =? "")%string then None else Some v.

(** The JSON body of [POST /api/auth/register]. *)
Record register_data : Type := RegisterData {
  reg_email : option string;
  reg_password : option string;
  reg_role : option string;
  reg_full_name : option string;
  reg_company_name : option string;
  reg_phone : option string
}.

(** The JSON body of [POST /api/auth/change-password]. *)
Record password_data : Type := PasswordData {
  data_current_password : option string;
  data_new_password : option string
}.

Definition role_must_be : string :=
  "Role must be either '" ++ UserRole.EMPLOYER ++ "' or '" ++ UserRole.JOB_SEEKER ++ "'".

(** The validation messages of [register], in the order it appends them. *)
Definition register_errors (email password role company_name : string) : list string :=
  ((if (email =? "")%string then ["Email is required"]
    else if negb (contains_char "@" email) || negb (contains_char "." email)
         then ["Invalid email format"] else [])
   ++ (if (password =? "")%string then ["Password is required"]
       else if Py.len password <? 8
            then ["Password must be at least 8 characters long"] else [])
   ++ (if (role =? "")%string then ["Role is required"]
       else if negb (Py.mem role [UserRole.EMPLOYER; UserRole.JOB_SEEKER])
            then [role_must_be] else [])
   ++ (if (role =? UserRole.EMPLOYER)%string && (company_name =? "")%string
       then ["Company name is required for employers"] else []))%list.

Definition email_registered : response :=
  error_response "Email already registered"
    "An account with this email already exists" 409.

(** [User.query.filter_by(email=email).first()] *)
Definition first_user_by_email (db : database) (email : string) : option User.t :=
  find (fun u => String.eqb (User.email u) email) (users db).

(** [user.set_password(...)] followed by a commit at time [t]; a row whose
    hash does not change is not written. *)
Definition with_password_hash (h : string) (t : Z) (self : User.t) : User.t :=
  if String.eqb h (User.password_hash self) then self
  else User.mk (User.id self) (User.email self) h (User.role self) (User.full_name self)
               (User.company_name self) (User.phone self) (User.created_at self) t.

Section Auth.
(** The credential hasher and verifier ([generate_password_hash], whose
    salt is not modelled, and [check_password_hash]) and the token
    service. *)
Variable generate_password_hash : string -> string.
Variable check_password_hash : string -> string -> bool.
Variables create_access_token create_refresh_token : Z -> string.

Definition register : view (option register_data) :=
  fun _ req db =>
    match payload req with
    | None => (no_data_provided, db)
    | Some data =>
        let email := Py.lower (Py.strip (Py.get (reg_email data) "")) in
        let password := Py.get (reg_password data) "" in
        let role := Py.lower (Py.get (reg_role data) "") in
        let full_name := Py.strip (Py.get (reg_full_name data) "") in
        let company_name := Py.strip (Py.get (reg_company_name data) "") in
        let phone := Py.strip (Py.get (reg_phone data) "") in
        let errors := register_errors email password role company_name in
        match errors with
        | _ :: _ => (validation_failed errors, db)
        | [] =>
            match first_user_by_email db email with
            | Some existing_user => (email_registered, db)
            | None =>
                let user :=
                  User.mk (next_id User.id (users db)) email
                          (generate_password_hash password) role
                          (or_none full_name) (or_none company_name) (or_none phone)
                          (now req) (now req) in
                let db' := Database (users db ++ [user])%list (jobs db) (applications db) in
                (Response
                   (JObj [("message", JStr "User registered successfully");
                          ("user", User.to_dict user);
                          ("access_token", JStr (create_access_token (User.id user)));
                          ("refresh_token", JStr (create_refresh_token (User.id user)));
                          ("token_type", JStr "Bearer")]) 201, db')
            end
        end
    end.

Definition get_current_user : protected unit :=
  fun user_id _ req db =>
    match get_user db user_id with
    | None => (user_not_found 404, db)
    | Some user => (Response (JObj [("user", User.to_dict user)]) 200, db)
    end.

Definition change_password : protected (option password_data) :=
  fun user_id _ req db =>
    match get_user db user_id with
    | None => (user_not_found 404, db)
    | Some user =>
        match payload req with
        | None => (no_data_provided, db)
        | Some data =>
            let current_password := Py.get (data_current_password data) "" in
            let new_password := Py.get (data_new_password data) "" in
            if (current_password =? "")%string || (new_password =? "")%string then
              (error_response "Missing credentials"
                 "Current password and new password are required" 400, db)
            else if negb (check_password check_password_hash user current_password) then
              (error_response "Invalid password" "Current password is incorrect" 401, db)
            else if Py.len new_password <? 8 then
              (error_response "Invalid password"
                 "New password must be at least 8 characters long" 400, db)
            else
              (Response (JObj [("message", JStr "Password changed successfully")]) 200,
               Database
                 (update_row User.id user_id
                    (with_password_hash (generate_password_hash new_password) (now req))
                    (users db))
                 (jobs db) (applications db))
        end
    end.
End Auth.

(** ** Every request that writes *)

Section Api.
Variable session_delete_job : database -> Job.t -> database + string.
Variable generate_password_hash : string -> string.
Variable check_password_hash : string -> string -> bool.
Variables create_access_token create_refresh_token : Z -> string.

(** The requests of [operation], the two of [auth.py] that write the
    [users] table, and the deletion of a job. *)
Inductive call : Type :=
| Write (op : operation)
| Register (req : request (option register_data))
| ChangePassword (req : request (option password_data))
| DeleteJob (job_id : Z) (req : request (option string)).

Definition serve (c : call) (db : database) : result :=
  match c with
  | Write op => run op db
  | Register req =>
      register generate_password_hash create_access_token create_refresh_token [] req db
  | ChangePassword req =>
      jwt_required (change_password generate_password_hash check_password_hash) [] req db
  | DeleteJob job_id req => Endpoint.delete_job session_delete_job job_id req db
  end.

(** The store after the calls [cs], served in order. *)
Definition serve_all (cs : list call) (db : database) : database :=
  fold_left (fun db c => snd (serve c db)) cs db.
End Api.

(** ** A small store: the end-to-end scenario of the spec *)

Module Scenario.

(** The employer registered as e@x.com, company Acme. *)
Definition employer : User.t :=
  User.mk 1 "e@x.com" "hash:password1" UserRole.EMPLOYER None (Some "Acme") None 100 100.

(** The job seeker registered as s@x.com. *)
Definition seeker : User.t :=
  User.mk 2 "s@x.com" "hash:password1" UserRole.JOB_SEEKER None None None 101 101.

Definition job : Job.t :=
  Job.mk 1 "Backend Engineer" "Build things" (Some "") (Some "") (Some "")
         (Some "") (Some "") false true 102 102 1.

Definition application : Application.t :=
  Application.mk 1 1 2 ApplicationStatus.PENDING (Some "") (Some "") (Some "") 103 103.

(** After register, register, create job and apply. *)
Definition db : database := Database [employer; seeker] [job] [application].

(** The same store once the employer has deactivated the job. *)
Definition inactive_job : Job.t :=
  Job.mk 1 "Backend Engineer" "Build things" (Some "") (Some "") (Some "")
         (Some "") (Some "") false false 102 104 1.

Definition db_inactive : database :=
  Database [employer; seeker] [inactive_job] [application].

(** The same store once the application has been accepted. *)
Definition accepted_application : Application.t :=
  Application.mk 1 1 2 ApplicationStatus.ACCEPTED (Some "") (Some "") (Some "") 103 105.

Definition db_accepted : database :=
  Database [employer; seeker] [job] [accepted_application].

(** The same store once the job seeker has withdrawn the application,
    at time 200. *)
Definition withdrawn_application : Application.t :=
  Application.mk 1 1 2 ApplicationStatus.WITHDRAWN (Some "") (Some "") (Some "") 103 200.

Definition db_withdrawn : database :=
  Database [employer; seeker] [job] [withdrawn_application].

(** A board with the three sample jobs of [init_db.py] and a
    deactivated one. *)
Definition board : database :=
  Database [employer; seeker]
    [Job.mk 1 "Senior Software Engineer" "Design scalable solutions" (Some "")
            (Some "$120,000 - $160,000") (Some "New York, NY") (Some "full-time")
            (Some "senior") false true 110 110 1;
     Job.mk 2 "Full Stack Developer" "Frontend and backend systems" (Some "")
            (Some "$90,000 - $130,000") (Some "Remote") (Some "full-time")
            (Some "mid") true true 120 120 1;
     Job.mk 3 "DevOps Engineer" "Build and maintain infrastructure" (Some "")
            (Some "$100,000 - $140,000") (Some "San Francisco, CA") (Some "full-time")
            (Some "mid") false true 130 130 1;
     Job.mk 4 "Remote Tester" "Test things" (Some "") (Some "") (Some "Remote")
            (Some "contract") (Some "entry") true false 140 141 1]
    [].

(** [GET /api/jobs?page=..&per_page=..&is_remote=..] *)
Definition listing (page per_page : option Z) (is_remote : option string)
  : job_list_args :=
  JobListArgs page per_page None None None is_remote None.

(** A store's [ilike] that accepts every row; no request of the
    scenario searches. *)
Definition any_ilike (value pattern : string) : bool := true.

(** A credential verifier and a token service for the scenario. *)
Definition check_password_hash (stored password : string) : bool :=
  String.eqb stored ("hash:" ++ password).

Definition create_token (identity : Z) : string := "token:" ++ Py.str identity.

Definition credentials (email password : string) : option login_data :=
  Some (LoginData (Some email) (Some password)).

(** A request without a token. *)
Definition anonymous {P : Type} (p : P) : request P := Request Absent 300 p.

Definition as_employer {P : Type} (p : P) : request P := Request (Valid 1) 200 p.
Definition as_seeker {P : Type} (p : P) : request P := Request (Valid 2) 200 p.

Definition accept : option status_data := Some (StatusData (Some "accepted")).

Definition apply_to_job : option application_data :=
  Some (ApplicationData (Some 1) None None None).

Definition rename (title : string) : option job_data :=
  Some (JobData (Some title) None None None None None None None None).

Definition post_job (title description : string) : option job_data :=
  Some (JobData (Some title) (Some description) None None None None None None None).

End Scenario.

(** ** More callers and collaborators for the scenario *)

Module Sample.

(** A second employer and a second job seeker. *)
Definition rival : User.t :=
  User.mk 3 "r@y.com" "hash:password3" UserRole.EMPLOYER None (Some "Rival") None 106 106.

Definition other_seeker : User.t :=
  User.mk 4 "t@x.com" "hash:password4" UserRole.JOB_SEEKER None None None 107 107.

(** The scenario before the job seeker applies. *)
Definition db_open : database :=
  Database [Scenario.employer; Scenario.seeker] [Scenario.job] [].

(** The scenario with the two further users. *)
Definition db : database :=
  Database [Scenario.employer; Scenario.seeker; rival; other_seeker]
           [Scenario.job] [Scenario.application].

Definition as_rival {P : Type} (p : P) : request P := Request (Valid 3) 200 p.
Definition as_other_seeker {P : Type} (p : P) : request P := Request (Valid 4) 200 p.

(** The hasher that goes with [Scenario.check_password_hash]. *)
Definition generate_password_hash (password : string) : string := "hash:" ++ password.

(** A store that refuses to delete a job that has applications and
    deletes the row otherwise. *)
Definition session_delete_job (db : database) (job : Job.t) : database + string :=
  if existsb (fun a => Application.job_id a =? Job.id job) (applications db)
  then inr "IntegrityError"
  else inl (Database (users db) (delete_row Job.id (Job.id job) (jobs db))
                     (applications db)).

Definition no_args : application_list_args := ApplicationListArgs None None None None.

Definition with_status (status : string) : application_list_args :=
  ApplicationListArgs None None (Some status) None.

(** A store's [ilike] that accepts no row. *)
Definition no_ilike (value pattern : string) : bool := false.

(** Text outside ASCII, by its UTF-8 bytes: U+00E9 (e with acute),
    U+00A0 (no-break space) and U+3000 (ideographic space). *)
Definition e_acute : string := String (ascii_of_nat 195) (String (ascii_of_nat 169) "").
Definition no_break_space : string :=
  String (ascii_of_nat 194) (String (ascii_of_nat 160) "").
Definition ideographic_space : string :=
  String (ascii_of_nat 227) (String (ascii_of_nat 128) (String (ascii_of_nat 128) "")).

Definition five_letters : string :=
  e_acute ++ e_acute ++ e_acute ++ e_acute ++ e_acute.

Definition signup (email password role company : string) : option register_data :=
  Some (RegisterData (Some email) (Some password) (Some role) None (Some company) None).

Definition new_password (current new : string) : option password_data :=
  Some (PasswordData (Some current) (Some new)).

Definition activate : option job_data :=
  Some (JobData None None None None None None None None (Some true)).

Definition my_jobs (include_inactive : option string) : my_jobs_args :=
  MyJobsArgs None None include_inactive.

(** The API over these collaborators. *)
Definition serve_all : list call -> database -> database :=
  serve_all session_delete_job generate_password_hash Scenario.check_password_hash
            Scenario.create_token Scenario.create_token.

(** The job seeker applies, the employer tries to accept, a third
    account registers, and the employer deletes the job for good. *)
Definition session : list call :=
  [Write (Apply (Scenario.as_seeker Scenario.apply_to_job));
   Write (Decide 1 (Scenario.as_employer Scenario.accept));
   Register (Scenario.anonymous
               (Some (RegisterData (Some " R@y.com") (Some "password3") (Some "Employer")
                                   None (Some "Rival") None)));
   DeleteJob 1 (Scenario.as_employer (Some "true"))].

End Sample.

(** ** Vocabulary of the properties *)

(** The statuses the spec calls terminal. *)
Definition terminal (s : string) : Prop :=
  In s [ApplicationStatus.ACCEPTED; ApplicationStatus.REJECTED;
        ApplicationStatus.WITHDRAWN].

(** What a result may have done to the status of the applications: each
    one that is still there kept its status, or was pending. *)
Definition status_step (db : database) (res : result) : Prop :=
  forall k a a',
    get_application_row db k = Some a ->
    get_application_row (snd res) k = Some a' ->
    Application.status a' = Application.status a
    \/ Application.status a = ApplicationStatus.PENDING.

(** A refusal: the store is as it was and the code is an error code. *)
Definition refused (db : database) (res : result) : Prop :=
  snd res = db /\ 400 <= code (fst res).

(** At most one application per (job_id, applicant_id) pair. *)
Definition application_key (a : Application.t) : Z * Z :=
  (Application.job_id a, Application.applicant_id a).

Definition at_most_one (db : database) : Prop :=
  NoDup (map application_key (applications db)).

(** The caller of [req] is the job seeker [A] of the store. *)
Definition is_job_seeker {P : Type} (db : database) (req : request P) (A : User.t) : Prop :=
  jwt req = Valid (User.id A)
  /\ get_user db (User.id A) = Some A
  /\ User.role A = UserRole.JOB_SEEKER.

(** The email [login] looks up. *)
Definition login_email (data : login_data) : string :=
  Py.lower (Py.strip (Py.get (data_email data) "")).

(** The request carries an email and a password. *)
Definition credentials_given (data : login_data) : Prop :=
  login_email data <> "" /\ Py.get (data_password data) "" <> "".

(** The two causes of a failed authentication. *)
Definition no_such_user (db : database) (data : login_data) : Prop :=
  find (fun u => String.eqb (User.email u) (login_email data)) (users db) = None.

Definition wrong_password (check_password_hash : string -> string -> bool)
    (db : database) (data : login_data) : Prop :=
  exists user,
    find (fun u => String.eqb (User.email u) (login_email data)) (users db) = Some user
    /\ check_password_hash (User.password_hash user) (Py.get (data_password data) "")
       = false.

(** Newest first, by the key [order_by_desc] sorts on. *)
Definition newest_first {R : Type} (key : R -> Z) (a b : R) : Prop := key b <= key a.

(** The application [create_application] inserts for the caller [user_id]. *)
Definition new_application (db : database) (req : request (option application_data))
    (data : application_data) (job_id user_id : Z) : Application.t :=
  Application.mk (next_id Application.id (applications db)) job_id user_id
                 ApplicationStatus.PENDING
                 (Some (Py.strip (Py.get (data_cover_letter data) "")))
                 (Some (Py.strip (Py.get (data_resume_url data) "")))
                 (Some (Py.strip (Py.get (data_additional_info data) "")))
                 (now req) (now req).

(** The caller of [req] is the employer [E] of the store. *)
Definition is_employer {P : Type} (db : database) (req : request P) (E : User.t) : Prop :=
  jwt req = Valid (User.id E)
  /\ get_user db (User.id E) = Some E
  /\ User.role E = UserRole.EMPLOYER.

(** *** What one call may do to each table *)

(** The [users] table after a call: kept, one account more, or one
    password hash replaced. *)
Inductive users_effect (db : database) : list User.t -> Prop :=
| users_kept : users_effect db (users db)
| users_registered (u : User.t) :
    first_user_by_email db (User.email u) = None ->
    User.id u = next_id User.id (users db) ->
    Py.mem (User.role u) [UserRole.EMPLOYER; UserRole.JOB_SEEKER] = true ->
    users_effect db (users db ++ [u])
| users_rehashed (k : Z) (h : string) (t : Z) :
    users_effect db (update_row User.id k (with_password_hash h t) (users db)).

(** The [jobs] table after a call: kept, one job more, one job rewritten
    under the same id, owner and creation time, or rows removed. *)
Inductive jobs_effect (db : database) : list Job.t -> Prop :=
| jobs_kept : jobs_effect db (jobs db)
| jobs_posted (j : Job.t) :
    Job.id j = next_id Job.id (jobs db) ->
    5 <= Py.len (Job.title j) ->
    Job.description j <> "" ->
    jobs_effect db (jobs db ++ [j])
| jobs_rewritten (k : Z) (j j' : Job.t) :
    get_job_row db k = Some j ->
    Job.id j' = Job.id j ->
    Job.employer_id j' = Job.employer_id j ->
    Job.created_at j' = Job.created_at j ->
    Job.title j' = Job.title j \/ Job.title j' <> "" ->
    Job.description j' = Job.description j \/ Job.description j' <> "" ->
    jobs_effect db (update_row Job.id k (fun _ => j') (jobs db))
| jobs_removed (keep : Job.t -> bool) : jobs_effect db (filter keep (jobs db)).

(** The [applications] table after a call: kept, one pending application
    more (of a job seeker, for a pair that had none), one status set to
    withdrawn, one status set by an employer who is the applicant, or
    rows removed. *)
Inductive applications_effect (db : database) : list Application.t -> Prop :=
| applications_kept : applications_effect db (applications db)
| applications_added (a : Application.t) (u : User.t) :
    Application.id a = next_id Application.id (applications db) ->
    first_application db (Application.job_id a) (Application.applicant_id a) = None ->
    Application.status a = ApplicationStatus.PENDING ->
    get_user db (Application.applicant_id a) = Some u ->
    User.role u = UserRole.JOB_SEEKER ->
    applications_effect db (applications db ++ [a])
| applications_withdrawn (k t : Z) :
    applications_effect db
      (update_row Application.id k
                  (Application.set_status ApplicationStatus.WITHDRAWN t)
                  (applications db))
| applications_decided (k t : Z) (s : string) (E : User.t) (a : Application.t) :
    get_user db (User.id E) = Some E ->
    User.role E = UserRole.EMPLOYER ->
    get_application_row db k = Some a ->
    Application.applicant_id a = User.id E ->
    applications_effect db
      (update_row Application.id k (Application.set_status s t) (applications db))
| applications_removed (keep : Application.t -> bool) :
    applications_effect db (filter keep (applications db)).

(** The three effects together. *)
Definition effect (db db' : database) : Prop :=
  users_effect db (users db')
  /\ jobs_effect db (jobs db')
  /\ applications_effect db (applications db').

(** What the properties below ask of the deletion of a job row by the
    store: when the commit succeeds, rows have only been removed, and none
    from [users]. *)
Definition only_removes_rows (session_delete_job : database -> Job.t -> database + string)
  : Prop :=
  forall db job db',
    session_delete_job db job = inl db' ->
    users db' = users db
    /\ (exists keep, jobs db' = filter keep (jobs db))
    /\ (exists keep, applications db' = filter keep (applications db)).

(** No application has been accepted or rejected, and every applicant is a
    job seeker of the store. *)
Definition undecided (db : database) : Prop :=
  Forall (fun a =>
            (Application.status a = ApplicationStatus.PENDING
             \/ Application.status a = ApplicationStatus.WITHDRAWN)
            /\ exists u, get_user db (Application.applicant_id a) = Some u
                         /\ User.role u = UserRole.JOB_SEEKER)
         (applications db).

(** Primary keys are positive and unique, in the three tables. *)
Definition keys_valid {R : Type} (pk : R -> Z) (rows : list R) : Prop :=
  NoDup (map pk rows) /\ Forall (fun r => 0 < pk r) rows.

Definition primary_keys (db : database) : Prop :=
  keys_valid User.id (users db)
  /\ keys_valid Job.id (jobs db)
  /\ keys_valid Application.id (applications db).

(** No two accounts share an email. *)
Definition emails_unique (db : database) : Prop :=
  NoDup (map User.email (users db)).

(** Every job has a title and a description. *)
Definition job_texts_present (db : database) : Prop :=
  Forall (fun j => Job.title j <> "" /\ Job.description j <> "") (jobs db).

(** The job [create_job] inserts for the caller [user_id]. *)
Definition new_job (db : database) (req : request (option job_data)) (data : job_data)
    (user_id : Z) : Job.t :=
  Job.mk (next_id Job.id (jobs db))
         (Py.strip (Py.get (data_title data) ""))
         (Py.strip (Py.get (data_description data) ""))
         (Some (Py.strip (Py.get (data_requirements data) "")))
         (Some (Py.strip (Py.get (data_salary_range data) "")))
         (Some (Py.strip (Py.get (data_location data) "")))
         (Some (Py.lower (Py.strip (Py.get (data_job_type data) ""))))
         (Some (Py.lower (Py.strip (Py.get (data_experience_level data) ""))))
         (Py.get (data_is_remote data) false)
         true (now req) (now req) user_id.

(** The store with the row of key [job_id] replaced by [job']. *)
Definition with_job (db : database) (job_id : Z) (job' : Job.t) : database :=
  Database (users db) (update_row Job.id job_id (fun _ => job') (jobs db))
           (applications db).

(** The job with [is_active] set and [updated_at] moved to [t]. *)
Definition reactivated (t : Z) (job : Job.t) : Job.t :=
  Job.mk (Job.id job) (Job.title job) (Job.description job) (Job.requirements job)
         (Job.salary_range job) (Job.location job) (Job.job_type job)
         (Job.experience_level job) (Job.is_remote job) true
         (Job.created_at job) t (Job.employer_id job).

(** The account [register] inserts. *)
Definition new_user (generate_password_hash : string -> string) (db : database)
    (req : request (option register_data)) (data : register_data) : User.t :=
  User.mk (next_id User.id (users db))
          (Py.lower (Py.strip (Py.get (reg_email data) "")))
          (generate_password_hash (Py.get (reg_password data) ""))
          (Py.lower (Py.get (reg_role data) ""))
          (or_none (Py.strip (Py.get (reg_full_name data) "")))
          (or_none (Py.strip (Py.get (reg_company_name data) "")))
          (or_none (Py.strip (Py.get (reg_phone data) "")))
          (now req) (now req).

(** The validation of [register] finds nothing wrong with the body. *)
Definition registration_valid (data : register_data) : Prop :=
  register_errors (Py.lower (Py.strip (Py.get (reg_email data) "")))
                  (Py.get (reg_password data) "")
                  (Py.lower (Py.get (reg_role data) ""))
                  (Py.strip (Py.get (reg_company_name data) "")) = [].

(** What [login] answers a user it has authenticated. *)
Definition login_successful (create_access_token create_refresh_token : Z -> string)
    (user : User.t) : response :=
  Response (JObj [("message", JStr "Login successful");
                  ("user", User.to_dict user);
                  ("access_token", JStr (create_access_token (User.id user)));
                  ("refresh_token", JStr (create_refresh_token (User.id user)));
                  ("token_type", JStr "Bearer")]) 200.

(** The token of the request of an operation. *)
Definition caller (op : operation) : token :=
  match op with
  | Apply req => jwt req
  | Withdraw _ req => jwt req
  | Decide _ req => jwt req
  | DeleteApplication _ req => jwt req
  | CreateJob req => jwt req
  | UpdateJob _ req => jwt req
  end.

(** The operations whose route is decorated with [employer_required];
    the route of every other one is decorated with [job_seeker_required]. *)
Definition for_employers (op : operation) : bool :=
  match op with
  | Decide _ _ | CreateJob _ | UpdateJob _ _ => true
  | Apply _ | Withdraw _ _ | DeleteApplication _ _ => false
  end.

(** The token a call is made with; [register] reads none. *)
Definition credential (c : call) : option token :=
  match c with
  | Write op => Some (caller op)
  | Register _ => None
  | ChangePassword req => Some (jwt req)
  | DeleteJob _ req => Some (jwt req)
  end.

(** * Properties *)

(** ** Python strings *)

(** [len] counts code points, [strip] drops the white space of Unicode,
    and both agree with the byte-wise reading on ASCII text. *)
Example len_counts_code_points :
  Py.len (Sample.e_acute ++ Sample.e_acute ++ Sample.e_acute) = 3
  /\ Py.len "Dev" = 3
  /\ Py.ord Sample.e_acute = 233.
Proof. repeat split. Qed.

Example strip_drops_unicode_space :
  Py.strip (Sample.no_break_space ++ " Pending" ++ Sample.ideographic_space)
  = "Pending"
  /\ Py.strip Sample.ideographic_space = ""
  /\ Py.strip (" a" ++ Sample.no_break_space ++ "b ")
     = "a" ++ Sample.no_break_space ++ "b".
Proof. repeat split. Qed.

(** ** Tables *)

Section TableFacts.
Context {R : Type} (pk : R -> Z).

Lemma query_get_app rows extra k r :
  query_get pk rows k = Some r -> query_get pk (rows ++ extra) k = Some r.
Proof.
  unfold query_get. induction rows as [|x rows IH]; simpl; [discriminate|].
  destruct (pk x =? k); auto.
Qed.

Lemma query_get_update_row_same rows k f r :
  (forall x, pk (f x) = pk x) ->
  query_get pk rows k = Some r ->
  query_get pk (update_row pk k f rows) k = Some (f r).
Proof.
  intros Hf. unfold query_get.
  induction rows as [|x rows IH]; simpl; [discriminate|].
  destruct (pk x =? k) eqn:E; simpl.
  - intros [= ->]. now rewrite Hf, E.
  - rewrite E. exact IH.
Qed.

Lemma query_get_update_row_other rows k k' f :
  (forall x, pk (f x) = pk x) ->
  k' <> k ->
  query_get pk (update_row pk k f rows) k' = query_get pk rows k'.
Proof.
  intros Hf Hne. unfold query_get.
  induction rows as [|x rows IH]; simpl; [reflexivity|].
  destruct (pk x =? k) eqn:E; simpl.
  - rewrite Hf. assert ((pk x =? k') = false) as -> by lia. reflexivity.
  - destruct (pk x =? k'); auto.
Qed.

Lemma query_get_delete_row_same rows k :
  query_get pk (delete_row pk k rows) k = None.
Proof.
  unfold query_get, delete_row.
  induction rows as [|x rows IH]; simpl; [reflexivity|].
  destruct (pk x =? k) eqn:E; simpl; [exact IH|]. now rewrite E.
Qed.

Lemma query_get_delete_row_other rows k k' :
  k' <> k ->
  query_get pk (delete_row pk k rows) k' = query_get pk rows k'.
Proof.
  intros Hne. unfold query_get, delete_row.
  induction rows as [|x rows IH]; simpl; [reflexivity|].
  destruct (pk x =? k) eqn:E; simpl.
  - assert ((pk x =? k') = false) as -> by lia. exact IH.
  - destruct (pk x =? k'); auto.
Qed.

Lemma map_update_row {K : Type} (key : R -> K) rows k f :
  (forall x, key (f x) = key x) ->
  map key (update_row pk k f rows) = map key rows.
Proof.
  intros Hf. induction rows as [|x rows IH]; simpl; [reflexivity|].
  destruct (pk x =? k); simpl; [now rewrite Hf | now rewrite IH].
Qed.
End TableFacts.

(** ** Decorators: what a wrapped function's property needs to lift *)

Section Lifting.
Context {P : Type} (Q : result -> Prop) (kw : kwargs) (req : request P)
        (db : database).
(** Every refusal of a decorator has a code from 400 on and leaves the
    store as it was. *)
Hypothesis refusal : forall r, 400 <= code r -> Q (r, db).

Lemma jwt_required_lift fn :
  (forall user_id, Q (fn user_id kw req db)) -> Q (jwt_required fn kw req db).
Proof.
  intros H. unfold jwt_required.
  destruct (jwt req); auto; apply refusal; simpl; lia.
Qed.

Lemma job_seeker_required_lift fn :
  (forall user_id, Q (fn user_id kw req db)) -> Q (job_seeker_required fn kw req db).
Proof.
  intros H. unfold job_seeker_required. apply jwt_required_lift. intros user_id.
  destruct (get_user db user_id) as [user|]; [|apply refusal; simpl; lia].
  destruct (negb _); auto. apply refusal; simpl; lia.
Qed.

Lemma employer_required_lift fn :
  (forall user_id, Q (fn user_id kw req db)) -> Q (employer_required fn kw req db).
Proof.
  intros H. unfold employer_required. apply jwt_required_lift. intros user_id.
  destruct (get_user db user_id) as [user|]; [|apply refusal; simpl; lia].
  destruct (negb _); auto. apply refusal; simpl; lia.
Qed.

Lemma resource_owner_or_employer_required_lift {R : Type} (m : model R) param fn :
  (forall user_id, Q (fn user_id kw req db)) ->
  Q (resource_owner_or_employer_required m param fn kw req db).
Proof.
  intros H. unfold resource_owner_or_employer_required.
  apply jwt_required_lift. intros user_id.
  destruct (get_user db user_id) as [user|]; [|apply refusal; simpl; lia].
  destruct (kwarg param kw) as [[|k|k]|]; try (apply refusal; simpl; lia);
    (destruct (get m db _); [|apply refusal; simpl; lia]);
    repeat match goal with
           | |- context [if ?b then _ else _] => destruct b
           end; auto; apply refusal; simpl; lia.
Qed.

Lemma with_kwarg_lift param fn user_id :
  (forall v, Q (fn v user_id req db)) -> Q (with_kwarg param fn user_id kw req db).
Proof.
  intros H. unfold with_kwarg.
  destruct (kwarg param kw); auto. apply refusal; simpl; lia.
Qed.
End Lifting.

(** A caller who is a job seeker passes [job_seeker_required]. *)
Lemma job_seeker_required_pass {P : Type} (fn : protected P) kw req db user :
  jwt req = Valid (User.id user) ->
  get_user db (User.id user) = Some user ->
  User.role user = UserRole.JOB_SEEKER ->
  job_seeker_required fn kw req db = fn (User.id user) kw req db.
Proof.
  intros Hjwt Huser Hrole. unfold job_seeker_required, jwt_required.
  now rewrite Hjwt, Huser, Hrole.
Qed.

Lemma employer_required_pass {P : Type} (fn : protected P) kw req db user :
  jwt req = Valid (User.id user) ->
  get_user db (User.id user) = Some user ->
  User.role user = UserRole.EMPLOYER ->
  employer_required fn kw req db = fn (User.id user) kw req db.
Proof.
  intros Hjwt Huser Hrole. unfold employer_required, jwt_required.
  now rewrite Hjwt, Huser, Hrole.
Qed.

(** ** Deciding an application (PUT /api/applications/<id>/status) *)

(** An [Application] row has neither [employer_id] nor [user_id]: the only
    probe of [resource_owner_or_employer_required] it can pass is the
    applicant's. *)
Lemma application_access_is_applicant_only {P : Type} (fn : protected P) kw req db
      user application application_id :
  jwt req = Valid (User.id user) ->
  get_user db (User.id user) = Some user ->
  kwarg "application_id" kw = Some application_id ->
  application_id <> 0 ->
  get_application_row db application_id = Some application ->
  resource_owner_or_employer_required ApplicationModel "application_id" fn kw req db
  = if Application.applicant_id application =? User.id user
    then fn (User.id user) kw req db
    else (access_denied, db).
Proof.
  intros Hjwt Huser Hkw Hnz Happ.
  unfold resource_owner_or_employer_required, jwt_required.
  rewrite Hjwt, Huser, Hkw. simpl get. rewrite Happ.
  destruct application_id as [|k|k]; [congruence| |]; simpl;
    destruct (User.role user =? UserRole.EMPLOYER)%string; reflexivity.
Qed.

(** C1 (as the code has it).  The employer who owns the job of an
    application, and is not its applicant, is refused by the access check
    of the decide route: the answer is 403 "Access denied" and the store,
    so also the application's status, is left as it was.  The claim's
    200 and status change never happen for that caller. *)
Theorem decide_by_job_owner_is_denied
    (db : database) (req : request (option status_data)) (application_id : Z)
    (E : User.t) (application : Application.t) (job : Job.t) :
  jwt req = Valid (User.id E) ->
  get_user db (User.id E) = Some E ->
  User.role E = UserRole.EMPLOYER ->
  application_id <> 0 ->
  get_application_row db application_id = Some application ->
  get_job_row db (Application.job_id application) = Some job ->
  Job.employer_id job = User.id E ->
  Application.applicant_id application <> User.id E ->
  Route.update_application_status application_id req db = (access_denied, db).
Proof.
  intros Hjwt Huser Hrole Hnz Happ _ _ Hother.
  unfold Route.update_application_status.
  rewrite (employer_required_pass _ _ _ _ E Hjwt Huser Hrole).
  rewrite (application_access_is_applicant_only
             _ [("application_id", application_id)] req db E application
             application_id Hjwt Huser eq_refl Hnz Happ).
  destruct (Z.eqb_spec (Application.applicant_id application) (User.id E));
    [contradiction | reflexivity].
Qed.

(** The spec's scenario: the employer of the job accepts the pending
    application, and is answered 403 with the status still pending. *)
Lemma decide_by_job_owner_is_denied_witness :
  Application.status Scenario.application = ApplicationStatus.PENDING
  /\ Route.update_application_status 1 (Scenario.as_employer Scenario.accept) Scenario.db
     = (access_denied, Scenario.db)
  /\ code access_denied = 403.
Proof.
  split; [reflexivity|]. split; [|reflexivity].
  apply (decide_by_job_owner_is_denied Scenario.db _ 1 Scenario.employer
           Scenario.application Scenario.job);
    try reflexivity; simpl; lia.
Defined.

(** ** The status of an application only leaves [pending] *)

Lemma terminal_not_pending s :
  terminal s -> (s =? ApplicationStatus.PENDING)%string = false.
Proof.
  unfold terminal. simpl. intros [<-|[<-|[<-|[]]]]; reflexivity.
Qed.

Lemma set_status_id s t a : Application.id (Application.set_status s t a) = Application.id a.
Proof. reflexivity. Qed.

Lemma status_step_refl db r : status_step db (r, db).
Proof.
  intros k a a' H H'. simpl in H'. left. congruence.
Qed.

Lemma status_step_same_applications db r db' :
  applications db' = applications db -> status_step db (r, db').
Proof.
  intros E k a a' H H'. simpl in H'. unfold get_application_row in *.
  rewrite E in H'. left. congruence.
Qed.

Lemma status_step_set db r application_id application s t :
  get_application_row db application_id = Some application ->
  Application.status application = ApplicationStatus.PENDING ->
  status_step db (r, set_application_status db application_id s t).
Proof.
  intros Happ Hpending k a a' H H'. simpl in H'.
  unfold get_application_row, set_application_status in *. simpl in H'.
  destruct (Z.eq_dec k application_id) as [->|Hne].
  - right. congruence.
  - rewrite query_get_update_row_other in H' by (auto using set_status_id).
    left. congruence.
Qed.

Lemma create_application_status_step user_id kw req db :
  status_step db (create_application user_id kw req db).
Proof.
  unfold create_application.
  destruct (payload req) as [data|]; [|apply status_step_refl].
  destruct (data_job_id data) as [[|j|j]|]; try apply status_step_refl;
    (destruct (get_job_row db _) as [job|]; [|apply status_step_refl]);
    (destruct (negb (Job.is_active job)); [apply status_step_refl|]);
    (destruct (get_user db user_id) as [user|]; [|apply status_step_refl]);
    (destruct (first_application db _ _); [apply status_step_refl|]);
    intros k a a' H H'; simpl in H'; unfold get_application_row in *; simpl in H';
    rewrite (query_get_app _ _ _ _ _ H) in H'; left; congruence.
Qed.

Lemma withdraw_application_status_step application_id user_id req db :
  status_step db (withdraw_application application_id user_id req db).
Proof.
  unfold withdraw_application.
  destruct (get_application_row db application_id) as [application|] eqn:Happ;
    [|apply status_step_refl].
  destruct (negb (_ =? user_id)); [apply status_step_refl|].
  destruct (String.eqb_spec (Application.status application) ApplicationStatus.PENDING);
    simpl; [|apply status_step_refl].
  eapply status_step_set; eauto.
Qed.

Lemma update_application_status_status_step application_id user_id req db :
  status_step db (update_application_status application_id user_id req db).
Proof.
  unfold update_application_status.
  destruct (get_application_row db application_id) as [application|] eqn:Happ;
    [|apply status_step_refl].
  destruct (payload req) as [[[status|]]|]; try apply status_step_refl.
  destruct (negb (Py.mem _ _)); [apply status_step_refl|].
  destruct (String.eqb_spec (Application.status application) ApplicationStatus.PENDING);
    simpl; [|apply status_step_refl].
  eapply status_step_set; eauto.
Qed.

Lemma delete_application_status_step application_id user_id req db :
  status_step db (delete_application application_id user_id req db).
Proof.
  unfold delete_application.
  destruct (get_application_row db application_id) as [application|] eqn:Happ;
    [|apply status_step_refl].
  destruct (negb (_ =? user_id)); [apply status_step_refl|].
  destruct (negb (_ =? _)%string); [apply status_step_refl|].
  intros k a a' H H'. simpl in H'. unfold get_application_row in *. simpl in H'.
  destruct (Z.eq_dec k application_id) as [->|Hne].
  - now rewrite query_get_delete_row_same in H'.
  - rewrite query_get_delete_row_other in H' by assumption. left. congruence.
Qed.

Lemma create_job_same_applications user_id kw req db :
  applications (snd (create_job user_id kw req db)) = applications db.
Proof.
  unfold create_job.
  destruct (payload req) as [data|]; [|reflexivity].
  destruct (_ ++ _)%list; [|reflexivity].
  destruct (get_user db user_id); reflexivity.
Qed.

Lemma update_job_same_applications job_id user_id req db :
  applications (snd (update_job job_id user_id req db)) = applications db.
Proof.
  unfold update_job.
  destruct (get_job_row db job_id) as [job|]; [|reflexivity].
  destruct (payload req) as [data|]; [|reflexivity].
  repeat match goal with
         | |- context [if ?b then (_, _) else _] => destruct b; [reflexivity|]
         end.
  reflexivity.
Qed.

Lemma status_step_of_snd db res :
  applications (snd res) = applications db -> status_step db res.
Proof.
  destruct res as [r db']. apply status_step_same_applications.
Qed.

(** Every request leaves the status of an application as it was, or
    found it pending. *)
Lemma run_status_step op db : status_step db (run op db).
Proof.
  destruct op; simpl;
    [ unfold Route.create_application
    | unfold Route.withdraw_application
    | unfold Route.update_application_status
    | unfold Route.delete_application
    | unfold Route.create_job
    | unfold Route.update_job ].
  - apply job_seeker_required_lift; [intros; apply status_step_refl|].
    intros; apply create_application_status_step.
  - apply job_seeker_required_lift; [intros; apply status_step_refl|].
    intros; apply with_kwarg_lift; [intros; apply status_step_refl|].
    intros; apply withdraw_application_status_step.
  - apply employer_required_lift; [intros; apply status_step_refl|]. intros _.
    apply resource_owner_or_employer_required_lift; [intros; apply status_step_refl|].
    intros; apply with_kwarg_lift; [intros; apply status_step_refl|].
    intros; apply update_application_status_status_step.
  - apply job_seeker_required_lift; [intros; apply status_step_refl|].
    intros; apply with_kwarg_lift; [intros; apply status_step_refl|].
    intros; apply delete_application_status_step.
  - apply employer_required_lift; [intros; apply status_step_refl|].
    intros; apply status_step_of_snd, create_job_same_applications.
  - apply employer_required_lift; [intros; apply status_step_refl|]. intros _.
    apply resource_owner_or_employer_required_lift; [intros; apply status_step_refl|].
    intros; apply with_kwarg_lift; [intros; apply status_step_refl|].
    intros; apply status_step_of_snd, update_job_same_applications.
Qed.

Lemma withdraw_application_terminal application_id user_id req db application :
  get_application_row db application_id = Some application ->
  terminal (Application.status application) ->
  refused db (withdraw_application application_id user_id req db)
  /\ (Application.applicant_id application = user_id ->
      withdraw_application application_id user_id req db
      = (cannot_withdraw application, db)).
Proof.
  intros Happ Hterm. unfold withdraw_application. rewrite Happ.
  rewrite (terminal_not_pending _ Hterm).
  destruct (Z.eqb_spec (Application.applicant_id application) user_id); simpl.
  - split; [split; simpl; [reflexivity | lia] | reflexivity].
  - split; [split; simpl; [reflexivity | lia] | contradiction].
Qed.

Lemma update_application_status_terminal application_id user_id req db application :
  get_application_row db application_id = Some application ->
  terminal (Application.status application) ->
  refused db (update_application_status application_id user_id req db)
  /\ (forall s, payload req = Some (StatusData (Some s)) ->
                Py.mem (Py.lower s) valid_statuses = true ->
                update_application_status application_id user_id req db
                = (cannot_update_status application, db)).
Proof.
  intros Happ Hterm. unfold update_application_status. rewrite Happ.
  rewrite (terminal_not_pending _ Hterm).
  destruct (payload req) as [[[status|]]|].
  - destruct (Py.mem (Py.lower status) valid_statuses) eqn:Hmem; cbn [negb].
    + split; [split; [reflexivity | simpl; lia]|].
      intros s [= <-] _. reflexivity.
    + split; [split; [reflexivity | simpl; lia]|].
      intros s [= <-]. congruence.
  - split; [split; [reflexivity | simpl; lia] | discriminate].
  - split; [split; [reflexivity | simpl; lia] | discriminate].
Qed.

Lemma refused_refusal db r : 400 <= code r -> refused db (r, db).
Proof. intros H. split; [reflexivity | exact H]. Qed.

(** C2 (as the code has it).  An application whose status is accepted,
    rejected or withdrawn keeps it: whoever calls the withdraw or the
    decide route, with whatever body, is refused and the store is left as
    it was, and over all requests an application whose status differs
    after the request was pending before it.  Withdrawing it, as its
    applicant, is answered by the 400 "Cannot withdraw application".
    Deciding it is not answered by the claim's 400: the function
    [update_application_status] holds the 400 "Cannot update status" for
    it, but the access check of the route answers 403 "Access denied" to
    every employer who is not the applicant, the owner of the job among
    them, before the function runs. *)
Theorem terminal_status_is_final
    (db : database) (application_id : Z) (application : Application.t) :
  get_application_row db application_id = Some application ->
  terminal (Application.status application) ->
  (forall (req : request unit) (A : User.t),
      is_job_seeker db req A ->
      Application.applicant_id application = User.id A ->
      Route.withdraw_application application_id req db
      = (cannot_withdraw application, db))
  /\ code (cannot_withdraw application) = 400
  /\ (forall (req : request (option status_data)) (E : User.t),
         is_employer db req E ->
         application_id <> 0 ->
         Application.applicant_id application <> User.id E ->
         Route.update_application_status application_id req db = (access_denied, db))
  /\ code access_denied = 403
  /\ (forall (req : request (option status_data)) (user_id : Z) (s : string),
         payload req = Some (StatusData (Some s)) ->
         Py.mem (Py.lower s) valid_statuses = true ->
         update_application_status application_id user_id req db
         = (cannot_update_status application, db))
  /\ code (cannot_update_status application) = 400
  /\ (forall req, refused db (Route.withdraw_application application_id req db))
  /\ (forall req, refused db (Route.update_application_status application_id req db))
  /\ (forall (op : operation) (db0 : database) (k : Z) (a a' : Application.t),
         get_application_row db0 k = Some a ->
         get_application_row (snd (run op db0)) k = Some a' ->
         Application.status a' <> Application.status a ->
         Application.status a = ApplicationStatus.PENDING).
Proof.
  intros Happ Hterm.
  split; [|split; [|split; [|split; [|split; [|split; [|split; [|split]]]]]]].
  - intros req A (Hjwt & Huser & Hrole) Hown.
    unfold Route.withdraw_application.
    rewrite (job_seeker_required_pass _ _ _ _ A Hjwt Huser Hrole).
    unfold with_kwarg. simpl.
    now apply (withdraw_application_terminal _ _ req db application Happ Hterm).
  - reflexivity.
  - intros req E (Hjwt & Huser & Hrole) Hnz Hother.
    unfold Route.update_application_status.
    rewrite (employer_required_pass _ _ _ _ E Hjwt Huser Hrole).
    rewrite (application_access_is_applicant_only
               _ [("application_id", application_id)] req db E application
               application_id Hjwt Huser eq_refl Hnz Happ).
    destruct (Z.eqb_spec (Application.applicant_id application) (User.id E));
      [contradiction | reflexivity].
  - reflexivity.
  - intros req user_id s Hpayload Hvalid.
    now apply (update_application_status_terminal _ user_id req db application Happ Hterm)
      with (s := s).
  - reflexivity.
  - intros req. unfold Route.withdraw_application.
    apply job_seeker_required_lift with (Q := refused db);
      [apply refused_refusal|].
    intros user_id. unfold with_kwarg. simpl.
    now apply (withdraw_application_terminal _ user_id req db application Happ Hterm).
  - intros req. unfold Route.update_application_status.
    apply employer_required_lift with (Q := refused db);
      [apply refused_refusal|]. intros _.
    apply resource_owner_or_employer_required_lift with (Q := refused db);
      [apply refused_refusal|].
    intros user_id. unfold with_kwarg. simpl.
    now apply (update_application_status_terminal _ user_id req db application Happ Hterm).
  - intros op db0 k a a' H H' Hdiff.
    destruct (run_status_step op db0 k a a' H H'); [contradiction | assumption].
Qed.

(** The scenario once the job seeker has withdrawn the application: the
    employer of the job accepts it and is answered 403, where the
    function behind the route answers 400; the job seeker who withdraws
    again is answered 400. *)
Lemma terminal_status_is_final_witness :
  snd (Route.withdraw_application 1 (Scenario.as_seeker tt) Scenario.db)
  = Scenario.db_withdrawn
  /\ Route.update_application_status 1 (Scenario.as_employer Scenario.accept)
                                     Scenario.db_withdrawn
     = (access_denied, Scenario.db_withdrawn)
  /\ code access_denied = 403
  /\ code (fst (update_application_status 1 1 (Scenario.as_employer Scenario.accept)
                                          Scenario.db_withdrawn)) = 400
  /\ code (fst (Route.withdraw_application 1 (Scenario.as_seeker tt)
                                           Scenario.db_withdrawn)) = 400.
Proof.
  assert (Hterm : terminal (Application.status Scenario.withdrawn_application))
    by (unfold terminal; simpl; auto).
  destruct (terminal_status_is_final Scenario.db_withdrawn 1
              Scenario.withdrawn_application eq_refl Hterm)
    as (Hwithdraw & _ & Hdecide & Hdenied & Hview & Hcode & _).
  split; [reflexivity|]. split; [|split; [exact Hdenied|split]].
  - apply (Hdecide (Scenario.as_employer Scenario.accept) Scenario.employer).
    + repeat split.
    + discriminate.
    + discriminate.
  - rewrite (Hview (Scenario.as_employer Scenario.accept) 1 "accepted" eq_refl eq_refl).
    exact Hcode.
  - rewrite (Hwithdraw (Scenario.as_seeker tt) Scenario.seeker); [reflexivity| |reflexivity].
    repeat split.
Defined.

(** ** One application per job and applicant *)

Section Keys.
Context {A K : Type} (key : A -> K).

Lemma keys_snoc rows x :
  NoDup (map key rows) -> ~ In (key x) (map key rows) -> NoDup (map key (rows ++ [x])).
Proof.
  induction rows as [|y rows IH]; simpl; intros Hnd Hnot.
  - constructor; [intros [] | constructor].
  - inversion Hnd as [|? ? Hy Hl]; subst. constructor.
    + rewrite map_app, in_app_iff. simpl. intros [H|[H|[]]]; [auto|].
      apply Hnot. left. congruence.
    + apply IH; auto.
Qed.

Lemma keys_filter (keep : A -> bool) rows :
  NoDup (map key rows) -> NoDup (map key (filter keep rows)).
Proof.
  induction rows as [|y rows IH]; simpl; intros Hnd; [constructor|].
  inversion Hnd as [|? ? Hy Hl]; subst.
  destruct (keep y); simpl; auto. constructor; auto.
  rewrite in_map_iff in *. intros (z & Hz & Hin). apply Hy.
  exists z. split; [assumption|]. now apply filter_In in Hin.
Qed.

Lemma keys_injective rows x y :
  NoDup (map key rows) -> In x rows -> In y rows -> key x = key y -> x = y.
Proof.
  induction rows as [|z rows IH]; simpl; intros Hnd Hx Hy E; [contradiction|].
  inversion Hnd as [|? ? Hz Hl]; subst.
  destruct Hx as [->|Hx], Hy as [->|Hy]; auto.
  - exfalso. apply Hz. rewrite E. now apply in_map.
  - exfalso. apply Hz. rewrite <- E. now apply in_map.
Qed.
End Keys.

(** Under the invariant, the duplicate check of [create_application]
    finds the one application of the pair. *)
Lemma first_application_existing db existing :
  at_most_one db ->
  In existing (applications db) ->
  first_application db (Application.job_id existing) (Application.applicant_id existing)
  = Some existing.
Proof.
  intros Hinv Hin. unfold first_application.
  destruct (find _ (applications db)) as [found|] eqn:Hfind.
  - apply find_some in Hfind as [Hfound Hkey]. f_equal.
    apply (keys_injective application_key (applications db)); auto.
    unfold application_key. f_equal; lia.
  - apply find_none with (x := existing) in Hfind; [|assumption].
    rewrite !Z.eqb_refl in Hfind. discriminate.
Qed.

Lemma first_application_none db j u :
  first_application db j u = None ->
  ~ In (j, u) (map application_key (applications db)).
Proof.
  unfold first_application. intros Hfind Hin.
  apply in_map_iff in Hin as (a & Hkey & Hin).
  apply find_none with (x := a) in Hfind; [|assumption].
  unfold application_key in Hkey. injection Hkey as Hj Hu.
  rewrite Hj, Hu, !Z.eqb_refl in Hfind. discriminate.
Qed.

Lemma set_application_status_at_most_one db application_id s t :
  at_most_one db -> at_most_one (set_application_status db application_id s t).
Proof.
  unfold at_most_one, set_application_status. simpl.
  now rewrite map_update_row by reflexivity.
Qed.

Lemma create_application_at_most_one user_id kw req db :
  at_most_one db -> at_most_one (snd (create_application user_id kw req db)).
Proof.
  intros Hinv. unfold create_application.
  destruct (payload req) as [data|]; [|exact Hinv].
  destruct (data_job_id data) as [[|j|j]|]; try exact Hinv;
    (destruct (get_job_row db _) as [job|]; [|exact Hinv]);
    (destruct (negb (Job.is_active job)); [exact Hinv|]);
    (destruct (get_user db user_id) as [user|]; [|exact Hinv]);
    (destruct (first_application db _ _) eqn:Hfirst; [exact Hinv|]);
    unfold at_most_one; simpl; apply keys_snoc; auto;
    now apply first_application_none.
Qed.

Lemma withdraw_application_at_most_one application_id user_id req db :
  at_most_one db -> at_most_one (snd (withdraw_application application_id user_id req db)).
Proof.
  intros Hinv. unfold withdraw_application.
  destruct (get_application_row db application_id); [|exact Hinv].
  destruct (negb (_ =? user_id)); [exact Hinv|].
  destruct (negb (_ =? _)%string); [exact Hinv|].
  now apply set_application_status_at_most_one.
Qed.

Lemma update_application_status_at_most_one application_id user_id req db :
  at_most_one db ->
  at_most_one (snd (update_application_status application_id user_id req db)).
Proof.
  intros Hinv. unfold update_application_status.
  destruct (get_application_row db application_id); [|exact Hinv].
  destruct (payload req) as [[[status|]]|]; try exact Hinv.
  destruct (negb (Py.mem _ _)); [exact Hinv|].
  destruct (negb (_ =? _)%string); [exact Hinv|].
  now apply set_application_status_at_most_one.
Qed.

Lemma delete_application_at_most_one application_id user_id req db :
  at_most_one db -> at_most_one (snd (delete_application application_id user_id req db)).
Proof.
  intros Hinv. unfold delete_application.
  destruct (get_application_row db application_id); [|exact Hinv].
  destruct (negb (_ =? user_id)); [exact Hinv|].
  destruct (negb (_ =? _)%string); [exact Hinv|].
  unfold at_most_one, delete_row. simpl. now apply keys_filter.
Qed.

Lemma at_most_one_same_applications db db' :
  applications db' = applications db -> at_most_one db -> at_most_one db'.
Proof.
  unfold at_most_one. now intros ->.
Qed.

(** Every request preserves the invariant. *)
Lemma run_at_most_one op db : at_most_one db -> at_most_one (snd (run op db)).
Proof.
  intros Hinv.
  pose (Q := fun res : result => at_most_one (snd res)).
  assert (Hrefusal : forall r, 400 <= code r -> Q (r, db)) by (intros; exact Hinv).
  change (Q (run op db)).
  destruct op; simpl;
    [ unfold Route.create_application
    | unfold Route.withdraw_application
    | unfold Route.update_application_status
    | unfold Route.delete_application
    | unfold Route.create_job
    | unfold Route.update_job ].
  - apply job_seeker_required_lift; [exact Hrefusal|].
    intros; now apply create_application_at_most_one.
  - apply job_seeker_required_lift; [exact Hrefusal|].
    intros; apply with_kwarg_lift; [exact Hrefusal|].
    intros; now apply withdraw_application_at_most_one.
  - apply employer_required_lift; [exact Hrefusal|]. intros _.
    apply resource_owner_or_employer_required_lift; [exact Hrefusal|].
    intros; apply with_kwarg_lift; [exact Hrefusal|].
    intros; now apply update_application_status_at_most_one.
  - apply job_seeker_required_lift; [exact Hrefusal|].
    intros; apply with_kwarg_lift; [exact Hrefusal|].
    intros; now apply delete_application_at_most_one.
  - apply employer_required_lift; [exact Hrefusal|].
    intros; unfold Q.
    eapply at_most_one_same_applications; [apply create_job_same_applications | exact Hinv].
  - apply employer_required_lift; [exact Hrefusal|]. intros _.
    apply resource_owner_or_employer_required_lift; [exact Hrefusal|].
    intros; apply with_kwarg_lift; [exact Hrefusal|].
    intros; unfold Q.
    eapply at_most_one_same_applications; [apply update_job_same_applications | exact Hinv].
Qed.

Lemma run_all_at_most_one ops db : at_most_one db -> at_most_one (run_all ops db).
Proof.
  unfold run_all. revert db.
  induction ops as [|op ops IH]; simpl; intros db Hinv; [exact Hinv|].
  apply IH. now apply run_at_most_one.
Qed.

(** What [create_application] answers once the body names an existing job. *)
Lemma create_application_on_job req db data J A :
  is_job_seeker db req A ->
  payload req = Some data ->
  data_job_id data = Some (Job.id J) ->
  Job.id J <> 0 ->
  get_job_row db (Job.id J) = Some J ->
  Route.create_application req db
  = if negb (Job.is_active J) then (job_not_available, db)
    else match first_application db (Job.id J) (User.id A) with
         | Some existing_application => (already_applied existing_application, db)
         | None => create_application (User.id A) [] req db
         end.
Proof.
  intros (Hjwt & Huser & Hrole) Hpayload Hjob Hnz Hget.
  unfold Route.create_application.
  rewrite (job_seeker_required_pass _ _ _ _ A Hjwt Huser Hrole).
  unfold create_application. rewrite Hpayload, Hjob, Huser.
  destruct (Job.id J) as [|j|j] eqn:Hid; [congruence| |];
    rewrite Hget; destruct (negb (Job.is_active J)); try reflexivity;
    destruct (first_application db _ (User.id A)); reflexivity.
Qed.

(** C3 as stated fails: the job of the existing application may have been
    deactivated, and then the second apply is answered 400 "Job not
    available", not 409. *)
Lemma duplicate_apply_inactive_job_counterexample :
  ~ (forall (db : database) (req : request (option application_data))
            (data : application_data) (J : Job.t) (A : User.t)
            (existing : Application.t),
        is_job_seeker db req A ->
        payload req = Some data ->
        data_job_id data = Some (Job.id J) ->
        Job.id J <> 0 ->
        get_job_row db (Job.id J) = Some J ->
        In existing (applications db) ->
        application_key existing = (Job.id J, User.id A) ->
        at_most_one db ->
        code (fst (Route.create_application req db)) = 409).
Proof.
  intros H.
  cut (400 = 409); [discriminate|].
  change 400 with (code (fst (Route.create_application
                                (Scenario.as_seeker Scenario.apply_to_job)
                                Scenario.db_inactive))).
  apply (H Scenario.db_inactive (Scenario.as_seeker Scenario.apply_to_job)
           (ApplicationData (Some 1) None None None)
           Scenario.inactive_job Scenario.seeker Scenario.application).
  - repeat split.
  - reflexivity.
  - reflexivity.
  - discriminate.
  - reflexivity.
  - simpl. auto.
  - reflexivity.
  - unfold at_most_one. simpl. constructor; [intros [] | constructor].
Qed.

(** C3 (amended).  While the job is active, a job seeker who already has
    an application for it, in any status, is answered 409 "Already
    applied" with the id and the status of that application, and the
    store is left as it was; and whatever requests follow, no pair of
    job and applicant gets a second application: the invariant holds
    after every sequence of requests, from this store and from any store
    that has no application yet. *)
Theorem duplicate_apply_is_conflict
    (db : database) (req : request (option application_data))
    (data : application_data) (J : Job.t) (A : User.t) (existing : Application.t) :
  is_job_seeker db req A ->
  payload req = Some data ->
  data_job_id data = Some (Job.id J) ->
  Job.id J <> 0 ->
  get_job_row db (Job.id J) = Some J ->
  Job.is_active J = true ->
  In existing (applications db) ->
  application_key existing = (Job.id J, User.id A) ->
  at_most_one db ->
  Route.create_application req db = (already_applied existing, db)
  /\ code (already_applied existing) = 409
  /\ field "application_id" (body (already_applied existing))
     = JInt (Application.id existing)
  /\ field "status" (body (already_applied existing))
     = JStr (Application.status existing)
  /\ (forall ops, at_most_one (run_all ops db))
  /\ (forall us js ops, at_most_one (run_all ops (Database us js []))).
Proof.
  intros Hseeker Hpayload Hjob Hnz Hget Hactive Hin Hkey Hinv.
  split; [|split; [|split; [|split; [|split]]]]; try reflexivity.
  - rewrite (create_application_on_job req db data J A) by assumption.
    rewrite Hactive. simpl negb. cbv iota.
    unfold application_key in Hkey. injection Hkey as Hj Hu.
    rewrite <- Hj, <- Hu. now rewrite first_application_existing.
  - intros ops. now apply run_all_at_most_one.
  - intros us js ops. apply run_all_at_most_one. constructor.
Qed.

(** The scenario: the job seeker applies a second time to the job. *)
Lemma duplicate_apply_is_conflict_witness :
  Route.create_application (Scenario.as_seeker Scenario.apply_to_job) Scenario.db
  = (already_applied Scenario.application, Scenario.db).
Proof.
  refine (proj1 (duplicate_apply_is_conflict Scenario.db
                   (Scenario.as_seeker Scenario.apply_to_job)
                   (ApplicationData (Some 1) None None None)
                   Scenario.job Scenario.seeker Scenario.application
                   _ eq_refl eq_refl _ eq_refl eq_refl _ eq_refl _)).
  - repeat split.
  - discriminate.
  - simpl. auto.
  - unfold at_most_one. simpl. constructor; [intros [] | constructor].
Defined.

(** ** Applying to a deactivated job *)

(** C5.  A job that is not active takes no application.  A request that
    names it is answered 400 "Job not available" when the caller is a job
    seeker and 403 when the caller has another role; whoever calls, with
    or without a valid token, is refused and no row is created. *)
Theorem apply_to_inactive_job_fails
    (db : database) (req : request (option application_data))
    (data : application_data) (J : Job.t) :
  get_job_row db (Job.id J) = Some J ->
  Job.is_active J = false ->
  Job.id J <> 0 ->
  payload req = Some data ->
  data_job_id data = Some (Job.id J) ->
  refused db (Route.create_application req db)
  /\ applications (snd (Route.create_application req db)) = applications db
  /\ (forall A, is_job_seeker db req A ->
                Route.create_application req db = (job_not_available, db))
  /\ code job_not_available = 400
  /\ (forall U, jwt req = Valid (User.id U) ->
                get_user db (User.id U) = Some U ->
                User.role U <> UserRole.JOB_SEEKER ->
                code (fst (Route.create_application req db)) = 403).
Proof.
  intros Hget Hinactive Hnz Hpayload Hjob.
  assert (Hbody : forall user_id,
             create_application user_id [] req db = (job_not_available, db)).
  { intros user_id. unfold create_application. rewrite Hpayload, Hjob.
    destruct (Job.id J) as [|j|j] eqn:Hid; [congruence| |];
      now rewrite Hget, Hinactive. }
  assert (Hrefused : refused db (Route.create_application req db)).
  { unfold Route.create_application.
    apply job_seeker_required_lift with (Q := refused db); [apply refused_refusal|].
    intros user_id. rewrite Hbody. apply refused_refusal. simpl. lia. }
  split; [exact Hrefused|]. split; [now rewrite (proj1 Hrefused)|].
  split; [|split; [reflexivity|]].
  - intros A (Hjwt & Huser & Hrole). unfold Route.create_application.
    rewrite (job_seeker_required_pass _ _ _ _ A Hjwt Huser Hrole). apply Hbody.
  - intros U Hjwt Huser Hrole.
    unfold Route.create_application, job_seeker_required, jwt_required.
    rewrite Hjwt, Huser.
    destruct (String.eqb_spec (User.role U) UserRole.JOB_SEEKER);
      [contradiction | reflexivity].
Qed.

(** The scenario with the job deactivated: the job seeker and the
    employer both try to apply. *)
Lemma apply_to_inactive_job_fails_witness :
  Route.create_application (Scenario.as_seeker Scenario.apply_to_job)
                           Scenario.db_inactive
  = (job_not_available, Scenario.db_inactive)
  /\ code (fst (Route.create_application (Scenario.as_employer Scenario.apply_to_job)
                                         Scenario.db_inactive)) = 403.
Proof.
  split.
  - refine (proj1 (proj2 (proj2
             (apply_to_inactive_job_fails Scenario.db_inactive
                (Scenario.as_seeker Scenario.apply_to_job)
                (ApplicationData (Some 1) None None None) Scenario.inactive_job
                eq_refl eq_refl _ eq_refl eq_refl))) Scenario.seeker _).
    + discriminate.
    + repeat split.
  - refine (proj2 (proj2 (proj2 (proj2
             (apply_to_inactive_job_fails Scenario.db_inactive
                (Scenario.as_employer Scenario.apply_to_job)
                (ApplicationData (Some 1) None None None) Scenario.inactive_job
                eq_refl eq_refl _ eq_refl eq_refl)))) Scenario.employer eq_refl eq_refl _).
    + discriminate.
    + discriminate.
Defined.

(** ** Job titles *)

(** C4 (as the code has it).  [create_job] refuses a title of fewer than
    five characters; [update_job] only refuses an empty one.  In the
    scenario, where every stored title has five characters or more, the
    owner renames the job to "Dev": the answer is 200 and the stored title
    has three characters, while posting a job under that title is
    refused. *)
Theorem update_job_stores_short_title :
  let res := Route.update_job 1 (Scenario.as_employer (Scenario.rename "Dev"))
                              Scenario.db in
  Forall (fun j => 5 <= Py.len (Job.title j)) (jobs Scenario.db)
  /\ code (fst res) = 200
  /\ option_map Job.title (get_job_row (snd res) 1) = Some "Dev"
  /\ ~ Forall (fun j => 5 <= Py.len (Job.title j)) (jobs (snd res))
  /\ Route.create_job (Scenario.as_employer (Scenario.post_job "Dev" "Build things"))
                      Scenario.db
     = (validation_failed ["Job title must be at least 5 characters long"], Scenario.db).
Proof.
  cbv zeta. split; [|split; [|split; [|split]]].
  - repeat constructor. vm_compute. discriminate.
  - reflexivity.
  - reflexivity.
  - intros H. inversion H as [|? ? Hlen _]; subst. vm_compute in Hlen. now apply Hlen.
  - reflexivity.
Qed.

(** ** Deleting an application *)

(** What the delete route answers the applicant. *)
Lemma delete_application_by_applicant req db application_id application A :
  is_job_seeker db req A ->
  get_application_row db application_id = Some application ->
  Application.applicant_id application = User.id A ->
  Route.delete_application application_id req db
  = if (Application.status application =? ApplicationStatus.WITHDRAWN)%string
    then (application_deleted,
          Database (users db) (jobs db)
                   (delete_row Application.id application_id (applications db)))
    else (cannot_delete, db).
Proof.
  intros (Hjwt & Huser & Hrole) Happ Hown. unfold Route.delete_application.
  rewrite (job_seeker_required_pass _ _ _ _ A Hjwt Huser Hrole).
  unfold with_kwarg. simpl. unfold delete_application.
  rewrite Happ, Hown, Z.eqb_refl. simpl.
  destruct (_ =? _)%string; reflexivity.
Qed.

(** What the withdraw route answers the applicant of a pending
    application. *)
Lemma withdraw_application_by_applicant req db application_id application A :
  is_job_seeker db req A ->
  get_application_row db application_id = Some application ->
  Application.applicant_id application = User.id A ->
  Application.status application = ApplicationStatus.PENDING ->
  snd (Route.withdraw_application application_id req db)
  = set_application_status db application_id ApplicationStatus.WITHDRAWN (now req)
  /\ code (fst (Route.withdraw_application application_id req db)) = 200.
Proof.
  intros (Hjwt & Huser & Hrole) Happ Hown Hpending. unfold Route.withdraw_application.
  rewrite (job_seeker_required_pass _ _ _ _ A Hjwt Huser Hrole).
  unfold with_kwarg. simpl. unfold withdraw_application.
  rewrite Happ, Hown, Z.eqb_refl, Hpending. split; reflexivity.
Qed.

(** C6.  The applicant deletes an application exactly when it is
    withdrawn: then the answer is 200 and the row is gone; otherwise it is
    the 400 "Cannot delete application" and the store is as it was.  So a
    pending application cannot be deleted, and withdrawing it first makes
    the deletion succeed. *)
Theorem delete_requires_withdrawn
    (db : database) (req : request unit) (application_id : Z)
    (application : Application.t) (A : User.t) :
  is_job_seeker db req A ->
  get_application_row db application_id = Some application ->
  Application.applicant_id application = User.id A ->
  let deleted := Route.delete_application application_id req db in
  (code (fst deleted) = 200 <-> Application.status application = ApplicationStatus.WITHDRAWN)
  /\ (Application.status application = ApplicationStatus.WITHDRAWN ->
      fst deleted = application_deleted
      /\ get_application_row (snd deleted) application_id = None)
  /\ (Application.status application <> ApplicationStatus.WITHDRAWN ->
      deleted = (cannot_delete, db) /\ code cannot_delete = 400)
  /\ (Application.status application = ApplicationStatus.PENDING ->
      deleted = (cannot_delete, db)
      /\ let withdrawn := Route.withdraw_application application_id req db in
         let deleted' := Route.delete_application application_id req (snd withdrawn) in
         code (fst withdrawn) = 200
         /\ fst deleted' = application_deleted
         /\ get_application_row (snd deleted') application_id = None).
Proof.
  intros Hseeker Happ Hown deleted.
  assert (Hdel := delete_application_by_applicant req db application_id application A
                    Hseeker Happ Hown).
  fold deleted in Hdel.
  assert (Hgone : forall us js rows,
             get_application_row
               (Database us js (delete_row Application.id application_id rows))
               application_id = None).
  { intros us js rows. unfold get_application_row. simpl.
    apply query_get_delete_row_same. }
  split; [|split; [|split]].
  - rewrite Hdel.
    destruct (String.eqb_spec (Application.status application) ApplicationStatus.WITHDRAWN);
      split; intros H; try assumption; try reflexivity;
      [vm_compute in H; discriminate H | contradiction].
  - intros Hw. rewrite Hdel, Hw. simpl. split; [reflexivity | apply Hgone].
  - intros Hnw. rewrite Hdel.
    destruct (String.eqb_spec (Application.status application) ApplicationStatus.WITHDRAWN);
      [contradiction | split; reflexivity].
  - intros Hpending. split; [rewrite Hdel, Hpending; reflexivity|].
    destruct (withdraw_application_by_applicant req db application_id application A
                Hseeker Happ Hown Hpending) as [Hdb1 Hcode].
    cbv zeta. rewrite Hdb1. split; [exact Hcode|].
    set (db1 := set_application_status db application_id ApplicationStatus.WITHDRAWN (now req)).
    assert (Hseeker1 : is_job_seeker db1 req A).
    { destruct Hseeker as (Hjwt & Huser & Hrole). repeat split; auto. }
    assert (Happ1 : get_application_row db1 application_id
                    = Some (Application.set_status ApplicationStatus.WITHDRAWN (now req)
                                                   application)).
    { unfold get_application_row, db1, set_application_status. simpl.
      apply query_get_update_row_same; [reflexivity | exact Happ]. }
    rewrite (delete_application_by_applicant req db1 application_id _ A
               Hseeker1 Happ1 Hown).
    simpl. split; [reflexivity | apply Hgone].
Qed.

(** The scenario: the job seeker cannot delete the pending application,
    withdraws it, and then deletes it. *)
Lemma delete_requires_withdrawn_witness :
  Route.delete_application 1 (Scenario.as_seeker tt) Scenario.db
  = (cannot_delete, Scenario.db)
  /\ get_application_row
       (snd (Route.delete_application 1 (Scenario.as_seeker tt)
               (snd (Route.withdraw_application 1 (Scenario.as_seeker tt) Scenario.db))))
       1 = None.
Proof.
  assert (Hseeker : is_job_seeker Scenario.db (Scenario.as_seeker tt) Scenario.seeker)
    by (repeat split).
  destruct (delete_requires_withdrawn Scenario.db (Scenario.as_seeker tt) 1
              Scenario.application Scenario.seeker Hseeker eq_refl eq_refl)
    as (_ & _ & _ & Hpending).
  destruct (Hpending eq_refl) as (Hrefused & _ & _ & Hgone).
  split; [exact Hrefused | exact Hgone].
Defined.

(** ** The jobs listing *)

Section OrderByFacts.
Context {R : Type} (key : R -> Z).

Lemma In_insert_desc r x rows : In x (insert_desc key r rows) <-> x = r \/ In x rows.
Proof.
  induction rows as [|y rows IH]; simpl.
  - intuition.
  - destruct (key y <=? key r); simpl; [intuition|].
    rewrite IH. intuition.
Qed.

Lemma In_order_by_desc x rows : In x (order_by_desc key rows) <-> In x rows.
Proof.
  induction rows as [|y rows IH]; simpl; [reflexivity|].
  rewrite In_insert_desc, IH. intuition.
Qed.

Lemma insert_desc_sorted r rows :
  StronglySorted (newest_first key) rows ->
  StronglySorted (newest_first key) (insert_desc key r rows).
Proof.
  induction 1 as [|y rows Hs IH Hy]; simpl.
  - constructor; constructor.
  - destruct (Z.leb_spec (key y) (key r)).
    + constructor; [constructor; assumption|].
      constructor; [assumption|].
      rewrite Forall_forall in *. intros z Hz. specialize (Hy z Hz).
      unfold newest_first in *. lia.
    + constructor; [assumption|].
      rewrite Forall_forall in *. intros z Hz.
      apply In_insert_desc in Hz as [->|Hz]; [unfold newest_first; lia | auto].
Qed.

Lemma order_by_desc_sorted rows : StronglySorted (newest_first key) (order_by_desc key rows).
Proof.
  induction rows as [|y rows IH]; simpl; [constructor|].
  now apply insert_desc_sorted.
Qed.

Lemma In_skipn n (x : R) rows : In x (skipn n rows) -> In x rows.
Proof.
  revert rows. induction n as [|n IH]; intros [|y rows]; simpl; auto.
Qed.

Lemma In_firstn n (x : R) rows : In x (firstn n rows) -> In x rows.
Proof.
  revert rows. induction n as [|n IH]; intros [|y rows]; simpl;
    try contradiction.
  intros [H|H]; auto.
Qed.

Lemma skipn_sorted n rows :
  StronglySorted (newest_first key) rows -> StronglySorted (newest_first key) (skipn n rows).
Proof.
  revert rows. induction n as [|n IH]; intros [|y rows] H; simpl; auto.
  apply IH. now inversion H.
Qed.

Lemma firstn_sorted n rows :
  StronglySorted (newest_first key) rows -> StronglySorted (newest_first key) (firstn n rows).
Proof.
  revert rows. induction n as [|n IH]; intros [|y rows] H; simpl;
    try constructor.
  - apply IH. now inversion H.
  - inversion H as [|? ? _ Hy]; subst. rewrite Forall_forall in *.
    intros z Hz. apply Hy. now apply In_firstn in Hz.
Qed.
End OrderByFacts.

Lemma In_paginate {R : Type} (x : R) query page per_page :
  In x (items (paginate query page per_page)) -> In x query.
Proof.
  unfold paginate. simpl. intros H. now apply In_firstn, In_skipn in H.
Qed.

Lemma In_filter_if {R : Type} guard cond (x : R) query :
  In x (filter_if guard cond query) -> In x query.
Proof.
  unfold filter_if. destruct guard; [|auto]. intros H. now apply filter_In in H.
Qed.

Section JobListingFacts.
Variable ilike : string -> string -> bool.

Lemma get_all_jobs_query_active db args j :
  In j (get_all_jobs_query ilike db args) -> Job.is_active j = true.
Proof.
  unfold get_all_jobs_query. intros H.
  apply In_order_by_desc in H.
  destruct (arg_employer_id args) as [[|e|e]|]; destruct (arg_is_remote args);
    repeat match type of H with
           | In _ (filter _ (filter_if _ _ _)) => apply filter_In in H as [H _]
           | In _ (filter _ (filter _ _)) => apply filter_In in H as [H _]
           | In _ (filter_if _ _ _) => apply In_filter_if in H
           end;
    now apply filter_In in H.
Qed.

Lemma get_all_jobs_query_remote db args v j :
  arg_is_remote args = Some v ->
  In j (get_all_jobs_query ilike db args) ->
  Job.is_remote j = is_remote_bool v.
Proof.
  unfold get_all_jobs_query. intros Hv H. rewrite Hv in H.
  apply In_order_by_desc in H.
  assert (Hemp : forall q, In j match arg_employer_id args with
                             | None | Some 0 => q
                             | Some e => filter (fun j => Job.employer_id j =? e) q
                             end -> In j q).
  { intros q. destruct (arg_employer_id args) as [[|e|e]|]; auto;
      intros Hq; now apply filter_In in Hq. }
  apply Hemp in H. apply filter_In in H as [_ H]. now apply eqb_prop in H.
Qed.

(** C7.  Every job the listing returns is active; when the request has
    is_remote set to true (or "1", or "yes"), every one of them is a
    remote job; and they come newest first, by [created_at].  The
    response of the route carries the summaries of these rows, in this
    order. *)
Theorem job_listing_active_remote_newest_first (db : database) (args : job_list_args) :
  let listed := items (get_all_jobs_page ilike db args) in
  Forall (fun j => Job.is_active j = true) listed
  /\ (forall v, arg_is_remote args = Some v -> is_remote_bool v = true ->
                Forall (fun j => Job.is_remote j = true) listed)
  /\ StronglySorted (newest_first Job.created_at) listed
  /\ (forall req identity,
         jwt req = Valid identity -> payload req = args ->
         code (fst (Route.get_all_jobs ilike req db)) = 200
         /\ field "jobs" (body (fst (Route.get_all_jobs ilike req db)))
            = JList (map (Job_to_summary db) listed)).
Proof.
  cbv zeta. unfold get_all_jobs_page. split; [|split; [|split]].
  - apply Forall_forall. intros j Hj. apply In_paginate in Hj.
    now apply get_all_jobs_query_active in Hj.
  - intros v Hv Htrue. apply Forall_forall. intros j Hj. apply In_paginate in Hj.
    rewrite <- Htrue. now apply get_all_jobs_query_remote with (db := db) (args := args).
  - unfold paginate. simpl. apply firstn_sorted, skipn_sorted.
    unfold get_all_jobs_query. apply order_by_desc_sorted.
  - intros req identity Hjwt Hpayload.
    unfold Route.get_all_jobs, jwt_required, get_all_jobs. rewrite Hjwt, Hpayload.
    split; reflexivity.
Qed.
End JobListingFacts.

(** The remote jobs of the board, for a request with is_remote=true. *)
Lemma job_listing_active_remote_newest_first_witness :
  Forall (fun j => Job.is_remote j = true)
         (items (get_all_jobs_page Scenario.any_ilike Scenario.board
                   (Scenario.listing None None (Some "true"))))
  /\ map Job.id (items (get_all_jobs_page Scenario.any_ilike Scenario.board
                          (Scenario.listing None None None))) = [3; 2; 1].
Proof.
  split; [|reflexivity].
  exact (proj1 (proj2 (job_listing_active_remote_newest_first Scenario.any_ilike
                         Scenario.board (Scenario.listing None None (Some "true"))))
               "true" eq_refl eq_refl).
Defined.

(** ** Pagination *)

Lemma ceil_div_least (a b : Z) :
  1 <= b -> forall n, a <= n * b <-> ceil_div a b <= n.
Proof.
  intros Hb n. unfold ceil_div.
  pose proof (Z.div_mod (a + b - 1) b ltac:(lia)) as Hdm.
  pose proof (Z.mod_pos_bound (a + b - 1) b ltac:(lia)) as Hr.
  split; intros H; nia.
Qed.

Section PaginationFacts.
Variable ilike : string -> string -> bool.

(** C8 (as amended).  For a listing request with page >= 1 and
    per_page >= 1 the
    answer is 200 and its pagination block has total_items the number
    of rows of the query, total_pages the ceiling of total_items /
    per_page (the least n with total_items <= n * per_page), has_next
    true exactly when page < total_pages and has_prev true exactly when
    page > 1; for a page beyond total_pages the jobs list is empty. *)
Theorem job_listing_pagination (db : database) (req : request job_list_args)
    (identity : Z) :
  let page := Py.get (arg_page (payload req)) 1 in
  let per_page := Py.get (arg_per_page (payload req)) 10 in
  let total_items := count (get_all_jobs_query ilike db (payload req)) in
  let r := fst (Route.get_all_jobs ilike req db) in
  jwt req = Valid identity ->
  1 <= page ->
  1 <= per_page ->
  exists total_pages,
    (forall n, total_items <= n * per_page <-> total_pages <= n)
    /\ code r = 200
    /\ field "pagination" (body r)
       = JObj [("page", JInt page);
               ("per_page", JInt per_page);
               ("total_items", JInt total_items);
               ("total_pages", JInt total_pages);
               ("has_next", JBool (page <? total_pages));
               ("has_prev", JBool (page >? 1))]
    /\ (total_pages < page -> field "jobs" (body r) = JList []).
Proof.
  cbv zeta. intros Hjwt Hpage Hper.
  set (page := Py.get (arg_page (payload req)) 1) in *.
  set (per_page := Py.get (arg_per_page (payload req)) 10) in *.
  set (query := get_all_jobs_query ilike db (payload req)).
  exists (ceil_div (count query) per_page).
  assert (Hpages : (if count query =? 0 then 0 else ceil_div (count query) per_page)
                   = ceil_div (count query) per_page).
  { destruct (Z.eqb_spec (count query) 0) as [E|]; [|reflexivity].
    rewrite E. unfold ceil_div. symmetry. apply Z.div_small. lia. }
  assert (Hclamp_page : (if page <? 1 then 1 else page) = page)
    by (destruct (Z.ltb_spec page 1); lia).
  assert (Hclamp_per : (if per_page <? 1 then 20 else per_page) = per_page)
    by (destruct (Z.ltb_spec per_page 1); lia).
  unfold Route.get_all_jobs, jwt_required, get_all_jobs. rewrite Hjwt.
  unfold get_all_jobs_page, paginate, pagination_json.
  fold page per_page query. cbn [fst snd body code items total pages has_next has_prev].
  rewrite Hclamp_page, Hclamp_per, Hpages.
  split; [now apply ceil_div_least|]. split; [reflexivity|]. split; [reflexivity|].
  intros Hbeyond. cbn [field find fst snd String.eqb Ascii.eqb Bool.eqb].
  rewrite skipn_all2; [now rewrite firstn_nil|].
  pose proof (proj2 (ceil_div_least (count query) per_page Hper
                       (ceil_div (count query) per_page)) (Z.le_refl _)) as Hle.
  unfold count in *. nia.
Qed.
End PaginationFacts.

(** The board has three active jobs: with two per page, page 3 is empty
    and still answered 200. *)
Lemma job_listing_pagination_witness :
  let r := fst (Route.get_all_jobs Scenario.any_ilike
                  (Scenario.as_seeker (Scenario.listing (Some 3) (Some 2) None))
                  Scenario.board) in
  code r = 200 /\ field "jobs" (body r) = JList [].
Proof.
  destruct (job_listing_pagination Scenario.any_ilike Scenario.board
              (Scenario.as_seeker (Scenario.listing (Some 3) (Some 2) None)) 2
              eq_refl ltac:(simpl; lia) ltac:(simpl; lia))
    as (total_pages & Hceil & Hcode & _ & Hempty).
  split; [exact Hcode|]. apply Hempty.
  assert (total_pages <= 2) by (apply Hceil; vm_compute; discriminate).
  simpl. lia.
Defined.

(** C8 as stated, for every page, fails: the answer repeats the page
    the request gave, while [paginate] counts from page 1.  For page 0
    of the board, ten per page, the block says page 0 of 1 with has_next
    false, although 0 < 1. *)
Lemma job_listing_page_zero_counterexample :
  ~ (forall (ilike : string -> string -> bool) (db : database)
            (req : request job_list_args) (identity : Z),
        let page := Py.get (arg_page (payload req)) 1 in
        let per_page := Py.get (arg_per_page (payload req)) 10 in
        let total_items := count (get_all_jobs_query ilike db (payload req)) in
        let r := fst (Route.get_all_jobs ilike req db) in
        jwt req = Valid identity ->
        1 <= per_page ->
        exists total_pages,
          (forall n, total_items <= n * per_page <-> total_pages <= n)
          /\ code r = 200
          /\ field "pagination" (body r)
             = JObj [("page", JInt page);
                     ("per_page", JInt per_page);
                     ("total_items", JInt total_items);
                     ("total_pages", JInt total_pages);
                     ("has_next", JBool (page <? total_pages));
                     ("has_prev", JBool (page >? 1))]
          /\ (total_pages < page -> field "jobs" (body r) = JList [])).
Proof.
  intros H.
  destruct (H Scenario.any_ilike Scenario.board
              (Scenario.as_seeker (Scenario.listing (Some 0) (Some 10) None)) 2
              eq_refl ltac:(simpl; lia))
    as (total_pages & _ & _ & Hblock & _).
  vm_compute in Hblock.
  injection Hblock as Hpages Hnext. subst total_pages. discriminate Hnext.
Qed.

(** ** Login *)

Section LoginFacts.
Variable check_password_hash : string -> string -> bool.
Variables create_access_token create_refresh_token : Z -> string.

Lemma login_failure req db data :
  payload req = Some data ->
  credentials_given data ->
  no_such_user db data \/ wrong_password check_password_hash db data ->
  login check_password_hash create_access_token create_refresh_token [] req db
  = (authentication_failed, db).
Proof.
  intros Hpayload [Hemail Hpassword] Hcause.
  unfold login. rewrite Hpayload. fold (login_email data).
  destruct (String.eqb_spec (login_email data) ""); [contradiction|].
  destruct (String.eqb_spec (Py.get (data_password data) "") ""); [contradiction|].
  simpl orb. cbv iota.
  destruct Hcause as [Hnone | (user & Hfound & Hcheck)].
  - unfold no_such_user in Hnone. now rewrite Hnone.
  - rewrite Hfound. unfold check_password. now rewrite Hcheck.
Qed.

(** C9.  A login that fails authentication is answered the same way
    whether no user has the email or the password does not verify: 401,
    "Authentication failed", "Invalid email or password".  Every 401 of
    [login] is that one response, so nothing in it tells the two causes
    apart. *)
Theorem login_failure_is_uniform
    (db1 db2 : database) (req1 req2 : request (option login_data))
    (data1 data2 : login_data) :
  payload req1 = Some data1 ->
  payload req2 = Some data2 ->
  credentials_given data1 ->
  credentials_given data2 ->
  no_such_user db1 data1 ->
  wrong_password check_password_hash db2 data2 ->
  let login := login check_password_hash create_access_token create_refresh_token [] in
  fst (login req1 db1) = fst (login req2 db2)
  /\ fst (login req1 db1) = authentication_failed
  /\ code authentication_failed = 401
  /\ (forall req db, code (fst (login req db)) = 401 ->
                     fst (login req db) = authentication_failed).
Proof.
  intros Hp1 Hp2 Hc1 Hc2 Hnone Hwrong. cbv zeta.
  rewrite (login_failure req1 db1 data1 Hp1 Hc1 (or_introl Hnone)).
  rewrite (login_failure req2 db2 data2 Hp2 Hc2 (or_intror Hwrong)).
  split; [reflexivity|]. split; [reflexivity|]. split; [reflexivity|].
  intros req db. unfold login.
  destruct (payload req) as [data|]; [|discriminate].
  destruct (_ || _); [discriminate|].
  destruct (find _ (users db)) as [user|]; [|reflexivity].
  destruct (negb _); [reflexivity | discriminate].
Qed.
End LoginFacts.

(** An unknown email and a wrong password for a known one. *)
Lemma login_failure_is_uniform_witness :
  let login := login Scenario.check_password_hash Scenario.create_token
                     Scenario.create_token [] in
  fst (login (Scenario.anonymous (Scenario.credentials "nobody@x.com" "password1"))
             Scenario.db)
  = fst (login (Scenario.anonymous (Scenario.credentials "E@x.com " "password2"))
               Scenario.db).
Proof.
  refine (proj1 (login_failure_is_uniform Scenario.check_password_hash
                   Scenario.create_token Scenario.create_token
                   Scenario.db Scenario.db
                   (Scenario.anonymous (Scenario.credentials "nobody@x.com" "password1"))
                   (Scenario.anonymous (Scenario.credentials "E@x.com " "password2"))
                   _ _ eq_refl eq_refl _ _ eq_refl _)).
  - split; discriminate.
  - split; discriminate.
  - exists Scenario.employer. split; reflexivity.
Defined.

(** ** Checking whether one has applied *)

(** C10.  For a job seeker, the check route answers 200 with the report
    for every job row there is, active or not, and 404 exactly when there
    is no row with that id; [get_job] on a deactivated job answers 404. *)
Theorem check_status_ignores_is_active
    (db : database) (req : request unit) (job_id : Z) (A : User.t) :
  is_job_seeker db req A ->
  let r := fst (Route.check_application_status job_id req db) in
  (forall J, get_job_row db job_id = Some J ->
             r = match first_application db job_id (User.id A) with
                 | Some application =>
                     Response (JObj [("has_applied", JBool true);
                                     ("application",
                                       Application_to_applicant_view db application)]) 200
                 | None => Response (JObj [("has_applied", JBool false)]) 200
                 end
             /\ code r = 200)
  /\ (code r = 404 <-> get_job_row db job_id = None)
  /\ (forall J, get_job_row db job_id = Some J -> Job.is_active J = false ->
                code r = 200
                /\ Route.get_job job_id req db = (job_deactivated, db)
                /\ code job_deactivated = 404).
Proof.
  intros (Hjwt & Huser & Hrole) r.
  assert (Hr : r = fst (check_application_status job_id (User.id A) req db)).
  { unfold r, Route.check_application_status.
    rewrite (job_seeker_required_pass _ _ _ _ A Hjwt Huser Hrole).
    unfold with_kwarg. reflexivity. }
  assert (Hfound : forall J, get_job_row db job_id = Some J ->
             r = match first_application db job_id (User.id A) with
                 | Some application =>
                     Response (JObj [("has_applied", JBool true);
                                     ("application",
                                       Application_to_applicant_view db application)]) 200
                 | None => Response (JObj [("has_applied", JBool false)]) 200
                 end
             /\ code r = 200).
  { intros J HJ. rewrite Hr. unfold check_application_status. rewrite HJ.
    destruct (first_application db job_id (User.id A)); split; reflexivity. }
  split; [exact Hfound|]. split.
  - destruct (get_job_row db job_id) as [J|] eqn:HJ.
    + destruct (Hfound J eq_refl) as [_ Hcode]. rewrite Hcode.
      split; discriminate.
    + rewrite Hr. unfold check_application_status. rewrite HJ.
      split; reflexivity.
  - intros J HJ Hinactive. split; [apply (Hfound J HJ)|]. split; [|reflexivity].
    unfold Route.get_job, jwt_required. rewrite Hjwt.
    unfold with_kwarg. simpl.
    unfold get_job. now rewrite HJ, Hinactive.
Qed.

(** The scenario with the job deactivated: the job seeker still sees the
    application, while the job itself reads as gone. *)
Lemma check_status_ignores_is_active_witness :
  code (fst (Route.check_application_status 1 (Scenario.as_seeker tt) Scenario.db_inactive))
  = 200
  /\ Route.get_job 1 (Scenario.as_seeker tt) Scenario.db_inactive
     = (job_deactivated, Scenario.db_inactive).
Proof.
  destruct (check_status_ignores_is_active Scenario.db_inactive (Scenario.as_seeker tt) 1
              Scenario.seeker (conj eq_refl (conj eq_refl eq_refl)))
    as (_ & _ & Hinactive).
  destruct (Hinactive Scenario.inactive_job eq_refl eq_refl) as (Hcode & Hget & _).
  split; [exact Hcode | exact Hget].
Defined.

(** * Further properties of the routes *)

(** ** Applying *)

Lemma find_app_none {A : Type} (p : A -> bool) (l l' : list A) :
  find p l = None -> find p (l ++ l') = find p l'.
Proof.
  induction l as [|x l IH]; simpl; [reflexivity|].
  destruct (p x); [discriminate | exact IH].
Qed.

Lemma kwarg_single name v : kwarg name [(name, v)] = Some v.
Proof.
  unfold kwarg. simpl. now rewrite String.eqb_refl.
Qed.

Lemma is_job_seeker_same_users {P Q : Type} db db' (req : request P) (req' : request Q) A :
  users db' = users db -> jwt req' = jwt req ->
  is_job_seeker db req A -> is_job_seeker db' req' A.
Proof.
  intros Hu Hj (Hjwt & Huser & Hrole). unfold is_job_seeker, get_user in *.
  rewrite Hu, Hj. auto.
Qed.

(** X1.  A job seeker who applies to an active job for the first time is
    answered 201; the store gains exactly one application, pending, for
    that job and that applicant, with the next free id.  From then on the
    check route reports it and a second apply is answered 409 with its
    id. *)
Theorem first_apply_creates_pending_application
    (db : database) (req : request (option application_data))
    (data : application_data) (J : Job.t) (A : User.t) :
  is_job_seeker db req A ->
  payload req = Some data ->
  data_job_id data = Some (Job.id J) ->
  Job.id J <> 0 ->
  get_job_row db (Job.id J) = Some J ->
  Job.is_active J = true ->
  first_application db (Job.id J) (User.id A) = None ->
  let created := new_application db req data (Job.id J) (User.id A) in
  let db' := Database (users db) (jobs db) (applications db ++ [created]) in
  Route.create_application req db
  = (Response (JObj [("message", JStr "Application submitted successfully");
                     ("application", Application_to_dict db' created)]) 201, db')
  /\ first_application db' (Job.id J) (User.id A) = Some created
  /\ (forall req' : request unit,
         jwt req' = jwt req ->
         fst (Route.check_application_status (Job.id J) req' db')
         = Response (JObj [("has_applied", JBool true);
                           ("application",
                             Application_to_applicant_view db' created)]) 200)
  /\ Route.create_application req db' = (already_applied created, db').
Proof.
  intros Hseeker Hpayload Hjob Hnz Hget Hactive Hfirst created db'.
  assert (Hfirst' : first_application db' (Job.id J) (User.id A) = Some created).
  { unfold first_application in *. simpl. rewrite find_app_none by assumption.
    simpl. now rewrite !Z.eqb_refl. }
  assert (Hseeker' : forall (Q : Type) (req' : request Q),
             jwt req' = jwt req -> is_job_seeker db' req' A).
  { intros Q req' Hj. now apply (is_job_seeker_same_users db db' req req'). }
  split; [|split; [exact Hfirst'|split]].
  - rewrite (create_application_on_job req db data J A) by assumption.
    rewrite Hactive, Hfirst. simpl negb. cbv iota.
    unfold create_application. destruct Hseeker as (_ & Huser & _).
    rewrite Hpayload, Hjob, Huser.
    destruct (Job.id J) as [|j|j] eqn:Hid; [congruence| |];
      rewrite Hget, Hactive; simpl negb; cbv iota;
      unfold first_application in Hfirst |- *; rewrite Hfirst; reflexivity.
  - intros req' Hj. destruct (Hseeker' unit req' Hj) as (Hjwt & Huser & Hrole).
    unfold Route.check_application_status.
    rewrite (job_seeker_required_pass _ _ _ _ A Hjwt Huser Hrole).
    unfold with_kwarg. rewrite kwarg_single. unfold check_application_status.
    change (get_job_row db' (Job.id J)) with (get_job_row db (Job.id J)).
    now rewrite Hget, Hfirst'.
  - rewrite (create_application_on_job req db' data J A); auto.
    now rewrite Hactive, Hfirst'.
Qed.

(** ** Who passes the decorators *)

Lemma get_user_id db k u : get_user db k = Some u -> User.id u = k.
Proof.
  unfold get_user, query_get. intros H. apply find_some in H. lia.
Qed.

Lemma is_job_seeker_unique {P : Type} db (req : request P) A B :
  is_job_seeker db req A -> is_job_seeker db req B -> A = B.
Proof.
  intros (Hj & Hu & _) (Hj' & Hu' & _). rewrite Hj in Hj'. injection Hj' as E.
  rewrite E in Hu. congruence.
Qed.

Lemma is_employer_unique {P : Type} db (req : request P) A B :
  is_employer db req A -> is_employer db req B -> A = B.
Proof.
  intros (Hj & Hu & _) (Hj' & Hu' & _). rewrite Hj in Hj'. injection Hj' as E.
  rewrite E in Hu. congruence.
Qed.

(** [job_seeker_required] either finds the caller to be a job seeker and
    runs the function for it, or refuses. *)
Lemma job_seeker_required_cases {P : Type} (fn : protected P) kw req db :
  (exists A, is_job_seeker db req A
             /\ job_seeker_required fn kw req db = fn (User.id A) kw req db)
  \/ ((forall A, ~ is_job_seeker db req A)
      /\ refused db (job_seeker_required fn kw req db)).
Proof.
  unfold job_seeker_required, jwt_required.
  destruct (jwt req) as [identity| | |] eqn:Hjwt;
    try (right; split; [intros A (Hj & _); congruence
                       | apply refused_refusal; simpl; lia]).
  destruct (get_user db identity) as [user|] eqn:Huser.
  - pose proof (get_user_id _ _ _ Huser) as Hid.
    destruct (String.eqb_spec (User.role user) UserRole.JOB_SEEKER) as [Hrole|Hrole];
      simpl.
    + left. exists user. rewrite Hid. repeat split; congruence.
    + right. split; [|apply refused_refusal; simpl; lia].
      intros A (Hj & Hu & Hr). rewrite Hjwt in Hj. injection Hj as E.
      rewrite <- E in Hu. congruence.
  - right. split; [|apply refused_refusal; simpl; lia].
    intros A (Hj & Hu & _). rewrite Hjwt in Hj. injection Hj as E.
    rewrite <- E in Hu. congruence.
Qed.

Lemma employer_required_cases {P : Type} (fn : protected P) kw req db :
  (exists E, is_employer db req E
             /\ employer_required fn kw req db = fn (User.id E) kw req db)
  \/ ((forall E, ~ is_employer db req E)
      /\ refused db (employer_required fn kw req db)).
Proof.
  unfold employer_required, jwt_required.
  destruct (jwt req) as [identity| | |] eqn:Hjwt;
    try (right; split; [intros A (Hj & _); congruence
                       | apply refused_refusal; simpl; lia]).
  destruct (get_user db identity) as [user|] eqn:Huser.
  - pose proof (get_user_id _ _ _ Huser) as Hid.
    destruct (String.eqb_spec (User.role user) UserRole.EMPLOYER) as [Hrole|Hrole];
      simpl.
    + left. exists user. rewrite Hid. repeat split; congruence.
    + right. split; [|apply refused_refusal; simpl; lia].
      intros A (Hj & Hu & Hr). rewrite Hjwt in Hj. injection Hj as E.
      rewrite <- E in Hu. congruence.
  - right. split; [|apply refused_refusal; simpl; lia].
    intros A (Hj & Hu & _). rewrite Hjwt in Hj. injection Hj as E.
    rewrite <- E in Hu. congruence.
Qed.

(** For a [Job], the resource check of an employer is the ownership of
    the job. *)
Lemma job_access_is_owner_only {P : Type} (fn : protected P) req db E job_id :
  is_employer db req E ->
  resource_owner_or_employer_required JobModel "job_id" fn [("job_id", job_id)] req db
  = if job_id =? 0 then
      (error_response "Resource ID not found"
         "Could not find job_id in request parameters" 400, db)
    else match get_job_row db job_id with
         | None =>
             (error_response "Resource not found"
                ("Job with ID " ++ Py.str job_id ++ " not found") 404, db)
         | Some job =>
             if Job.employer_id job =? User.id E
             then fn (User.id E) [("job_id", job_id)] req db
             else (access_denied, db)
         end.
Proof.
  intros (Hjwt & Huser & Hrole).
  unfold resource_owner_or_employer_required, jwt_required.
  rewrite Hjwt, Huser, kwarg_single, Hrole. simpl get.
  destruct job_id as [|k|k]; simpl Z.eqb; cbv iota; try reflexivity;
    (destruct (get_job_row db _) as [job|]; [|reflexivity]);
    simpl; destruct (Job.employer_id job =? User.id E); reflexivity.
Qed.

(** The three routes that sit behind [employer_required] and the resource
    check of a [Job]. *)
Lemma job_route_cases {P : Type}
    (fn : Z -> Z -> request P -> database -> result) req db job_id :
  let route :=
    employer_required
      (fun _ => resource_owner_or_employer_required JobModel "job_id"
                  (with_kwarg "job_id" fn)) [("job_id", job_id)] req db in
  (exists E job, is_employer db req E
                 /\ job_id <> 0
                 /\ get_job_row db job_id = Some job
                 /\ Job.employer_id job = User.id E
                 /\ route = fn job_id (User.id E) req db)
  \/ ((forall E job, is_employer db req E -> get_job_row db job_id = Some job ->
                     job_id <> 0 -> Job.employer_id job <> User.id E)
      /\ refused db route).
Proof.
  cbv zeta.
  destruct (employer_required_cases
              (fun _ => resource_owner_or_employer_required JobModel "job_id"
                          (with_kwarg "job_id" fn)) [("job_id", job_id)] req db)
    as [(E & HE & ->) | (Hnone & Href)].
  - rewrite (job_access_is_owner_only _ req db E job_id HE).
    destruct (Z.eqb_spec job_id 0) as [Hz|Hnz].
    + right. split; [intros; congruence | apply refused_refusal; simpl; lia].
    + destruct (get_job_row db job_id) as [job|] eqn:Hjob.
      * destruct (Z.eqb_spec (Job.employer_id job) (User.id E)) as [Hown|Hother].
        -- left. exists E, job. unfold with_kwarg. rewrite kwarg_single. auto.
        -- right. split; [|apply refused_refusal; simpl; lia].
           intros E' job' HE' Hjob' _.
           rewrite (is_employer_unique db req E' E HE' HE). congruence.
      * right. split; [intros; congruence | apply refused_refusal; simpl; lia].
  - right. split; [|exact Href]. intros E job HE. now apply Hnone in HE.
Qed.

Lemma first_apply_creates_pending_application_witness :
  code (fst (Route.create_application (Scenario.as_seeker Scenario.apply_to_job)
                                      Sample.db_open)) = 201
  /\ snd (Route.create_application (Scenario.as_seeker Scenario.apply_to_job)
                                   Sample.db_open)
     = Database [Scenario.employer; Scenario.seeker] [Scenario.job]
         [Application.mk 1 1 2 ApplicationStatus.PENDING (Some "") (Some "") (Some "")
                         200 200].
Proof.
  destruct (first_apply_creates_pending_application Sample.db_open
              (Scenario.as_seeker Scenario.apply_to_job)
              (ApplicationData (Some 1) None None None) Scenario.job Scenario.seeker
              (conj eq_refl (conj eq_refl eq_refl)) eq_refl eq_refl
              ltac:(discriminate) eq_refl eq_refl eq_refl) as (H & _).
  rewrite H. split; reflexivity.
Defined.

(** ** Withdrawing and deciding *)

(** X2.  The withdraw route answers 200 exactly when the caller is a job
    seeker, the application exists, is the caller's and is pending; then
    the store differs only by the status of that row, now withdrawn.  In
    every other case the store is left as it was. *)
Theorem withdraw_succeeds_exactly_when
    (db : database) (req : request unit) (application_id : Z) :
  let res := Route.withdraw_application application_id req db in
  (code (fst res) = 200 <->
   exists A application,
     is_job_seeker db req A
     /\ get_application_row db application_id = Some application
     /\ Application.applicant_id application = User.id A
     /\ Application.status application = ApplicationStatus.PENDING)
  /\ (code (fst res) = 200 ->
      snd res = set_application_status db application_id
                  ApplicationStatus.WITHDRAWN (now req))
  /\ (code (fst res) <> 200 -> snd res = db).
Proof.
  cbv zeta. unfold Route.withdraw_application.
  destruct (job_seeker_required_cases (with_kwarg "application_id" withdraw_application)
              [("application_id", application_id)] req db)
    as [(A & HA & ->) | (Hnone & Hsnd & Hcode)].
  - unfold with_kwarg. rewrite kwarg_single. unfold withdraw_application.
    destruct (get_application_row db application_id) as [application|] eqn:Happ.
    + destruct (Z.eqb_spec (Application.applicant_id application) (User.id A))
        as [Hown|Hother]; cbn [negb].
      * destruct (String.eqb_spec (Application.status application)
                                  ApplicationStatus.PENDING) as [Hp|Hnp]; cbn [negb].
        -- split; [|split; [reflexivity | intros H; now contradiction H]].
           split; [intros _; exists A, application; auto | reflexivity].
        -- split; [|split; [discriminate | reflexivity]].
           split; [discriminate|].
           intros (A' & a' & HA' & Ha' & _ & Hp). congruence.
      * split; [|split; [discriminate | reflexivity]].
        split; [discriminate|].
        intros (A' & a' & HA' & Ha' & Hown & _).
        rewrite (is_job_seeker_unique db req A' A HA' HA) in Hown. congruence.
    + split; [|split; [discriminate | reflexivity]].
      split; [discriminate|]. intros (A' & a' & _ & Ha' & _). congruence.
  - split; [|split; [lia | auto]].
    split; [lia|]. intros (A' & a' & HA' & _). now apply Hnone in HA'.
Qed.

(** The scenario: the applicant withdraws; the other job seeker cannot. *)
Lemma withdraw_succeeds_exactly_when_witness :
  code (fst (Route.withdraw_application 1 (Scenario.as_seeker tt) Sample.db)) = 200
  /\ snd (Route.withdraw_application 1 (Sample.as_other_seeker tt) Sample.db) = Sample.db.
Proof.
  split.
  - apply (proj1 (withdraw_succeeds_exactly_when Sample.db (Scenario.as_seeker tt) 1)).
    exists Scenario.seeker, Scenario.application. repeat split.
  - apply (proj2 (proj2 (withdraw_succeeds_exactly_when Sample.db
                           (Sample.as_other_seeker tt) 1))).
    discriminate.
Defined.

(** X3.  The decide route answers 200 exactly when the caller is an
    employer whose own id is the application's [applicant_id], the
    application is pending and the body asks for "accepted" or "rejected"
    (in any case of letters); the status then becomes the lower-cased
    word.  The owner of the job plays no part, and in every other case the
    store is left as it was. *)
Theorem decide_succeeds_exactly_when
    (db : database) (req : request (option status_data)) (application_id : Z) :
  let res := Route.update_application_status application_id req db in
  (code (fst res) = 200 <->
   exists E application s,
     is_employer db req E
     /\ application_id <> 0
     /\ get_application_row db application_id = Some application
     /\ Application.applicant_id application = User.id E
     /\ Application.status application = ApplicationStatus.PENDING
     /\ payload req = Some (StatusData (Some s))
     /\ Py.mem (Py.lower s) valid_statuses = true)
  /\ (forall s, code (fst res) = 200 -> payload req = Some (StatusData (Some s)) ->
                snd res = set_application_status db application_id (Py.lower s) (now req))
  /\ (code (fst res) <> 200 -> snd res = db).
Proof.
  cbv zeta. unfold Route.update_application_status.
  destruct (employer_required_cases
              (fun _ => resource_owner_or_employer_required ApplicationModel
                          "application_id"
                          (with_kwarg "application_id" update_application_status))
              [("application_id", application_id)] req db)
    as [(E & HE & ->) | (Hnone & Hsnd & Hcode)].
  - pose proof HE as (Hjwt & Huser & Hrole).
    destruct (Z.eq_dec application_id 0) as [->|Hnz].
    { unfold resource_owner_or_employer_required, jwt_required.
      rewrite Hjwt, Huser, kwarg_single.
      split; [|split; [discriminate | reflexivity]].
      split; [discriminate|]. intros (? & ? & ? & _ & Hnz & _). congruence. }
    destruct (get_application_row db application_id) as [application|] eqn:Happ.
    + rewrite (application_access_is_applicant_only
                 _ [("application_id", application_id)] req db E application
                 application_id Hjwt Huser (kwarg_single _ _) Hnz Happ).
      destruct (Z.eqb_spec (Application.applicant_id application) (User.id E))
        as [Hown|Hother].
      * unfold with_kwarg. rewrite kwarg_single. unfold update_application_status.
        rewrite Happ.
        destruct (payload req) as [[[status|]]|] eqn:Hpayload.
        -- destruct (Py.mem (Py.lower status) valid_statuses) eqn:Hmem; cbn [negb].
           ++ destruct (String.eqb_spec (Application.status application)
                                        ApplicationStatus.PENDING) as [Hp|Hnp];
                cbn [negb].
              ** split; [|split; [now intros s _ [= <-] | intros H; now contradiction H]].
                 split; [intros _; exists E, application, status; auto 10 | reflexivity].
              ** split; [|split; [discriminate | reflexivity]].
                 split; [discriminate|].
                 intros (E' & a' & s & _ & _ & Ha' & _ & Hp & _). congruence.
           ++ split; [|split; [discriminate | reflexivity]].
              split; [discriminate|].
              intros (E' & a' & s & _ & _ & _ & _ & _ & [= <-] & Hm). congruence.
        -- split; [|split; [discriminate | reflexivity]].
           split; [discriminate|].
           intros (E' & a' & s & _ & _ & _ & _ & _ & Hs & _). discriminate Hs.
        -- split; [|split; [discriminate | reflexivity]].
           split; [discriminate|].
           intros (E' & a' & s & _ & _ & _ & _ & _ & Hs & _). discriminate Hs.
      * split; [|split; [discriminate | reflexivity]].
        split; [discriminate|].
        intros (E' & a' & s & HE' & _ & Ha' & Hown & _).
        rewrite (is_employer_unique db req E' E HE' HE) in Hown. congruence.
    + unfold resource_owner_or_employer_required, jwt_required.
      rewrite Hjwt, Huser, kwarg_single. simpl get. rewrite Happ.
      destruct application_id as [|k|k]; [congruence| |];
        (split; [|split; [discriminate | reflexivity]]);
        (split; [discriminate|]);
        intros (E' & a' & s & _ & _ & Ha' & _); discriminate Ha'.
  - split; [|split; [intros; lia | auto]].
    split; [lia|]. intros (E' & a' & s & HE' & _). now apply Hnone in HE'.
Qed.

(** The owner of the job is not such a caller. *)
Lemma decide_succeeds_exactly_when_witness :
  snd (Route.update_application_status 1 (Scenario.as_employer Scenario.accept)
                                       Sample.db) = Sample.db.
Proof.
  apply (proj2 (proj2 (decide_succeeds_exactly_when Sample.db
                         (Scenario.as_employer Scenario.accept) 1))).
  discriminate.
Defined.

(** ** What one call does to the tables *)

Lemma effect_refl db : effect db db.
Proof. repeat split; constructor. Qed.

Lemma effect_refused db res : refused db res -> effect db (snd res).
Proof. intros [-> _]. apply effect_refl. Qed.

Lemma effect_applications db rows :
  applications_effect db rows ->
  effect db (Database (users db) (jobs db) rows).
Proof. intros H. repeat split; simpl; [constructor | constructor | exact H]. Qed.

Lemma effect_jobs db rows :
  jobs_effect db rows ->
  effect db (Database (users db) rows (applications db)).
Proof. intros H. repeat split; simpl; [constructor | exact H | constructor]. Qed.

Lemma effect_users db rows :
  users_effect db rows ->
  effect db (Database rows (jobs db) (applications db)).
Proof. intros H. repeat split; simpl; [exact H | constructor | constructor]. Qed.

Lemma create_application_effect req db A :
  get_user db (User.id A) = Some A ->
  User.role A = UserRole.JOB_SEEKER ->
  effect db (snd (create_application (User.id A) [] req db)).
Proof.
  intros Huser Hrole. unfold create_application. rewrite Huser.
  destruct (payload req) as [data|]; [|apply effect_refl].
  destruct (data_job_id data) as [[|j|j]|]; try apply effect_refl;
    (destruct (get_job_row db _) as [job|]; [|apply effect_refl]);
    (destruct (negb (Job.is_active job)); [apply effect_refl|]);
    (destruct (first_application db _ _) eqn:Hfirst; [apply effect_refl|]);
    apply effect_applications;
    apply applications_added with (u := A); auto.
Qed.

Lemma withdraw_application_effect application_id user_id req db :
  effect db (snd (withdraw_application application_id user_id req db)).
Proof.
  unfold withdraw_application.
  destruct (get_application_row db application_id); [|apply effect_refl].
  destruct (negb (_ =? user_id)); [apply effect_refl|].
  destruct (negb (_ =? _)%string); [apply effect_refl|].
  apply effect_applications. constructor.
Qed.

Lemma delete_application_effect application_id user_id req db :
  effect db (snd (delete_application application_id user_id req db)).
Proof.
  unfold delete_application.
  destruct (get_application_row db application_id); [|apply effect_refl].
  destruct (negb (_ =? user_id)); [apply effect_refl|].
  destruct (negb (_ =? _)%string); [apply effect_refl|].
  apply effect_applications. unfold delete_row. constructor.
Qed.

Lemma decide_effect application_id req db :
  effect db (snd (Route.update_application_status application_id req db)).
Proof.
  unfold Route.update_application_status.
  destruct (employer_required_cases
              (fun _ => resource_owner_or_employer_required ApplicationModel
                          "application_id"
                          (with_kwarg "application_id" update_application_status))
              [("application_id", application_id)] req db)
    as [(E & HE & ->) | (_ & Href)]; [|now apply effect_refused].
  pose proof HE as (Hjwt & Huser & Hrole).
  destruct (Z.eq_dec application_id 0) as [->|Hnz].
  { unfold resource_owner_or_employer_required, jwt_required.
    rewrite Hjwt, Huser, kwarg_single. apply effect_refl. }
  destruct (get_application_row db application_id) as [application|] eqn:Happ.
  - rewrite (application_access_is_applicant_only
               _ [("application_id", application_id)] req db E application
               application_id Hjwt Huser (kwarg_single _ _) Hnz Happ).
    destruct (Z.eqb_spec (Application.applicant_id application) (User.id E))
      as [Hown|Hother]; [|apply effect_refl].
    unfold with_kwarg. rewrite kwarg_single. unfold update_application_status.
    rewrite Happ.
    destruct (payload req) as [[[status|]]|]; try apply effect_refl.
    destruct (negb (Py.mem _ _)); [apply effect_refl|].
    destruct (negb (_ =? _)%string); [apply effect_refl|].
    apply effect_applications. now apply applications_decided with (E := E) (a := application).
  - unfold resource_owner_or_employer_required, jwt_required.
    rewrite Hjwt, Huser, kwarg_single. simpl get. rewrite Happ.
    destruct application_id as [|k|k]; apply effect_refl.
Qed.

Lemma create_job_effect user_id kw req db :
  effect db (snd (create_job user_id kw req db)).
Proof.
  unfold create_job.
  destruct (payload req) as [data|]; [|apply effect_refl].
  set (title := Py.strip (Py.get (data_title data) "")).
  set (description := Py.strip (Py.get (data_description data) "")).
  destruct (String.eqb_spec title "") as [|Htitle]; [apply effect_refl|].
  destruct (Z.ltb_spec (Py.len title) 5) as [|Hlen]; [apply effect_refl|].
  destruct (String.eqb_spec description "") as [|Hdesc]; [apply effect_refl|].
  simpl app. cbv iota.
  destruct (get_user db user_id) as [user|]; [|apply effect_refl].
  apply effect_jobs. apply jobs_posted; auto.
Qed.

Lemma update_job_effect job_id user_id req db :
  effect db (snd (update_job job_id user_id req db)).
Proof.
  unfold update_job.
  destruct (get_job_row db job_id) as [job|] eqn:Hjob; [|apply effect_refl].
  destruct (payload req) as [data|]; [|apply effect_refl].
  destruct (data_title data) as [t|] eqn:Ht; cbn [assign].
  - destruct (String.eqb_spec (Py.strip t) "") as [|Htitle]; [apply effect_refl|].
    destruct (data_description data) as [d|] eqn:Hd; cbn [assign].
    + destruct (String.eqb_spec (Py.strip d) "") as [|Hdesc]; [apply effect_refl|].
      apply effect_jobs. destruct (same_columns _ _);
        apply jobs_rewritten with (j := job); auto.
    + apply effect_jobs. destruct (same_columns _ _);
        apply jobs_rewritten with (j := job); auto.
  - destruct (data_description data) as [d|] eqn:Hd; cbn [assign].
    + destruct (String.eqb_spec (Py.strip d) "") as [|Hdesc]; [apply effect_refl|].
      apply effect_jobs. destruct (same_columns _ _);
        apply jobs_rewritten with (j := job); auto.
    + apply effect_jobs. destruct (same_columns _ _);
        apply jobs_rewritten with (j := job); auto.
Qed.

(** Every request of [operation] has one of the effects. *)
Lemma run_effect op db : effect db (snd (run op db)).
Proof.
  pose (Q := fun res : result => effect db (snd res)).
  assert (Hrefusal : forall r, 400 <= code r -> Q (r, db))
    by (intros; apply effect_refl).
  destruct op; simpl.
  - unfold Route.create_application.
    destruct (job_seeker_required_cases create_application [] req db)
      as [(A & (_ & Huser & Hrole) & ->) | (_ & Href)];
      [now apply create_application_effect | now apply effect_refused].
  - unfold Route.withdraw_application.
    apply (job_seeker_required_lift Q); [exact Hrefusal|].
    intros; apply (with_kwarg_lift Q); [exact Hrefusal|].
    intros; apply withdraw_application_effect.
  - apply decide_effect.
  - unfold Route.delete_application.
    apply (job_seeker_required_lift Q); [exact Hrefusal|].
    intros; apply (with_kwarg_lift Q); [exact Hrefusal|].
    intros; apply delete_application_effect.
  - unfold Route.create_job.
    apply (employer_required_lift Q); [exact Hrefusal|].
    intros; apply create_job_effect.
  - unfold Route.update_job.
    apply (employer_required_lift Q); [exact Hrefusal|]. intros _.
    apply (resource_owner_or_employer_required_lift Q); [exact Hrefusal|].
    intros; apply (with_kwarg_lift Q); [exact Hrefusal|].
    intros; apply update_job_effect.
Qed.

Section ApiEffect.
Variable session_delete_job : database -> Job.t -> database + string.
Variable generate_password_hash : string -> string.
Variable check_password_hash : string -> string -> bool.
Variables create_access_token create_refresh_token : Z -> string.
Hypothesis rows_only_removed : only_removes_rows session_delete_job.

Lemma register_errors_role email password role company_name :
  register_errors email password role company_name = [] ->
  Py.mem role [UserRole.EMPLOYER; UserRole.JOB_SEEKER] = true.
Proof.
  unfold register_errors. intros H.
  apply app_eq_nil in H as [_ H]. apply app_eq_nil in H as [_ H].
  apply app_eq_nil in H as [H _].
  destruct (role =? "")%string; [discriminate|].
  destruct (Py.mem role _); [reflexivity | discriminate].
Qed.

Lemma register_effect kw req db :
  effect db (snd (register generate_password_hash create_access_token
                           create_refresh_token kw req db)).
Proof.
  unfold register.
  destruct (payload req) as [data|]; [|apply effect_refl].
  destruct (register_errors _ _ _ _) eqn:Herrors; [|apply effect_refl].
  destruct (first_user_by_email db _) eqn:Hfirst; [apply effect_refl|].
  apply effect_users. apply users_registered; auto.
  simpl User.role. now apply register_errors_role in Herrors.
Qed.

Lemma change_password_effect user_id kw req db :
  effect db (snd (change_password generate_password_hash check_password_hash
                                  user_id kw req db)).
Proof.
  unfold change_password.
  destruct (get_user db user_id); [|apply effect_refl].
  destruct (payload req) as [data|]; [|apply effect_refl].
  repeat match goal with
         | |- context [if ?b then (_, _) else _] => destruct b; [apply effect_refl|]
         end.
  apply effect_users. constructor.
Qed.

Lemma deactivate_columns t job :
  Job.id (deactivate t job) = Job.id job
  /\ Job.employer_id (deactivate t job) = Job.employer_id job
  /\ Job.created_at (deactivate t job) = Job.created_at job
  /\ Job.title (deactivate t job) = Job.title job
  /\ Job.description (deactivate t job) = Job.description job
  /\ Job.is_active (deactivate t job) = false.
Proof.
  unfold deactivate. destruct (Job.is_active job) eqn:E; simpl; auto 10.
Qed.

Lemma delete_job_effect job_id user_id req db :
  effect db (snd (delete_job session_delete_job job_id user_id req db)).
Proof.
  unfold delete_job.
  destruct (get_job_row db job_id) as [job|] eqn:Hjob; [|apply effect_refl].
  destruct (_ =? "true")%string.
  - destruct (session_delete_job db job) as [db'|e] eqn:Hdel; [|apply effect_refl].
    destruct (rows_only_removed db job db' Hdel) as (Hu & (kj & Hj) & (ka & Ha)).
    simpl. unfold effect. rewrite Hu, Hj, Ha. repeat split; constructor.
  - apply effect_jobs.
    destruct (deactivate_columns (now req) job) as (H1 & H2 & H3 & H4 & H5 & _).
    apply jobs_rewritten with (j := job); auto.
Qed.

(** Every call has one of the effects. *)
Lemma serve_effect c db :
  effect db (snd (serve session_delete_job generate_password_hash check_password_hash
                        create_access_token create_refresh_token c db)).
Proof.
  pose (Q := fun res : result => effect db (snd res)).
  assert (Hrefusal : forall r, 400 <= code r -> Q (r, db))
    by (intros; apply effect_refl).
  destruct c; simpl.
  - apply run_effect.
  - apply register_effect.
  - apply (jwt_required_lift Q); [exact Hrefusal|].
    intros; apply change_password_effect.
  - unfold Endpoint.delete_job.
    apply (employer_required_lift Q); [exact Hrefusal|]. intros _.
    apply (resource_owner_or_employer_required_lift Q); [exact Hrefusal|].
    intros; apply (with_kwarg_lift Q); [exact Hrefusal|].
    intros; apply delete_job_effect.
Qed.
End ApiEffect.

(** ** From the effects to the invariants *)

Section RowFacts.
Context {R : Type} (pk : R -> Z).

Lemma next_id_above rows r : In r rows -> pk r < next_id pk rows.
Proof.
  unfold next_id. induction rows as [|x rows IH]; cbn [In map fold_right];
    [contradiction|].
  intros [->|Hin]; [lia|]. specialize (IH Hin). lia.
Qed.

Lemma next_id_positive rows : 0 < next_id pk rows.
Proof.
  unfold next_id. induction rows as [|x rows IH]; cbn [map fold_right]; lia.
Qed.

Lemma next_id_fresh rows : ~ In (next_id pk rows) (map pk rows).
Proof.
  intros H. apply in_map_iff in H as (r & Hr & Hin).
  apply next_id_above in Hin. lia.
Qed.

Lemma query_get_found rows k r : query_get pk rows k = Some r -> In r rows /\ pk r = k.
Proof.
  unfold query_get. intros H. apply find_some in H as [Hin Hk]. split; [assumption | lia].
Qed.

Lemma map_update_row_found {K : Type} (key : R -> K) rows k f j :
  query_get pk rows k = Some j ->
  key (f j) = key j ->
  map key (update_row pk k f rows) = map key rows.
Proof.
  unfold query_get. induction rows as [|x rows IH]; simpl; [reflexivity|].
  destruct (pk x =? k); simpl.
  - intros [= ->] Hkey. now rewrite Hkey.
  - intros Hfind Hkey. now rewrite IH.
Qed.

Lemma Forall_update_row_found (Q : R -> Prop) rows k f j :
  query_get pk rows k = Some j ->
  Q (f j) ->
  Forall Q rows -> Forall Q (update_row pk k f rows).
Proof.
  unfold query_get. induction rows as [|x rows IH]; simpl; [constructor|].
  intros Hfind Hq Hall. inversion Hall; subst.
  destruct (pk x =? k); [injection Hfind as ->|]; constructor; auto.
Qed.

Lemma Forall_update_row (Q : R -> Prop) rows k f :
  (forall r, Q r -> Q (f r)) ->
  Forall Q rows -> Forall Q (update_row pk k f rows).
Proof.
  intros Hf. induction 1 as [|x rows Hx Hall IH]; simpl; [constructor|].
  destruct (pk x =? k); constructor; auto.
Qed.

Lemma Forall_filter (Q : R -> Prop) keep rows :
  Forall Q rows -> Forall Q (filter keep rows).
Proof.
  rewrite !Forall_forall. intros H r Hin. apply filter_In in Hin. now apply H.
Qed.

Lemma keys_valid_add rows r :
  pk r = next_id pk rows -> keys_valid pk rows -> keys_valid pk (rows ++ [r]).
Proof.
  intros Hid [Hnd Hpos]. split.
  - apply keys_snoc; [assumption|]. rewrite Hid. apply next_id_fresh.
  - apply Forall_app. split; [assumption|]. constructor; [|constructor].
    rewrite Hid. apply next_id_positive.
Qed.

Lemma keys_valid_update rows k f :
  (forall r, pk (f r) = pk r) ->
  keys_valid pk rows -> keys_valid pk (update_row pk k f rows).
Proof.
  intros Hf [Hnd Hpos]. split.
  - now rewrite map_update_row.
  - apply Forall_update_row; [|assumption]. intros r. now rewrite Hf.
Qed.

Lemma keys_valid_update_found rows k f j :
  query_get pk rows k = Some j ->
  pk (f j) = pk j ->
  keys_valid pk rows -> keys_valid pk (update_row pk k f rows).
Proof.
  intros Hget Hf [Hnd Hpos]. split.
  - now rewrite (map_update_row_found pk rows k f j).
  - apply (Forall_update_row_found _ rows k f j); auto.
    rewrite Hf. apply query_get_found in Hget as [Hin _].
    rewrite Forall_forall in Hpos. now apply Hpos.
Qed.

Lemma keys_valid_filter rows keep :
  keys_valid pk rows -> keys_valid pk (filter keep rows).
Proof.
  intros [Hnd Hpos]. split; [now apply keys_filter | now apply Forall_filter].
Qed.
End RowFacts.

Lemma with_password_hash_columns h t u :
  User.id (with_password_hash h t u) = User.id u
  /\ User.email (with_password_hash h t u) = User.email u
  /\ User.role (with_password_hash h t u) = User.role u.
Proof.
  unfold with_password_hash. destruct (String.eqb h (User.password_hash u)); auto.
Qed.

Lemma first_user_by_email_none db email :
  first_user_by_email db email = None -> ~ In email (map User.email (users db)).
Proof.
  unfold first_user_by_email. intros Hfind Hin.
  apply in_map_iff in Hin as (u & Hu & Hin).
  apply find_none with (x := u) in Hfind; [|assumption].
  rewrite Hu, String.eqb_refl in Hfind. discriminate.
Qed.

Lemma users_effect_emails db rows :
  users_effect db rows ->
  NoDup (map User.email (users db)) -> NoDup (map User.email rows).
Proof.
  intros [|u Hfresh _ _|k h t] Hnd; [assumption| |].
  - apply keys_snoc; [assumption|]. now apply first_user_by_email_none.
  - rewrite map_update_row; [assumption|]. intros x.
    apply with_password_hash_columns.
Qed.

(** An account stays, under its id, with its email and its role. *)
Lemma users_effect_persist db rows k u :
  users_effect db rows ->
  get_user db k = Some u ->
  exists u', query_get User.id rows k = Some u'
             /\ User.email u' = User.email u /\ User.role u' = User.role u.
Proof.
  unfold get_user. intros [|v _ _ _|k' h t] Hget.
  - exists u. auto.
  - exists u. split; [now apply query_get_app | auto].
  - destruct (Z.eq_dec k k') as [->|Hne].
    + exists (with_password_hash h t u). split.
      * apply query_get_update_row_same; [|assumption].
        intros x. apply with_password_hash_columns.
      * apply with_password_hash_columns.
    + exists u. split; [|auto].
      rewrite query_get_update_row_other; auto.
      intros x. apply with_password_hash_columns.
Qed.

Lemma get_application_row_In db k a :
  get_application_row db k = Some a -> In a (applications db).
Proof.
  intros H. now apply query_get_found in H.
Qed.

(** Where every applicant is a job seeker, no employer is an applicant. *)
Lemma undecided_no_employer_applicant db E k a :
  undecided db ->
  get_user db (User.id E) = Some E ->
  User.role E = UserRole.EMPLOYER ->
  get_application_row db k = Some a ->
  Application.applicant_id a <> User.id E.
Proof.
  intros Hund Huser Hrole Happ Hown. unfold undecided in Hund.
  rewrite Forall_forall in Hund.
  destruct (Hund a (get_application_row_In _ _ _ Happ)) as (_ & u & Hu & Hr).
  rewrite Hown, Huser in Hu. injection Hu as <-. rewrite Hrole in Hr. discriminate.
Qed.

Lemma effect_undecided db db' : effect db db' -> undecided db -> undecided db'.
Proof.
  intros (Husers & _ & Happs) Hund.
  set (ok := fun (d : database) (a : Application.t) =>
               (Application.status a = ApplicationStatus.PENDING
                \/ Application.status a = ApplicationStatus.WITHDRAWN)
               /\ exists u, get_user d (Application.applicant_id a) = Some u
                            /\ User.role u = UserRole.JOB_SEEKER).
  assert (Hmove : forall a, ok db a -> ok db' a).
  { intros a (Hs & u & Hu & Hr). split; [assumption|].
    destruct (users_effect_persist db (users db') _ u Husers Hu) as (u' & Hu' & _ & Hr').
    exists u'. split; [exact Hu' | congruence]. }
  change (Forall (ok db') (applications db')).
  change (Forall (ok db) (applications db)) in Hund.
  apply Forall_impl with (P := ok db); [exact Hmove|].
  destruct Happs as [|a u Hid Hfirst Hstatus Hu Hr|k t|k t s E a HE Hrole Ha Hown|keep].
  - assumption.
  - apply Forall_app. split; [assumption|]. constructor; [|constructor].
    split; [now left | now exists u].
  - apply Forall_update_row; [|assumption].
    intros r (_ & Hu). split; [now right | exact Hu].
  - exfalso.
    now apply (undecided_no_employer_applicant db E k a Hund HE Hrole Ha).
  - now apply Forall_filter.
Qed.

Lemma effect_primary_keys db db' : effect db db' -> primary_keys db -> primary_keys db'.
Proof.
  intros (Husers & Hjobs & Happs) (Ku & Kj & Ka). split; [|split].
  - destruct Husers as [|u _ Hid _|k h t]; [exact Ku| |].
    + now apply keys_valid_add.
    + apply keys_valid_update; [|assumption].
      intros x. apply with_password_hash_columns.
  - destruct Hjobs as [|j Hid _ _|k j j' Hget Hid _ _ _ _|keep]; [exact Kj| | |].
    + now apply keys_valid_add.
    + now apply keys_valid_update_found with (j := j).
    + now apply keys_valid_filter.
  - destruct Happs as [|a u Hid _ _ _ _|k t|k t s E a _ _ _ _|keep]; [exact Ka| | | |].
    + now apply keys_valid_add.
    + now apply keys_valid_update.
    + now apply keys_valid_update.
    + now apply keys_valid_filter.
Qed.

Lemma effect_emails db db' : effect db db' -> emails_unique db -> emails_unique db'.
Proof.
  intros (Husers & _) Hnd. now apply (users_effect_emails db).
Qed.

Lemma effect_persist db db' k u :
  effect db db' ->
  get_user db k = Some u ->
  exists u', get_user db' k = Some u'
             /\ User.email u' = User.email u /\ User.role u' = User.role u.
Proof.
  intros (Husers & _) Hget. now apply (users_effect_persist db).
Qed.

Lemma len_empty_title s : 5 <= Py.len s -> s <> "".
Proof.
  intros H ->. unfold Py.len in H. simpl in H. lia.
Qed.

Lemma effect_job_texts db db' : effect db db' -> job_texts_present db -> job_texts_present db'.
Proof.
  unfold job_texts_present. intros (_ & Hjobs & _) Hall.
  destruct Hjobs as [|j _ Hlen Hdesc|k j j' Hget _ _ _ Ht Hd|keep].
  - assumption.
  - apply Forall_app. split; [assumption|]. constructor; [|constructor].
    split; [now apply len_empty_title | assumption].
  - apply (Forall_update_row_found Job.id _ (jobs db) k (fun _ => j') j);
      [exact Hget | | assumption].
    apply query_get_found in Hget as [Hin _].
    rewrite Forall_forall in Hall. destruct (Hall j Hin) as [Htj Hdj].
    split; [destruct Ht as [->|]; assumption | destruct Hd as [->|]; assumption].
  - now apply Forall_filter.
Qed.

Lemma effect_at_most_one db db' : effect db db' -> at_most_one db -> at_most_one db'.
Proof.
  unfold at_most_one. intros (_ & _ & Happs) Hnd.
  destruct Happs as [|a u _ Hfirst _ _ _|k t|k t s E a _ _ _ _|keep].
  - assumption.
  - apply keys_snoc; [assumption|]. now apply first_application_none.
  - now rewrite map_update_row by reflexivity.
  - now rewrite map_update_row by reflexivity.
  - now apply keys_filter.
Qed.

(** Where every applicant is a job seeker, the decide route refuses. *)
Lemma undecided_decide_refused db application_id req :
  undecided db ->
  refused db (Route.update_application_status application_id req db).
Proof.
  intros Hund. unfold Route.update_application_status.
  destruct (employer_required_cases
              (fun _ => resource_owner_or_employer_required ApplicationModel
                          "application_id"
                          (with_kwarg "application_id" update_application_status))
              [("application_id", application_id)] req db)
    as [(E & HE & ->) | (_ & Href)]; [|exact Href].
  pose proof HE as (Hjwt & Huser & Hrole).
  destruct (Z.eq_dec application_id 0) as [->|Hnz].
  { unfold resource_owner_or_employer_required, jwt_required.
    rewrite Hjwt, Huser, kwarg_single. apply refused_refusal. simpl. lia. }
  destruct (get_application_row db application_id) as [application|] eqn:Happ.
  - rewrite (application_access_is_applicant_only
               _ [("application_id", application_id)] req db E application
               application_id Hjwt Huser (kwarg_single _ _) Hnz Happ).
    destruct (Z.eqb_spec (Application.applicant_id application) (User.id E))
      as [Hown|Hother]; [|apply refused_refusal; simpl; lia].
    exfalso.
    now apply (undecided_no_employer_applicant db E application_id application).
  - unfold resource_owner_or_employer_required, jwt_required.
    rewrite Hjwt, Huser, kwarg_single. simpl get. rewrite Happ.
    destruct application_id as [|k|k]; apply refused_refusal; simpl; lia.
Qed.

Lemma sample_rows_only_removed : only_removes_rows Sample.session_delete_job.
Proof.
  intros db job db'. unfold Sample.session_delete_job.
  destruct (existsb _ _); [discriminate|]. intros [= <-]. simpl.
  split; [reflexivity|]. split.
  - eexists. unfold delete_row. reflexivity.
  - exists (fun _ => true). induction (applications db) as [|a l IH]; simpl; congruence.
Qed.

(** ** Invariants of the whole API *)

Section ApiInvariants.
Variable session_delete_job : database -> Job.t -> database + string.
Variable generate_password_hash : string -> string.
Variable check_password_hash : string -> string -> bool.
Variables create_access_token create_refresh_token : Z -> string.
Hypothesis rows_only_removed : only_removes_rows session_delete_job.

Lemma serve_all_invariant (Inv : database -> Prop) :
  (forall db db', effect db db' -> Inv db -> Inv db') ->
  forall cs db,
    Inv db ->
    Inv (serve_all session_delete_job generate_password_hash check_password_hash
                   create_access_token create_refresh_token cs db).
Proof.
  intros Hstep cs. unfold serve_all.
  induction cs as [|c cs IH]; simpl; intros db Hinv; [exact Hinv|].
  apply IH. apply (Hstep db); [|exact Hinv]. now apply serve_effect.
Qed.

(** X4.  No application is ever accepted or rejected.  From a store in
    which every application is pending or withdrawn and belongs to a job
    seeker (so from any store without applications), after any calls
    every application is still pending or withdrawn, and the decide route
    refuses every request: the only caller it would let through is an employer
    who is the applicant, and only job seekers apply. *)
Theorem no_application_is_ever_decided (cs : list call) (db : database) :
  undecided db ->
  let db' := serve_all session_delete_job generate_password_hash check_password_hash
                       create_access_token create_refresh_token cs db in
  Forall (fun a => Application.status a = ApplicationStatus.PENDING
                   \/ Application.status a = ApplicationStatus.WITHDRAWN)
         (applications db')
  /\ (forall application_id req,
         refused db' (Route.update_application_status application_id req db')).
Proof.
  intros Hund db'.
  assert (Hund' : undecided db')
    by (apply (serve_all_invariant undecided); [exact effect_undecided | exact Hund]).
  split.
  - unfold undecided in Hund'. apply Forall_impl with (2 := Hund'). now intros a [H _].
  - intros application_id req. now apply undecided_decide_refused.
Qed.

(** X5.  Accounts keep distinct emails: from a store where no two users
    share an email, no sequence of calls produces two that do. *)
Theorem emails_stay_unique (cs : list call) (db : database) :
  emails_unique db ->
  emails_unique (serve_all session_delete_job generate_password_hash check_password_hash
                           create_access_token create_refresh_token cs db).
Proof.
  intros Hnd. apply (serve_all_invariant emails_unique); [|exact Hnd].
  exact effect_emails.
Qed.

(** X6.  An account is never removed and never changes its email or its
    role: whatever calls are served, the user found under an id before is
    found under it after, with the same email and role. *)
Theorem accounts_persist (cs : list call) (db : database) (k : Z) (u : User.t) :
  get_user db k = Some u ->
  exists u',
    get_user (serve_all session_delete_job generate_password_hash check_password_hash
                        create_access_token create_refresh_token cs db) k = Some u'
    /\ User.email u' = User.email u
    /\ User.role u' = User.role u.
Proof.
  intros Hget.
  apply (serve_all_invariant
           (fun d => exists u', get_user d k = Some u'
                                /\ User.email u' = User.email u
                                /\ User.role u' = User.role u)).
  - intros d d' Heff (v & Hv & He & Hr).
    destruct (effect_persist d d' k v Heff Hv) as (v' & Hv' & He' & Hr').
    exists v'. repeat split; congruence.
  - exists u. auto.
Qed.

(** X7.  Primary keys stay positive and unique in the three tables: a new
    row takes an id above every id in use, an update keeps the id of the
    row, and nothing else writes ids. *)
Theorem primary_keys_stay_unique (cs : list call) (db : database) :
  primary_keys db ->
  primary_keys (serve_all session_delete_job generate_password_hash check_password_hash
                          create_access_token create_refresh_token cs db).
Proof.
  intros H. apply (serve_all_invariant primary_keys); [|exact H].
  exact effect_primary_keys.
Qed.

(** X8.  No job loses its title or its description: from a store where
    every job has both, every job has both after any calls. *)
Theorem job_texts_stay_present (cs : list call) (db : database) :
  job_texts_present db ->
  job_texts_present (serve_all session_delete_job generate_password_hash
                               check_password_hash create_access_token
                               create_refresh_token cs db).
Proof.
  intros H. apply (serve_all_invariant job_texts_present); [|exact H].
  exact effect_job_texts.
Qed.

(** X9.  At most one application per job and applicant also holds over
    the calls that [operation] leaves out: registration, the change of a
    password and the deletion of a job. *)
Theorem one_application_per_pair_over_the_api (cs : list call) (db : database) :
  at_most_one db ->
  at_most_one (serve_all session_delete_job generate_password_hash check_password_hash
                         create_access_token create_refresh_token cs db).
Proof.
  intros H. apply (serve_all_invariant at_most_one); [|exact H].
  exact effect_at_most_one.
Qed.
End ApiInvariants.

Lemma no_application_is_ever_decided_witness :
  Forall (fun a => Application.status a = ApplicationStatus.PENDING
                   \/ Application.status a = ApplicationStatus.WITHDRAWN)
         (applications (Sample.serve_all Sample.session Sample.db_open)).
Proof.
  refine (proj1 (no_application_is_ever_decided
                   Sample.session_delete_job Sample.generate_password_hash
                   Scenario.check_password_hash Scenario.create_token
                   Scenario.create_token sample_rows_only_removed
                   Sample.session Sample.db_open _)).
  constructor.
Defined.

Lemma emails_stay_unique_witness :
  emails_unique (Sample.serve_all Sample.session Sample.db_open).
Proof.
  apply (emails_stay_unique
           Sample.session_delete_job Sample.generate_password_hash
           Scenario.check_password_hash Scenario.create_token
           Scenario.create_token sample_rows_only_removed).
  unfold emails_unique. simpl.
  constructor; [simpl; intros [H|[]]; discriminate H|].
  constructor; [intros [] | constructor].
Defined.

Lemma accounts_persist_witness :
  exists u', get_user (Sample.serve_all Sample.session Sample.db_open) 2 = Some u'
             /\ User.email u' = "s@x.com" /\ User.role u' = UserRole.JOB_SEEKER.
Proof.
  exact (accounts_persist
           Sample.session_delete_job Sample.generate_password_hash
           Scenario.check_password_hash Scenario.create_token
           Scenario.create_token sample_rows_only_removed
           Sample.session Sample.db_open 2 Scenario.seeker eq_refl).
Defined.

Lemma sample_primary_keys : primary_keys Sample.db_open.
Proof.
  unfold primary_keys, keys_valid. simpl.
  repeat split; repeat constructor; simpl; try lia; intuition discriminate.
Qed.

Lemma primary_keys_stay_unique_witness :
  primary_keys (Sample.serve_all Sample.session Sample.db_open).
Proof.
  exact (primary_keys_stay_unique
           Sample.session_delete_job Sample.generate_password_hash
           Scenario.check_password_hash Scenario.create_token
           Scenario.create_token sample_rows_only_removed
           Sample.session Sample.db_open sample_primary_keys).
Defined.

Lemma job_texts_stay_present_witness :
  job_texts_present (Sample.serve_all Sample.session Sample.db_open).
Proof.
  apply (job_texts_stay_present
           Sample.session_delete_job Sample.generate_password_hash
           Scenario.check_password_hash Scenario.create_token
           Scenario.create_token sample_rows_only_removed).
  unfold job_texts_present. simpl. constructor; [|constructor].
  split; discriminate.
Defined.

Lemma one_application_per_pair_over_the_api_witness :
  at_most_one (Sample.serve_all Sample.session Sample.db_open).
Proof.
  apply (one_application_per_pair_over_the_api
           Sample.session_delete_job Sample.generate_password_hash
           Scenario.check_password_hash Scenario.create_token
           Scenario.create_token sample_rows_only_removed).
  unfold at_most_one. simpl. constructor.
Defined.

(** ** Jobs: who may change them, posting, deactivating *)

Lemma is_employer_same_users {P Q : Type} db db' (req : request P) (req' : request Q) E :
  users db' = users db -> jwt req' = jwt req ->
  is_employer db req E -> is_employer db' req' E.
Proof.
  intros Hu Hj (Hjwt & Huser & Hrole). unfold is_employer, get_user in *.
  rewrite Hu, Hj. auto.
Qed.

(** X10.  The three routes on a job (update, delete, list its
    applications) are reached by an employer for the jobs that employer
    owns and for no other: on the job of somebody else each of them
    answers 403 "Access denied" and leaves the store as it was. *)
Theorem job_routes_serve_only_the_owner
    (session_delete_job : database -> Job.t -> database + string)
    (db : database) (job_id : Z) (E : User.t) (job : Job.t)
    (update : request (option job_data)) (delete : request (option string))
    (list_applications : request application_list_args) :
  is_employer db update E ->
  jwt delete = jwt update ->
  jwt list_applications = jwt update ->
  job_id <> 0 ->
  get_job_row db job_id = Some job ->
  (Job.employer_id job = User.id E ->
   Route.update_job job_id update db = update_job job_id (User.id E) update db
   /\ Endpoint.delete_job session_delete_job job_id delete db
      = delete_job session_delete_job job_id (User.id E) delete db
   /\ Endpoint.get_job_applications job_id list_applications db
      = get_job_applications job_id (User.id E) list_applications db)
  /\ (Job.employer_id job <> User.id E ->
      Route.update_job job_id update db = (access_denied, db)
      /\ Endpoint.delete_job session_delete_job job_id delete db = (access_denied, db)
      /\ Endpoint.get_job_applications job_id list_applications db = (access_denied, db)).
Proof.
  intros HE Hd Hl Hnz Hjob.
  assert (HEd : is_employer db delete E)
    by now apply (is_employer_same_users db db update delete).
  assert (HEl : is_employer db list_applications E)
    by now apply (is_employer_same_users db db update list_applications).
  assert (Hstack : forall (P : Type) (req : request P) fn,
             is_employer db req E ->
             employer_required
               (fun _ => resource_owner_or_employer_required JobModel "job_id"
                           (with_kwarg "job_id" fn)) [("job_id", job_id)] req db
             = if Job.employer_id job =? User.id E
               then fn job_id (User.id E) req db else (access_denied, db)).
  { intros P req fn Hreq. pose proof Hreq as (Hjwt & Huser & Hrole).
    rewrite (employer_required_pass _ _ _ _ E Hjwt Huser Hrole).
    rewrite (job_access_is_owner_only _ req db E job_id Hreq).
    destruct (Z.eqb_spec job_id 0); [contradiction|]. rewrite Hjob.
    unfold with_kwarg. now rewrite kwarg_single. }
  unfold Route.update_job, Endpoint.delete_job, Endpoint.get_job_applications.
  rewrite !Hstack by assumption.
  destruct (Z.eqb_spec (Job.employer_id job) (User.id E)); split; intros H;
    try contradiction; auto.
Qed.

(** The rival employer cannot touch the job of the scenario. *)
Lemma job_routes_serve_only_the_owner_witness :
  Route.update_job 1 (Sample.as_rival (Scenario.rename "Taken over")) Sample.db
  = (access_denied, Sample.db)
  /\ Endpoint.delete_job Sample.session_delete_job 1 (Sample.as_rival (Some "true"))
                         Sample.db
     = (access_denied, Sample.db).
Proof.
  destruct (job_routes_serve_only_the_owner Sample.session_delete_job Sample.db 1
              Sample.rival Scenario.job
              (Sample.as_rival (Scenario.rename "Taken over"))
              (Sample.as_rival (Some "true")) (Sample.as_rival Sample.no_args)
              (conj eq_refl (conj eq_refl eq_refl)) eq_refl eq_refl
              ltac:(discriminate) eq_refl) as [_ Hother].
  destruct (Hother ltac:(discriminate)) as (Hu & Hd & _).
  split; [exact Hu | exact Hd].
Defined.

Lemma query_get_fresh {R : Type} (pk : R -> Z) rows :
  query_get pk rows (next_id pk rows) = None.
Proof.
  unfold query_get.
  destruct (find _ rows) as [r|] eqn:Hfind; [|reflexivity].
  apply find_some in Hfind as [Hin Hk].
  apply (next_id_above pk) in Hin. lia.
Qed.

Lemma query_get_added {R : Type} (pk : R -> Z) rows r :
  pk r = next_id pk rows -> query_get pk (rows ++ [r]) (pk r) = Some r.
Proof.
  intros Hid. unfold query_get. rewrite find_app_none.
  - simpl. now rewrite Z.eqb_refl.
  - rewrite Hid. apply query_get_fresh.
Qed.

(** X11.  An employer who posts a job with a title of five characters or
    more (code points, after trimming) and a description is answered 201;
    the store gains exactly one job, owned by the caller, active, with
    the trimmed title, the next free id and the request's time, and
    [get_job] on that id then returns it.  The job type and the
    experience level are stored lower-cased, and are taken to be ASCII
    here.  With a shorter title or no description the answer is 400 and
    nothing is stored. *)
Theorem create_job_validates_and_stores
    (db : database) (req : request (option job_data)) (data : job_data) (E : User.t) :
  is_employer db req E ->
  payload req = Some data ->
  let title := Py.strip (Py.get (data_title data) "") in
  let description := Py.strip (Py.get (data_description data) "") in
  let job := new_job db req data (User.id E) in
  let db' := Database (users db) (jobs db ++ [job]) (applications db) in
  (5 <= Py.len title -> description <> "" ->
   Py.isascii (Py.get (data_job_type data) "") = true ->
   Py.isascii (Py.get (data_experience_level data) "") = true ->
   Route.create_job req db
   = (Response (JObj [("message", JStr "Job posted successfully");
                      ("job", Job_to_dict db' job)]) 201, db')
   /\ forall (req' : request unit) identity,
        jwt req' = Valid identity ->
        Route.get_job (Job.id job) req' db'
        = (Response (JObj [("job", Job_to_dict db' job)]) 200, db'))
  /\ (Py.len title < 5 \/ description = "" ->
      code (fst (Route.create_job req db)) = 400 /\ snd (Route.create_job req db) = db).
Proof.
  intros HE Hpayload title description job db'.
  pose proof HE as (Hjwt & Huser & Hrole).
  unfold Route.create_job.
  rewrite (employer_required_pass _ _ _ _ E Hjwt Huser Hrole).
  unfold create_job. rewrite Hpayload, Huser. fold title description.
  split.
  - intros Hlen Hdesc _ _.
    destruct (String.eqb_spec title "") as [Hempty|_].
    { rewrite Hempty in Hlen. unfold Py.len in Hlen. simpl in Hlen. lia. }
    destruct (Z.ltb_spec (Py.len title) 5); [lia|].
    destruct (String.eqb_spec description ""); [contradiction|].
    simpl app. cbv iota. split; [reflexivity|].
    intros req' identity Hjwt'. unfold Route.get_job, jwt_required. rewrite Hjwt'.
    unfold with_kwarg. rewrite kwarg_single. unfold get_job, get_job_row.
    change (jobs db') with (jobs db ++ [job])%list.
    now rewrite (query_get_added Job.id (jobs db) job eq_refl).
  - intros Hbad.
    destruct (String.eqb_spec title "") as [Hempty|Hne].
    + destruct (String.eqb_spec description ""); split; reflexivity.
    + destruct (Z.ltb_spec (Py.len title) 5) as [Hshort|Hlong].
      * destruct (String.eqb_spec description ""); split; reflexivity.
      * destruct (String.eqb_spec description "") as [Hd|Hd];
          [split; reflexivity | destruct Hbad; [lia | contradiction]].
Qed.

(** The employer of the scenario posts a second job and reads it back;
    a title of three letters, six bytes, is refused. *)
Lemma create_job_validates_and_stores_witness :
  code (fst (Route.create_job
               (Scenario.as_employer (Scenario.post_job " Data Engineer " "Pipelines"))
               Scenario.db)) = 201
  /\ code (fst (Route.get_job 2 (Scenario.as_seeker tt)
                  (snd (Route.create_job
                          (Scenario.as_employer
                             (Scenario.post_job " Data Engineer " "Pipelines"))
                          Scenario.db)))) = 200
  /\ code (fst (Route.create_job
                  (Scenario.as_employer
                     (Scenario.post_job (Sample.e_acute ++ Sample.e_acute ++ Sample.e_acute)
                                        "Pipelines"))
                  Scenario.db)) = 400.
Proof.
  destruct (create_job_validates_and_stores Scenario.db
              (Scenario.as_employer
                 (Scenario.post_job (Sample.e_acute ++ Sample.e_acute ++ Sample.e_acute)
                                    "Pipelines"))
              (JobData (Some (Sample.e_acute ++ Sample.e_acute ++ Sample.e_acute))
                       (Some "Pipelines") None None None None None None None)
              Scenario.employer (conj eq_refl (conj eq_refl eq_refl)) eq_refl)
    as [_ Hshort].
  destruct (create_job_validates_and_stores Scenario.db
              (Scenario.as_employer (Scenario.post_job " Data Engineer " "Pipelines"))
              (JobData (Some " Data Engineer ") (Some "Pipelines") None None None None
                       None None None)
              Scenario.employer (conj eq_refl (conj eq_refl eq_refl)) eq_refl)
    as [Hok _].
  destruct (Hok ltac:(vm_compute; discriminate) ltac:(discriminate) eq_refl eq_refl)
    as [Hpost Hget].
  split; [|split].
  - exact (f_equal (fun r => code (fst r)) Hpost).
  - exact (f_equal (fun r => code (fst r)) (Hget (Scenario.as_seeker tt) 2 eq_refl)).
  - apply Hshort. left. vm_compute. reflexivity.
Defined.

Section FoundRow.
Context {R : Type} (pk : R -> Z).

Lemma query_get_update_row_found rows k f j :
  query_get pk rows k = Some j ->
  pk (f j) = pk j ->
  query_get pk (update_row pk k f rows) k = Some (f j).
Proof.
  unfold query_get. induction rows as [|x rows IH]; simpl; [discriminate|].
  destruct (pk x =? k) eqn:E; simpl.
  - intros [= ->] Hkey. now rewrite Hkey, E.
  - intros Hfind Hkey. rewrite E. now apply IH.
Qed.

Lemma query_get_update_row_elsewhere rows k k' f j :
  query_get pk rows k = Some j ->
  pk (f j) = pk j ->
  k' <> k ->
  query_get pk (update_row pk k f rows) k' = query_get pk rows k'.
Proof.
  unfold query_get. induction rows as [|x rows IH]; simpl; [discriminate|].
  destruct (pk x =? k) eqn:E; simpl.
  - intros [= ->] Hkey Hne. rewrite Hkey.
    assert ((pk j =? k') = false) as -> by lia. reflexivity.
  - intros Hfind Hkey Hne. destruct (pk x =? k'); auto.
Qed.

Lemma In_update_row_found rows k f j :
  query_get pk rows k = Some j -> In (f j) (update_row pk k f rows).
Proof.
  unfold query_get. induction rows as [|x rows IH]; simpl; [discriminate|].
  destruct (pk x =? k); simpl.
  - intros [= ->]. now left.
  - intros Hfind. right. now apply IH.
Qed.
End FoundRow.

(** X12.  The owner's delete without [hard=true] keeps the row and
    clears [is_active]; nothing else in the store changes, whatever the
    store would do on a hard delete.  From then on [get_job] answers 404
    for it, the public listing leaves it out, an apply to it is answered
    400 "Job not available", and the owner still finds it under my-jobs
    with [include_inactive=true]. *)
Theorem soft_delete_hides_the_job
    (session_delete_job : database -> Job.t -> database + string)
    (ilike : string -> string -> bool)
    (db : database) (req : request (option string)) (job_id : Z)
    (E : User.t) (job : Job.t) :
  is_employer db req E ->
  job_id <> 0 ->
  get_job_row db job_id = Some job ->
  Job.employer_id job = User.id E ->
  Py.lower (Py.get (payload req) "false") <> "true" ->
  let job' := deactivate (now req) job in
  let db' := with_job db job_id job' in
  Endpoint.delete_job session_delete_job job_id req db
  = (Response (JObj [("message", JStr "Job deactivated (not deleted)");
                     ("job_id", JInt job_id)]) 200, db')
  /\ get_job_row db' job_id = Some job'
  /\ Job.is_active job' = false
  /\ (forall (req' : request unit) identity,
         jwt req' = Valid identity ->
         Route.get_job job_id req' db' = (job_deactivated, db'))
  /\ (forall args, ~ In job' (get_all_jobs_query ilike db' args))
  /\ (forall (apply : request (option application_data)) A data,
         is_job_seeker db' apply A ->
         payload apply = Some data ->
         data_job_id data = Some job_id ->
         Route.create_application apply db' = (job_not_available, db'))
  /\ (forall args, mine_include_inactive args = Some "true" ->
                   In job' (get_my_jobs_query db' (User.id E) args)).
Proof.
  intros HE Hnz Hjob Hown Hsoft job' db'.
  destruct (deactivate_columns (now req) job) as (Hid & Hemp & _ & _ & _ & Hinactive).
  fold job' in Hid, Hemp, Hinactive.
  assert (Hjob' : get_job_row db' job_id = Some job').
  { unfold get_job_row, db', with_job. simpl.
    now apply (query_get_update_row_found Job.id (jobs db) job_id (fun _ => job') job). }
  pose proof (query_get_found Job.id _ _ _ Hjob) as [_ Hjid].
  split; [|split; [exact Hjob'|split; [exact Hinactive|split; [|split; [|split]]]]].
  - pose proof HE as (Hjwt & Huser & Hrole). unfold Endpoint.delete_job.
    rewrite (employer_required_pass _ _ _ _ E Hjwt Huser Hrole).
    rewrite (job_access_is_owner_only _ req db E job_id HE).
    destruct (Z.eqb_spec job_id 0); [contradiction|]. rewrite Hjob, Hown, Z.eqb_refl.
    unfold with_kwarg. rewrite kwarg_single. unfold delete_job. rewrite Hjob.
    destruct (String.eqb_spec (Py.lower (Py.get (payload req) "false")) "true");
      [contradiction | reflexivity].
  - intros req' identity Hjwt. unfold Route.get_job, jwt_required. rewrite Hjwt.
    unfold with_kwarg. rewrite kwarg_single. unfold get_job.
    now rewrite Hjob', Hinactive.
  - intros args Hin. apply get_all_jobs_query_active in Hin. congruence.
  - intros apply A data HA Hpayload Hdata.
    rewrite (create_application_on_job apply db' data job' A); auto.
    + now rewrite Hinactive.
    + congruence.
    + congruence.
    + congruence.
  - intros args Hargs. unfold get_my_jobs_query. rewrite Hargs.
    apply In_order_by_desc. simpl. apply filter_In. split.
    + unfold db', with_job. simpl.
      now apply (In_update_row_found Job.id (jobs db) job_id (fun _ => job') job).
    + rewrite Hemp, Hown. apply Z.eqb_refl.
Qed.

(** The employer of the scenario deactivates the job. *)
Lemma soft_delete_hides_the_job_witness :
  code (fst (Endpoint.delete_job Sample.session_delete_job 1
               (Scenario.as_employer None) Scenario.db)) = 200
  /\ Route.get_job 1 (Scenario.as_seeker tt)
                   (with_job Scenario.db 1 (deactivate 200 Scenario.job))
     = (job_deactivated, with_job Scenario.db 1 (deactivate 200 Scenario.job)).
Proof.
  destruct (soft_delete_hides_the_job Sample.session_delete_job Scenario.any_ilike
              Scenario.db (Scenario.as_employer None) 1 Scenario.employer Scenario.job
              (conj eq_refl (conj eq_refl eq_refl)) ltac:(discriminate) eq_refl eq_refl
              ltac:(discriminate)) as (Hdel & _ & _ & Hget & _).
  split.
  - exact (f_equal (fun r => code (fst r)) Hdel).
  - exact (Hget (Scenario.as_seeker tt) 2 eq_refl).
Defined.

Lemma update_job_table job_id user_id req db :
  snd (update_job job_id user_id req db) = db
  \/ exists job job',
       get_job_row db job_id = Some job
       /\ snd (update_job job_id user_id req db) = with_job db job_id job'
       /\ Job.id job' = Job.id job
       /\ Job.employer_id job' = Job.employer_id job
       /\ Job.created_at job' = Job.created_at job.
Proof.
  unfold update_job.
  destruct (get_job_row db job_id) as [job|] eqn:Hjob; [|now left].
  destruct (payload req) as [data|]; [|now left].
  repeat match goal with
         | |- context [if ?b then (validation_failed _, _) else _] =>
             destruct b; [now left|]
         end.
  right. eexists job, _. split; [reflexivity|]. split; [reflexivity|].
  destruct (same_columns _ _); auto.
Qed.

(** X13.  [update_job] changes no id, no owner and no creation time, adds
    and removes no job, touches no other job and no other table, whoever
    calls it with whatever body: a job cannot be handed to another
    employer. *)
Theorem update_job_keeps_identity_and_owner
    (db : database) (req : request (option job_data)) (job_id : Z) :
  let db' := snd (Route.update_job job_id req db) in
  users db' = users db
  /\ applications db' = applications db
  /\ map Job.id (jobs db') = map Job.id (jobs db)
  /\ map Job.employer_id (jobs db') = map Job.employer_id (jobs db)
  /\ map Job.created_at (jobs db') = map Job.created_at (jobs db)
  /\ (forall k, k <> job_id -> get_job_row db' k = get_job_row db k).
Proof.
  cbv zeta.
  pose (Q := fun res : result =>
               users (snd res) = users db
               /\ applications (snd res) = applications db
               /\ map Job.id (jobs (snd res)) = map Job.id (jobs db)
               /\ map Job.employer_id (jobs (snd res)) = map Job.employer_id (jobs db)
               /\ map Job.created_at (jobs (snd res)) = map Job.created_at (jobs db)
               /\ (forall k, k <> job_id ->
                             get_job_row (snd res) k = get_job_row db k)).
  assert (Hrefusal : forall r, 400 <= code r -> Q (r, db))
    by (intros; unfold Q; simpl; auto 10).
  change (Q (Route.update_job job_id req db)). unfold Route.update_job.
  apply (employer_required_lift Q); [exact Hrefusal|]. intros _.
  apply (resource_owner_or_employer_required_lift Q); [exact Hrefusal|].
  intros user_id. unfold with_kwarg. rewrite kwarg_single.
  destruct (update_job_table job_id user_id req db)
    as [Hsame | (job & job' & Hjob & Hdb & Hid & Hemp & Hcreated)]; unfold Q.
  - rewrite Hsame. auto 10.
  - rewrite Hdb. unfold with_job, get_job_row in *. simpl.
    repeat split;
      try (now apply (map_update_row_found Job.id _ (jobs db) job_id (fun _ => job') job)).
    intros k Hne.
    now apply (query_get_update_row_elsewhere Job.id (jobs db) job_id k
                 (fun _ => job') job).
Qed.

Lemma update_job_keeps_identity_and_owner_witness :
  map Job.employer_id
      (jobs (snd (Route.update_job 1 (Scenario.as_employer (Scenario.rename "Platform"))
                                   Sample.db))) = [1].
Proof.
  exact (proj1 (proj2 (proj2 (proj2
           (update_job_keeps_identity_and_owner Sample.db
              (Scenario.as_employer (Scenario.rename "Platform")) 1))))).
Defined.

Lemma update_row_twice {R : Type} (pk : R -> Z) rows k (a b j : R) :
  query_get pk rows k = Some j ->
  pk a = pk j ->
  update_row pk k (fun _ => b) (update_row pk k (fun _ => a) rows)
  = update_row pk k (fun _ => b) rows.
Proof.
  unfold query_get. induction rows as [|x rows IH]; simpl; [reflexivity|].
  destruct (pk x =? k) eqn:E; simpl.
  - intros [= ->] Hkey. now rewrite Hkey, E.
  - intros Hfind Hkey. rewrite E. now rewrite IH.
Qed.

Lemma soft_delete_by_owner session_delete_job db req job_id E job :
  is_employer db req E ->
  job_id <> 0 ->
  get_job_row db job_id = Some job ->
  Job.employer_id job = User.id E ->
  Py.lower (Py.get (payload req) "false") <> "true" ->
  snd (Endpoint.delete_job session_delete_job job_id req db)
  = with_job db job_id (deactivate (now req) job).
Proof.
  intros HE Hnz Hjob Hown Hsoft.
  pose proof HE as (Hjwt & Huser & Hrole). unfold Endpoint.delete_job.
  rewrite (employer_required_pass _ _ _ _ E Hjwt Huser Hrole).
  rewrite (job_access_is_owner_only _ req db E job_id HE).
  destruct (Z.eqb_spec job_id 0); [contradiction|]. rewrite Hjob, Hown, Z.eqb_refl.
  unfold with_kwarg. rewrite kwarg_single. unfold delete_job. rewrite Hjob.
  destruct (String.eqb_spec (Py.lower (Py.get (payload req) "false")) "true");
    [contradiction | reflexivity].
Qed.

Lemma activate_inactive_job db req job_id E job :
  is_employer db req E ->
  job_id <> 0 ->
  get_job_row db job_id = Some job ->
  Job.employer_id job = User.id E ->
  Job.is_active job = false ->
  payload req = Some (JobData None None None None None None None None (Some true)) ->
  Route.update_job job_id req db
  = (Response (JObj [("message", JStr "Job updated successfully");
                     ("job", Job_to_dict (with_job db job_id (reactivated (now req) job))
                                         (reactivated (now req) job))]) 200,
     with_job db job_id (reactivated (now req) job)).
Proof.
  intros HE Hnz Hjob Hown Hinactive Hpayload.
  pose proof HE as (Hjwt & Huser & Hrole). unfold Route.update_job.
  rewrite (employer_required_pass _ _ _ _ E Hjwt Huser Hrole).
  rewrite (job_access_is_owner_only _ req db E job_id HE).
  destruct (Z.eqb_spec job_id 0); [contradiction|]. rewrite Hjob, Hown, Z.eqb_refl.
  unfold with_kwarg. rewrite kwarg_single. unfold update_job.
  rewrite Hjob, Hpayload. cbn [data_title data_description data_requirements
    data_salary_range data_location data_job_type data_experience_level
    data_is_remote data_is_active assign].
  unfold same_columns. cbn [Job.is_active]. rewrite Hinactive.
  cbn [Bool.eqb]. rewrite andb_false_r. reflexivity.
Qed.

(** X14.  Deactivation is undone by the owner's update with
    [is_active: true]: after the soft delete and that update the job row
    has every column it had, apart from [updated_at] (and [is_active],
    now true), and [get_job] answers 200 for it again. *)
Theorem reactivation_restores_the_job
    (session_delete_job : database -> Job.t -> database + string)
    (db : database) (delete : request (option string))
    (update : request (option job_data)) (job_id : Z) (E : User.t) (job : Job.t) :
  is_employer db delete E ->
  jwt update = jwt delete ->
  job_id <> 0 ->
  get_job_row db job_id = Some job ->
  Job.employer_id job = User.id E ->
  Py.lower (Py.get (payload delete) "false") <> "true" ->
  payload update = Some (JobData None None None None None None None None (Some true)) ->
  let db1 := snd (Endpoint.delete_job session_delete_job job_id delete db) in
  let db2 := snd (Route.update_job job_id update db1) in
  db2 = with_job db job_id (reactivated (now update) job)
  /\ get_job_row db2 job_id = Some (reactivated (now update) job)
  /\ (forall (req' : request unit) identity,
         jwt req' = Valid identity ->
         code (fst (Route.get_job job_id req' db2)) = 200).
Proof.
  intros HE Hjwt Hnz Hjob Hown Hsoft Hpayload db1 db2.
  assert (Hdb1 : db1 = with_job db job_id (deactivate (now delete) job))
    by now apply (soft_delete_by_owner session_delete_job db delete job_id E job).
  destruct (deactivate_columns (now delete) job) as (Hid & Hemp & _ & _ & _ & Hinactive).
  set (job' := deactivate (now delete) job) in *.
  assert (Hjob' : get_job_row db1 job_id = Some job').
  { rewrite Hdb1. unfold get_job_row, with_job. simpl.
    now apply (query_get_update_row_found Job.id (jobs db) job_id (fun _ => job') job). }
  assert (HE1 : is_employer db1 update E).
  { apply (is_employer_same_users db db1 delete update); auto. now rewrite Hdb1. }
  assert (Hre : reactivated (now update) job' = reactivated (now update) job).
  { unfold job', deactivate. destruct (Job.is_active job); reflexivity. }
  assert (Hdb2 : db2 = with_job db job_id (reactivated (now update) job)).
  { unfold db2.
    rewrite (activate_inactive_job db1 update job_id E job' HE1 Hnz Hjob'
               ltac:(congruence) Hinactive Hpayload).
    simpl snd. rewrite Hre, Hdb1. unfold with_job. simpl. f_equal.
    now apply (update_row_twice Job.id (jobs db) job_id job' _ job). }
  assert (Hjob2 : get_job_row db2 job_id = Some (reactivated (now update) job)).
  { rewrite Hdb2. unfold get_job_row, with_job. simpl.
    now apply (query_get_update_row_found Job.id (jobs db) job_id
                 (fun _ => reactivated (now update) job) job). }
  split; [exact Hdb2|]. split; [exact Hjob2|].
  intros req' identity Hj. unfold Route.get_job, jwt_required. rewrite Hj.
  unfold with_kwarg. rewrite kwarg_single. unfold get_job. now rewrite Hjob2.
Qed.

Lemma reactivation_restores_the_job_witness :
  snd (Route.update_job 1 (Scenario.as_employer Sample.activate)
         (snd (Endpoint.delete_job Sample.session_delete_job 1
                 (Scenario.as_employer None) Scenario.db)))
  = with_job Scenario.db 1 (reactivated 200 Scenario.job).
Proof.
  exact (proj1 (reactivation_restores_the_job Sample.session_delete_job Scenario.db
                  (Scenario.as_employer None) (Scenario.as_employer Sample.activate)
                  1 Scenario.employer Scenario.job
                  (conj eq_refl (conj eq_refl eq_refl)) eq_refl ltac:(discriminate)
                  eq_refl eq_refl ltac:(discriminate) eq_refl)).
Defined.

(** ** The views that read *)

Lemma In_filter_if_iff {R : Type} guard cond (x : R) query :
  In x (filter_if guard cond query) <-> In x query /\ (guard = true -> cond x = true).
Proof.
  unfold filter_if. destruct guard.
  - rewrite filter_In. intuition.
  - intuition discriminate.
Qed.

Lemma In_applications_to_jobs_of db k a :
  In a (applications_to_jobs_of db k)
  <-> In a (applications db)
      /\ exists j, In j (jobs db) /\ Job.id j = Application.job_id a
                   /\ Job.employer_id j = k.
Proof.
  unfold applications_to_jobs_of. rewrite in_flat_map. split.
  - intros (a' & Hin & Hmap). apply in_map_iff in Hmap as (j & <- & Hj).
    apply filter_In in Hj as [Hj Hcond]. split; [assumption|].
    exists j. split; [assumption|]. lia.
  - intros (Hin & j & Hj & Hid & Hemp). exists a. split; [assumption|].
    apply in_map_iff. exists j. split; [reflexivity|].
    apply filter_In. split; [assumption|]. lia.
Qed.

Lemma In_filter_status status a query :
  In a (filter_status status query)
  <-> In a query
      /\ (Py.mem status known_statuses = true -> Application.status a = status).
Proof.
  unfold filter_status. rewrite In_filter_if_iff. split.
  - intros [Hin Hc]. split; [assumption|]. intros Hmem.
    apply String.eqb_eq, Hc. rewrite Hmem.
    destruct (String.eqb_spec status "") as [->|]; [discriminate Hmem | reflexivity].
  - intros [Hin Hc]. split; [assumption|]. intros Hg.
    apply andb_true_iff in Hg as [_ Hmem]. apply String.eqb_eq. auto.
Qed.

(** X15.  An application is shown to its applicant and to the employer
    who owns its job, and to no other job seeker or employer (403); the
    view writes nothing.  The employer who may read it this way is the
    one the decide route refuses. *)
Theorem application_is_shown_to_applicant_and_job_owner
    (db : database) (req : request unit) (decide : request (option status_data))
    (application_id : Z) (application : Application.t) (U : User.t) (job : Job.t) :
  jwt req = Valid (User.id U) ->
  jwt decide = jwt req ->
  get_user db (User.id U) = Some U ->
  application_id <> 0 ->
  get_application_row db application_id = Some application ->
  get_job_row db (Application.job_id application) = Some job ->
  let res := Endpoint.get_application application_id req db in
  let shown :=
    Response (JObj [("application", Application_to_dict db application)]) 200 in
  snd res = db
  /\ (User.role U = UserRole.JOB_SEEKER ->
      (Application.applicant_id application = User.id U -> fst res = shown)
      /\ (Application.applicant_id application <> User.id U -> code (fst res) = 403))
  /\ (User.role U = UserRole.EMPLOYER ->
      (Job.employer_id job = User.id U -> fst res = shown)
      /\ (Job.employer_id job <> User.id U -> code (fst res) = 403)
      /\ (Application.applicant_id application <> User.id U ->
          Route.update_application_status application_id decide db
          = (access_denied, db))).
Proof.
  intros Hjwt Hdecide Huser Hnz Happ Hjob res shown.
  assert (Hres : res = get_application application_id (User.id U) req db).
  { unfold res, Endpoint.get_application, jwt_required. rewrite Hjwt.
    unfold with_kwarg. now rewrite kwarg_single. }
  rewrite Hres. unfold get_application. rewrite Huser, Happ, Hjob.
  split; [|split].
  - repeat match goal with
           | |- context [if ?b then _ else _] => destruct b
           end; reflexivity.
  - intros Hrole. rewrite Hrole. simpl String.eqb. cbv iota.
    destruct (Z.eqb_spec (Application.applicant_id application) (User.id U));
      split; intros H; try contradiction; reflexivity.
  - intros Hrole. rewrite Hrole. simpl String.eqb. cbv iota.
    split; [|split].
    + intros Hown. now rewrite Hown, Z.eqb_refl.
    + intros Hother.
      destruct (Z.eqb_spec (Job.employer_id job) (User.id U));
        [contradiction | reflexivity].
    + intros Hother. unfold Route.update_application_status.
      rewrite Hjwt in Hdecide.
      rewrite (employer_required_pass _ _ _ _ U Hdecide Huser Hrole).
      rewrite (application_access_is_applicant_only
                 _ [("application_id", application_id)] decide db U application
                 application_id Hdecide Huser (kwarg_single _ _) Hnz Happ).
      destruct (Z.eqb_spec (Application.applicant_id application) (User.id U));
        [contradiction | reflexivity].
Qed.

(** The employer of the scenario reads the application and cannot decide
    it; the rival cannot read it. *)
Lemma application_is_shown_to_applicant_and_job_owner_witness :
  code (fst (Endpoint.get_application 1 (Scenario.as_employer tt) Sample.db)) = 200
  /\ Route.update_application_status 1 (Scenario.as_employer Scenario.accept) Sample.db
     = (access_denied, Sample.db)
  /\ code (fst (Endpoint.get_application 1 (Sample.as_rival tt) Sample.db)) = 403.
Proof.
  destruct (application_is_shown_to_applicant_and_job_owner Sample.db
              (Scenario.as_employer tt) (Scenario.as_employer Scenario.accept) 1
              Scenario.application Scenario.employer Scenario.job
              eq_refl eq_refl eq_refl ltac:(discriminate) eq_refl eq_refl)
    as (_ & _ & Hemp).
  destruct (Hemp eq_refl) as (Hshown & _ & Hdecide).
  destruct (application_is_shown_to_applicant_and_job_owner Sample.db
              (Sample.as_rival tt) (Sample.as_rival Scenario.accept) 1
              Scenario.application Sample.rival Scenario.job
              eq_refl eq_refl eq_refl ltac:(discriminate) eq_refl eq_refl)
    as (_ & _ & Hrival).
  destruct (Hrival eq_refl) as (_ & Hdenied & _).
  split; [|split].
  - exact (f_equal code (Hshown eq_refl)).
  - exact (Hdecide ltac:(discriminate)).
  - exact (Hdenied ltac:(discriminate)).
Defined.

(** X16.  The caller's list of applications holds exactly the rows in
    scope that pass the filters: for a job seeker the applications whose
    applicant is the caller, for an employer the applications to jobs the
    caller owns; a [status] that is one of the four known values keeps
    the rows of that status and any other value is ignored; a non-zero
    [job_id] keeps the rows of that job.  They come newest first, and a
    user of any other role is answered 400. *)
Theorem my_applications_are_the_callers
    (db : database) (req : request application_list_args) (U : User.t) :
  jwt req = Valid (User.id U) ->
  get_user db (User.id U) = Some U ->
  let args := payload req in
  let status := Py.lower (Py.strip (Py.get (list_status args) "")) in
  let in_scope (a : Application.t) :=
    (User.role U = UserRole.JOB_SEEKER /\ Application.applicant_id a = User.id U)
    \/ (User.role U = UserRole.EMPLOYER
        /\ exists j, In j (jobs db) /\ Job.id j = Application.job_id a
                     /\ Job.employer_id j = User.id U) in
  match get_my_applications_query db U args with
  | Some query =>
      (forall a, In a query <->
                 In a (applications db)
                 /\ in_scope a
                 /\ (Py.mem status known_statuses = true -> Application.status a = status)
                 /\ (forall k, list_job_id args = Some k -> k <> 0 ->
                               Application.job_id a = k))
      /\ StronglySorted (newest_first Application.created_at) query
      /\ Endpoint.get_my_applications req db
         = (Response
              (JObj [("applications",
                       JList (map (Application_to_applicant_view db)
                                  (items (paginate query (Py.get (list_page args) 1)
                                                   (Py.get (list_per_page args) 10)))));
                     ("pagination",
                       pagination_json (Py.get (list_page args) 1)
                         (Py.get (list_per_page args) 10)
                         (paginate query (Py.get (list_page args) 1)
                                   (Py.get (list_per_page args) 10)))]) 200, db)
  | None =>
      User.role U <> UserRole.JOB_SEEKER /\ User.role U <> UserRole.EMPLOYER
      /\ Endpoint.get_my_applications req db = (invalid_role, db)
  end.
Proof.
  intros Hjwt Huser args status in_scope.
  assert (Hroute : Endpoint.get_my_applications req db
                   = get_my_applications (User.id U) [] req db).
  { unfold Endpoint.get_my_applications, jwt_required. now rewrite Hjwt. }
  rewrite Hroute. unfold get_my_applications. rewrite Huser. fold args.
  unfold get_my_applications_query. fold status.
  assert (Hjobfilter : forall a q,
             In a match list_job_id args with
                  | None | Some 0 => q
                  | Some job_id => filter (fun a => Application.job_id a =? job_id) q
                  end
             <-> In a q /\ (forall k, list_job_id args = Some k -> k <> 0 ->
                                      Application.job_id a = k)).
  { intros a q. destruct (list_job_id args) as [[|k|k]|].
    - split; [intros H; split; [assumption | intros k [= <-] Hk; congruence] | tauto].
    - rewrite filter_In. split.
      + intros [H Hk]. split; [assumption|]. intros k' [= <-] _.
        now apply Z.eqb_eq in Hk.
      + intros [H Hk]. split; [assumption|]. apply Z.eqb_eq.
        apply (Hk _ eq_refl). discriminate.
    - rewrite filter_In. split.
      + intros [H Hk]. split; [assumption|]. intros k' [= <-] _.
        now apply Z.eqb_eq in Hk.
      + intros [H Hk]. split; [assumption|]. apply Z.eqb_eq.
        apply (Hk _ eq_refl). discriminate.
    - split; [intros H; split; [assumption | discriminate] | tauto]. }
  destruct (String.eqb_spec (User.role U) UserRole.JOB_SEEKER) as [Hjs|Hnjs].
  - split; [|split; [apply order_by_desc_sorted | reflexivity]].
    intros a. rewrite In_order_by_desc, Hjobfilter, In_filter_status, filter_In.
    unfold in_scope. rewrite Hjs. split.
    + intros (((Hin & Happ) & Hs) & Hk). repeat split; auto.
      left. split; [reflexivity | lia].
    + intros (Hin & [[_ Happ] | [Hemp _]] & Hs & Hk); [|discriminate Hemp].
      repeat split; auto. lia.
  - destruct (String.eqb_spec (User.role U) UserRole.EMPLOYER) as [Hemp|Hnemp].
    + split; [|split; [apply order_by_desc_sorted | reflexivity]].
      intros a.
      rewrite In_order_by_desc, Hjobfilter, In_filter_status, In_applications_to_jobs_of.
      unfold in_scope. split.
      * intros (((Hin & Hj) & Hs) & Hk). repeat split; auto.
      * intros (Hin & [[Hjs _] | [_ Hj]] & Hs & Hk); [contradiction|].
        repeat split; auto.
    + auto.
Qed.

(** The job seeker of the scenario sees the application, and not when
    asking for the withdrawn ones, the status being given between a
    no-break space and an ideographic space; the rival employer sees
    none. *)
Lemma my_applications_are_the_callers_witness :
  code (fst (Endpoint.get_my_applications (Scenario.as_seeker Sample.no_args) Sample.db))
  = 200
  /\ Endpoint.get_my_applications (Sample.as_rival Sample.no_args) Sample.db
     = (Response (JObj [("applications", JList []);
                        ("pagination",
                          pagination_json 1 10 (paginate (@nil Application.t) 1 10))])
                 200, Sample.db)
  /\ Endpoint.get_my_applications
       (Scenario.as_seeker
          (Sample.with_status (Sample.no_break_space ++ "Withdrawn"
                               ++ Sample.ideographic_space)))
       Sample.db
     = (Response (JObj [("applications", JList []);
                        ("pagination",
                          pagination_json 1 10 (paginate (@nil Application.t) 1 10))])
                 200, Sample.db).
Proof.
  pose proof (my_applications_are_the_callers Sample.db
                (Scenario.as_seeker
                   (Sample.with_status (Sample.no_break_space ++ "Withdrawn"
                                        ++ Sample.ideographic_space)))
                Scenario.seeker eq_refl eq_refl) as Hpad.
  hnf in Hpad. destruct Hpad as (_ & _ & Hpad).
  pose proof (my_applications_are_the_callers Sample.db
                (Scenario.as_seeker Sample.no_args) Scenario.seeker eq_refl eq_refl) as H.
  pose proof (my_applications_are_the_callers Sample.db
                (Sample.as_rival Sample.no_args) Sample.rival eq_refl eq_refl) as H'.
  hnf in H, H'. destruct H as (_ & _ & H). destruct H' as (_ & _ & H').
  split; [exact (f_equal (fun r => code (fst r)) H) | split; [exact H' | exact Hpad]].
Defined.

(** X17.  My-jobs lists exactly the jobs the calling employer owns,
    active ones only unless [include_inactive] is "true" (in any case of
    letters), newest first. *)
Theorem my_jobs_are_the_callers
    (db : database) (req : request my_jobs_args) (E : User.t) :
  is_employer db req E ->
  let args := payload req in
  let query := get_my_jobs_query db (User.id E) args in
  let page := Py.get (mine_page args) 1 in
  let per_page := Py.get (mine_per_page args) 10 in
  (forall j, In j query <->
             In j (jobs db)
             /\ Job.employer_id j = User.id E
             /\ (Py.lower (Py.get (mine_include_inactive args) "false") <> "true" ->
                 Job.is_active j = true))
  /\ StronglySorted (newest_first Job.created_at) query
  /\ Endpoint.get_my_jobs req db
     = (Response
          (JObj [("jobs", JList (map (Job_to_dict db)
                                     (items (paginate query page per_page))));
                 ("pagination",
                   pagination_json page per_page (paginate query page per_page))])
          200, db).
Proof.
  intros (Hjwt & Huser & Hrole) args query page per_page.
  split; [|split].
  - intros j. unfold query, get_my_jobs_query.
    rewrite In_order_by_desc, In_filter_if_iff, filter_In.
    destruct (String.eqb_spec (Py.lower (Py.get (mine_include_inactive args) "false"))
                              "true") as [Hinc|Hinc]; simpl negb; split.
    + intros [[Hin Hown] _]. repeat split; [assumption | lia | contradiction].
    + intros (Hin & Hown & _). repeat split; [assumption | lia | discriminate].
    + intros [[Hin Hown] Hact]. repeat split; [assumption | lia | auto].
    + intros (Hin & Hown & Hact). repeat split; [assumption | lia | auto].
  - apply order_by_desc_sorted.
  - unfold Endpoint.get_my_jobs.
    now rewrite (employer_required_pass _ _ _ _ E Hjwt Huser Hrole).
Qed.

Lemma my_jobs_are_the_callers_witness :
  get_my_jobs_query Scenario.db_inactive 1 (Sample.my_jobs None) = []
  /\ (In Scenario.inactive_job
         (get_my_jobs_query Scenario.db_inactive 1 (Sample.my_jobs (Some "TRUE")))).
Proof.
  destruct (my_jobs_are_the_callers Scenario.db_inactive
              (Scenario.as_employer (Sample.my_jobs (Some "TRUE"))) Scenario.employer
              (conj eq_refl (conj eq_refl eq_refl))) as (Hin & _).
  split; [reflexivity|].
  apply Hin. split; [simpl; auto|]. split; [reflexivity|].
  intros H. now contradiction H.
Defined.

(** X18.  For the owner of a job, the applications route lists exactly
    the applications to that job (of the given status, when it is one of
    the four known values), newest first, together with the job's
    summary; whether the job is active plays no part. *)
Theorem job_applications_are_the_jobs
    (db : database) (req : request application_list_args) (job_id : Z)
    (E : User.t) (job : Job.t) :
  is_employer db req E ->
  job_id <> 0 ->
  get_job_row db job_id = Some job ->
  Job.employer_id job = User.id E ->
  let args := payload req in
  let status := Py.lower (Py.strip (Py.get (list_status args) "")) in
  let query := get_job_applications_query db job_id args in
  let page := Py.get (list_page args) 1 in
  let per_page := Py.get (list_per_page args) 10 in
  (forall a, In a query <->
             In a (applications db)
             /\ Application.job_id a = job_id
             /\ (Py.mem status known_statuses = true -> Application.status a = status))
  /\ StronglySorted (newest_first Application.created_at) query
  /\ Endpoint.get_job_applications job_id req db
     = (Response
          (JObj [("applications",
                   JList (map (Application_to_dict db)
                              (items (paginate query page per_page))));
                 ("job", Job_to_summary db job);
                 ("pagination",
                   pagination_json page per_page (paginate query page per_page))])
          200, db).
Proof.
  intros HE Hnz Hjob Hown args status query page per_page.
  split; [|split].
  - intros a. unfold query, get_job_applications_query. fold args status.
    rewrite In_order_by_desc, In_filter_status, filter_In.
    split; [intros [[Hin Hj] Hs] | intros (Hin & Hj & Hs)]; repeat split; auto; lia.
  - apply order_by_desc_sorted.
  - pose proof HE as (Hjwt & Huser & Hrole). unfold Endpoint.get_job_applications.
    rewrite (employer_required_pass _ _ _ _ E Hjwt Huser Hrole).
    rewrite (job_access_is_owner_only _ req db E job_id HE).
    destruct (Z.eqb_spec job_id 0); [contradiction|]. rewrite Hjob, Hown, Z.eqb_refl.
    unfold with_kwarg. rewrite kwarg_single. unfold get_job_applications.
    now rewrite Hjob.
Qed.

(** The applications to the deactivated job of the scenario; the
    pending one is not among the accepted ones, asked for with a
    no-break space before the status. *)
Lemma job_applications_are_the_jobs_witness :
  get_job_applications_query Scenario.db_inactive 1 Sample.no_args
  = [Scenario.application]
  /\ code (fst (Endpoint.get_job_applications 1 (Scenario.as_employer Sample.no_args)
                                               Scenario.db_inactive)) = 200
  /\ ~ In Scenario.application
         (get_job_applications_query Scenario.db_inactive 1
            (Sample.with_status (Sample.no_break_space ++ "Accepted"))).
Proof.
  destruct (job_applications_are_the_jobs Scenario.db_inactive
              (Scenario.as_employer
                 (Sample.with_status (Sample.no_break_space ++ "Accepted")))
              1 Scenario.employer
              Scenario.inactive_job (conj eq_refl (conj eq_refl eq_refl))
              ltac:(discriminate) eq_refl eq_refl) as (Hpad & _ & _).
  destruct (job_applications_are_the_jobs Scenario.db_inactive
              (Scenario.as_employer Sample.no_args) 1 Scenario.employer
              Scenario.inactive_job (conj eq_refl (conj eq_refl eq_refl))
              ltac:(discriminate) eq_refl eq_refl) as (_ & _ & Hroute).
  split; [reflexivity|]. split; [exact (f_equal (fun r => code (fst r)) Hroute)|].
  intros Hin. apply (proj1 (Hpad Scenario.application)) in Hin as (_ & _ & Hstatus).
  specialize (Hstatus eq_refl). discriminate Hstatus.
Defined.

Section ListingMembership.
Variable ilike : string -> string -> bool.

(** X19.  The public listing holds exactly the active jobs that pass
    every filter given: a non-blank [search] matched by [ilike] against
    title or description, a non-blank [location], an exact [job_type], a
    non-zero [employer_id], and [is_remote], where any value other than
    "true", "1" or "yes" asks for the jobs that are not remote. *)
Theorem job_listing_is_exact (db : database) (args : job_list_args) (j : Job.t) :
  let search := Py.strip (Py.get (arg_search args) "") in
  let location := Py.strip (Py.get (arg_location args) "") in
  let job_type := Py.strip (Py.get (arg_job_type args) "") in
  In j (get_all_jobs_query ilike db args) <->
  In j (jobs db)
  /\ Job.is_active j = true
  /\ (search <> "" ->
      ilike (Job.title j) ("%" ++ search ++ "%")
      || ilike (Job.description j) ("%" ++ search ++ "%") = true)
  /\ (location <> "" ->
      option_ilike ilike (Job.location j) ("%" ++ location ++ "%") = true)
  /\ (job_type <> "" -> Job.job_type j = Some job_type)
  /\ (forall v, arg_is_remote args = Some v -> Job.is_remote j = is_remote_bool v)
  /\ (forall k, arg_employer_id args = Some k -> k <> 0 -> Job.employer_id j = k).
Proof.
  cbv zeta. unfold get_all_jobs_query.
  set (search := Py.strip (Py.get (arg_search args) "")).
  set (location := Py.strip (Py.get (arg_location args) "")).
  set (job_type := Py.strip (Py.get (arg_job_type args) "")).
  rewrite In_order_by_desc.
  assert (Hemp : forall q,
             In j match arg_employer_id args with
                  | None | Some 0 => q
                  | Some e => filter (fun j => Job.employer_id j =? e) q
                  end
             <-> In j q /\ (forall k, arg_employer_id args = Some k -> k <> 0 ->
                                      Job.employer_id j = k)).
  { intros q. destruct (arg_employer_id args) as [[|k|k]|].
    - split; [intros H; split; [assumption | intros k [= <-] Hk; congruence] | tauto].
    - rewrite filter_In. split.
      + intros [H Hk]. split; [assumption|]. intros k' [= <-] _.
        now apply Z.eqb_eq in Hk.
      + intros [H Hk]. split; [assumption|]. apply Z.eqb_eq.
        apply (Hk _ eq_refl). discriminate.
    - rewrite filter_In. split.
      + intros [H Hk]. split; [assumption|]. intros k' [= <-] _.
        now apply Z.eqb_eq in Hk.
      + intros [H Hk]. split; [assumption|]. apply Z.eqb_eq.
        apply (Hk _ eq_refl). discriminate.
    - split; [intros H; split; [assumption | discriminate] | tauto]. }
  assert (Hrem : forall q,
             In j match arg_is_remote args with
                  | Some v =>
                      filter (fun j => Bool.eqb (Job.is_remote j) (is_remote_bool v)) q
                  | None => q
                  end
             <-> In j q /\ (forall v, arg_is_remote args = Some v ->
                                      Job.is_remote j = is_remote_bool v)).
  { intros q. destruct (arg_is_remote args) as [v|].
    - rewrite filter_In. split.
      + intros [H Hv]. split; [assumption|]. intros v' [= <-]. now apply eqb_prop.
      + intros [H Hv]. split; [assumption|]. rewrite (Hv v eq_refl).
        apply eqb_reflx.
    - split; [intros H; split; [assumption | discriminate] | tauto]. }
  assert (Hguard : forall s : string, negb (s =? "")%string = true <-> s <> "").
  { intros s. destruct (String.eqb_spec s ""); simpl; split; congruence. }
  assert (Htype : forall o s, option_string_eqb o s = true <-> o = Some s).
  { intros [v|] s; simpl; [|split; discriminate].
    rewrite String.eqb_eq. split; congruence. }
  rewrite Hemp, Hrem, !In_filter_if_iff, filter_In, !Hguard.
  split.
  - intros ((((((Hin & Hact) & Hs) & Hl) & Ht) & Hr) & He). repeat split; auto.
    intros Hne. apply Htype. auto.
  - intros (Hin & Hact & Hs & Hl & Ht & Hr & He). repeat split; auto.
    intros Hne. apply Htype. auto.
Qed.
End ListingMembership.

(** Of the board, [is_remote=maybe] lists the two active jobs that are
    not remote; a search for an ideographic space alone is no search,
    whatever [ilike] would say. *)
Lemma job_listing_is_exact_witness :
  In (Job.mk 3 "DevOps Engineer" "Build and maintain infrastructure" (Some "")
             (Some "$100,000 - $140,000") (Some "San Francisco, CA") (Some "full-time")
             (Some "mid") false true 130 130 1)
     (get_all_jobs_query Scenario.any_ilike Scenario.board
                         (Scenario.listing None None (Some "maybe")))
  /\ In (Job.mk 3 "DevOps Engineer" "Build and maintain infrastructure" (Some "")
                (Some "$100,000 - $140,000") (Some "San Francisco, CA") (Some "full-time")
                (Some "mid") false true 130 130 1)
        (get_all_jobs_query Sample.no_ilike Scenario.board
           (JobListArgs None None (Some Sample.ideographic_space) None None None None)).
Proof.
  split.
  - apply (job_listing_is_exact Scenario.any_ilike Scenario.board
             (Scenario.listing None None (Some "maybe"))).
    split; [simpl; auto|]. split; [reflexivity|].
    split; [intros H; now contradiction H|].
    split; [intros H; now contradiction H|].
    split; [intros H; now contradiction H|].
    split; [intros v [= <-]; reflexivity | discriminate].
  - apply (job_listing_is_exact Sample.no_ilike Scenario.board
             (JobListArgs None None (Some Sample.ideographic_space) None None None None)).
    split; [simpl; auto|]. split; [reflexivity|].
    split; [intros H; now contradiction H|].
    split; [intros H; now contradiction H|].
    split; [intros H; now contradiction H|].
    split; [discriminate | discriminate].
Defined.

(** ** Accounts *)

Lemma register_errors_credentials email password role company_name :
  register_errors email password role company_name = [] ->
  email <> "" /\ 8 <= Py.len password /\ password <> ""
  /\ (role = UserRole.EMPLOYER -> company_name <> "").
Proof.
  unfold register_errors. intros H.
  apply app_eq_nil in H as [He H]. apply app_eq_nil in H as [Hp H].
  apply app_eq_nil in H as [_ Hc].
  destruct (String.eqb_spec email ""); [discriminate|].
  destruct (String.eqb_spec password ""); [discriminate|].
  destruct (Z.ltb_spec (Py.len password) 8); [discriminate|].
  repeat split; auto. intros ->. simpl in Hc.
  destruct (String.eqb_spec company_name ""); [discriminate | assumption].
Qed.

Section AccountFacts.
Variable generate_password_hash : string -> string.
Variable check_password_hash : string -> string -> bool.
Variables create_access_token create_refresh_token : Z -> string.

(** X20.  An email is registered once, whatever the case of its letters
    and the blanks around it: when a user of the store has the lower-cased,
    trimmed email of the request, a registration that is valid otherwise
    is answered 409 "Email already registered", and no registration with
    that email changes the store.  The email and the role of the request
    are taken to be ASCII; the password, whose length is counted in code
    points, is any text. *)
Theorem register_refuses_a_known_email
    (db : database) (req : request (option register_data)) (data : register_data)
    (u : User.t) :
  payload req = Some data ->
  Py.isascii (Py.get (reg_email data) "") = true ->
  Py.isascii (Py.get (reg_role data) "") = true ->
  In u (users db) ->
  User.email u = Py.lower (Py.strip (Py.get (reg_email data) "")) ->
  let res := register generate_password_hash create_access_token create_refresh_token
                      [] req db in
  snd res = db
  /\ (registration_valid data -> fst res = email_registered)
  /\ code email_registered = 409.
Proof.
  intros Hpayload _ _ Hin Hemail res. unfold res, register. rewrite Hpayload.
  unfold registration_valid.
  destruct (register_errors _ _ _ _) eqn:Herrors.
  - assert (Hfound : exists v, first_user_by_email db (User.email u) = Some v).
    { unfold first_user_by_email.
      destruct (find _ (users db)) as [v|] eqn:Hfind; [now exists v|].
      apply find_none with (x := u) in Hfind; [|assumption].
      rewrite String.eqb_refl in Hfind. discriminate. }
    destruct Hfound as (v & Hv). rewrite <- Hemail, Hv. auto.
  - split; [reflexivity|]. split; [discriminate | reflexivity].
Qed.

(** X21.  Registration and login fit together.  A valid registration
    with an email no user has is answered 201 and stores one account,
    with the lower-cased, trimmed email, the hash of the password (never
    the password itself, unless the hasher returns it) and the next free
    id; with a verifier that accepts the hash of a password for that
    password, a login with the same email, in any case of letters, and
    the same password is then answered 200 for that account.  The emails
    and the role of the two requests are taken to be ASCII. *)
Theorem register_then_login
    (db : database) (req : request (option register_data)) (data : register_data) :
  (forall password,
      check_password_hash (generate_password_hash password) password = true) ->
  payload req = Some data ->
  Py.isascii (Py.get (reg_email data) "") = true ->
  Py.isascii (Py.get (reg_role data) "") = true ->
  registration_valid data ->
  first_user_by_email db (Py.lower (Py.strip (Py.get (reg_email data) ""))) = None ->
  let user := new_user generate_password_hash db req data in
  let db' := Database (users db ++ [user]) (jobs db) (applications db) in
  snd (register generate_password_hash create_access_token create_refresh_token [] req db)
  = db'
  /\ code (fst (register generate_password_hash create_access_token
                         create_refresh_token [] req db)) = 201
  /\ (forall (req' : request (option login_data)) data',
         payload req' = Some data' ->
         Py.isascii (Py.get (data_email data') "") = true ->
         login_email data' = User.email user ->
         Py.get (data_password data') "" = Py.get (reg_password data) "" ->
         login check_password_hash create_access_token create_refresh_token [] req' db'
         = (login_successful create_access_token create_refresh_token user, db')).
Proof.
  intros Hverify Hpayload _ _ Hvalid Hfresh user db'.
  unfold registration_valid in Hvalid.
  destruct (register_errors_credentials _ _ _ _ Hvalid) as (Hemail & _ & Hpassword & _).
  split; [|split].
  - unfold register. now rewrite Hpayload, Hvalid, Hfresh.
  - unfold register. now rewrite Hpayload, Hvalid, Hfresh.
  - intros req' data' Hpayload' _ Hemail' Hpassword'.
    unfold login. rewrite Hpayload'. fold (login_email data').
    rewrite Hemail', Hpassword'. simpl User.email.
    destruct (String.eqb_spec (Py.lower (Py.strip (Py.get (reg_email data) ""))) "");
      [contradiction|].
    destruct (String.eqb_spec (Py.get (reg_password data) "") ""); [contradiction|].
    simpl orb. cbv iota.
    change (users db') with (users db ++ [user])%list.
    unfold first_user_by_email in Hfresh. rewrite find_app_none by exact Hfresh.
    simpl find. rewrite String.eqb_refl.
    unfold check_password. simpl User.password_hash. now rewrite Hverify.
Qed.
End AccountFacts.

Lemma sample_verifier password :
  Scenario.check_password_hash (Sample.generate_password_hash password) password = true.
Proof.
  unfold Scenario.check_password_hash, Sample.generate_password_hash.
  apply String.eqb_refl.
Qed.

(** The employer's email, in capitals, is taken. *)
Lemma register_refuses_a_known_email_witness :
  fst (register Sample.generate_password_hash Scenario.create_token Scenario.create_token
                [] (Scenario.anonymous (Sample.signup " E@X.com" "password9" "employer"
                                                      "Acme Two"))
                Scenario.db)
  = email_registered.
Proof.
  refine (proj1 (proj2 (register_refuses_a_known_email
                          Sample.generate_password_hash Scenario.create_token
                          Scenario.create_token Scenario.db
                          (Scenario.anonymous (Sample.signup " E@X.com" "password9"
                                                             "employer" "Acme Two"))
                          (RegisterData (Some " E@X.com") (Some "password9")
                                        (Some "employer") None (Some "Acme Two") None)
                          Scenario.employer eq_refl eq_refl eq_refl _ eq_refl)) eq_refl).
  simpl. auto.
Defined.

(** The rival registers and logs in. *)
Lemma register_then_login_witness :
  code (fst (login Scenario.check_password_hash Scenario.create_token
                   Scenario.create_token []
                   (Scenario.anonymous (Scenario.credentials "R@Y.COM" "password3"))
                   (snd (register Sample.generate_password_hash Scenario.create_token
                                  Scenario.create_token []
                                  (Scenario.anonymous
                                     (Sample.signup " r@y.com" "password3" "Employer"
                                                    "Rival"))
                                  Scenario.db)))) = 200.
Proof.
  destruct (register_then_login Sample.generate_password_hash
              Scenario.check_password_hash Scenario.create_token Scenario.create_token
              Scenario.db
              (Scenario.anonymous (Sample.signup " r@y.com" "password3" "Employer" "Rival"))
              (RegisterData (Some " r@y.com") (Some "password3") (Some "Employer") None
                            (Some "Rival") None)
              sample_verifier eq_refl eq_refl eq_refl eq_refl eq_refl)
    as (Hdb & _ & Hlogin).
  rewrite Hdb.
  exact (f_equal (fun r => code (fst r))
           (Hlogin (Scenario.anonymous (Scenario.credentials "R@Y.COM" "password3"))
                   (LoginData (Some "R@Y.COM") (Some "password3"))
                   eq_refl eq_refl eq_refl eq_refl)).
Defined.

Section EmailLookup.
Variable rows : list User.t.

(** Replacing a row found both by its id and by its email, under the
    same id and email, leaves it the row found by that email. *)
Lemma find_email_update_row k e f u :
  query_get User.id rows k = Some u ->
  find (fun v => String.eqb (User.email v) e) rows = Some u ->
  User.email (f u) = e ->
  find (fun v => String.eqb (User.email v) e) (update_row User.id k f rows)
  = Some (f u).
Proof.
  unfold query_get. induction rows as [|x l IH]; simpl; [discriminate|].
  destruct (User.id x =? k) eqn:Hid; simpl.
  - intros [= ->] _ He. now rewrite He, String.eqb_refl.
  - intros Hk Hfind He.
    destruct (String.eqb (User.email x) e) eqn:Hx.
    + injection Hfind as ->. apply find_some in Hk as [_ Hk]. congruence.
    + now apply IH.
Qed.
End EmailLookup.

Section PasswordFacts.
Variable generate_password_hash : string -> string.
Variable check_password_hash : string -> string -> bool.
Variables create_access_token create_refresh_token : Z -> string.

(** X22.  Changing the password.  For a caller with an account and a
    body that gives both passwords: a current password the verifier does
    not accept is answered 401, and an accepted one with a new password
    under 8 characters 400, both without a change of the store; otherwise
    the answer is 200 and only the caller's row changes, to the hash of
    the new password under the same id, email and role.  The length of
    the new password is counted in code points.  With a verifier that
    accepts the hash of a password for that password, a login with the
    caller's email, given in ASCII, and the new password then succeeds. *)
Theorem change_password_replaces_the_credential
    (db : database) (req : request (option password_data)) (data : password_data)
    (U : User.t) :
  (forall password,
      check_password_hash (generate_password_hash password) password = true) ->
  jwt req = Valid (User.id U) ->
  get_user db (User.id U) = Some U ->
  first_user_by_email db (User.email U) = Some U ->
  payload req = Some data ->
  Py.get (data_current_password data) "" <> "" ->
  Py.get (data_new_password data) "" <> "" ->
  let current := Py.get (data_current_password data) "" in
  let new := Py.get (data_new_password data) "" in
  let res := jwt_required (change_password generate_password_hash check_password_hash)
                          [] req db in
  let U' := with_password_hash (generate_password_hash new) (now req) U in
  (check_password_hash (User.password_hash U) current = false ->
   snd res = db /\ code (fst res) = 401)
  /\ (check_password_hash (User.password_hash U) current = true ->
      Py.len new < 8 ->
      snd res = db /\ code (fst res) = 400)
  /\ (check_password_hash (User.password_hash U) current = true ->
      8 <= Py.len new ->
      code (fst res) = 200
      /\ snd res = Database (update_row User.id (User.id U) (fun _ => U') (users db))
                            (jobs db) (applications db)
      /\ get_user (snd res) (User.id U) = Some U'
      /\ (forall k, k <> User.id U -> get_user (snd res) k = get_user db k)
      /\ User.id U' = User.id U /\ User.email U' = User.email U
      /\ User.role U' = User.role U
      /\ check_password_hash (User.password_hash U') new = true
      /\ (forall (req' : request (option login_data)) data',
             payload req' = Some data' ->
             Py.isascii (Py.get (data_email data') "") = true ->
             login_email data' = User.email U ->
             User.email U <> "" ->
             Py.get (data_password data') "" = new ->
             login check_password_hash create_access_token create_refresh_token
                   [] req' (snd res)
             = (login_successful create_access_token create_refresh_token U', snd res))).
Proof.
  intros Hverify Hjwt Huser Hemail Hpayload Hcurrent Hnew current new res U'.
  assert (Hres : res = change_password generate_password_hash check_password_hash
                         (User.id U) [] req db)
    by (unfold res, jwt_required; now rewrite Hjwt).
  rewrite Hres. unfold change_password. rewrite Huser, Hpayload.
  fold current. fold new.
  destruct (String.eqb_spec current ""); [contradiction|].
  destruct (String.eqb_spec new ""); [contradiction|].
  simpl orb. cbv iota. unfold check_password.
  destruct (with_password_hash_columns (generate_password_hash new) (now req) U)
    as (Hid' & Hemail' & Hrole').
  assert (Hcheck' : check_password_hash (User.password_hash U') new = true).
  { unfold U', with_password_hash.
    destruct (String.eqb_spec (generate_password_hash new) (User.password_hash U))
      as [E|E]; [rewrite <- E|]; apply Hverify. }
  assert (Hrows : update_row User.id (User.id U)
                    (with_password_hash (generate_password_hash new) (now req)) (users db)
                  = update_row User.id (User.id U) (fun _ => U') (users db)).
  { unfold get_user, query_get in Huser. clear - Huser. subst U'.
    induction (users db) as [|x l IH]; simpl in *; [reflexivity|].
    destruct (User.id x =? User.id U) eqn:E.
    - now injection Huser as ->.
    - f_equal. now apply IH. }
  split; [|split].
  - intros ->. simpl. auto.
  - intros -> Hlen. simpl. destruct (Z.ltb_spec (Py.len new) 8); [simpl; auto | lia].
  - intros -> Hlen. simpl negb. cbv iota.
    destruct (Z.ltb_spec (Py.len new) 8); [lia|]. simpl fst. simpl snd.
    rewrite Hrows.
    split; [reflexivity|]. split; [reflexivity|].
    split.
    { unfold get_user. simpl users.
      apply (query_get_update_row_found User.id (users db) (User.id U) (fun _ => U') U);
        auto. }
    split.
    { intros k Hk. unfold get_user. simpl users.
      apply (query_get_update_row_elsewhere User.id (users db) (User.id U) k
               (fun _ => U') U); auto. }
    split; [exact Hid'|]. split; [exact Hemail'|]. split; [exact Hrole'|].
    split; [exact Hcheck'|].
    intros req' data' Hpayload' _ Hmail Hnonempty Hpw.
    unfold login. rewrite Hpayload'. fold (login_email data'). rewrite Hmail, Hpw.
    destruct (String.eqb_spec (User.email U) ""); [contradiction|].
    destruct (String.eqb_spec new ""); [contradiction|].
    simpl orb. cbv iota. simpl users.
    rewrite (find_email_update_row (users db) (User.id U) (User.email U)
               (fun _ => U') U Huser Hemail Hemail').
    unfold check_password. now rewrite Hcheck'.
Qed.
End PasswordFacts.

(** The job seeker replaces password1 by password2 and logs in with it;
    a new password of five letters, ten bytes, is refused. *)
Lemma change_password_replaces_the_credential_witness :
  code (fst (login Scenario.check_password_hash Scenario.create_token
                   Scenario.create_token []
                   (Scenario.anonymous (Scenario.credentials "s@x.com" "password2"))
                   (snd (jwt_required
                           (change_password Sample.generate_password_hash
                                            Scenario.check_password_hash)
                           [] (Scenario.as_seeker
                                 (Sample.new_password "password1" "password2"))
                           Scenario.db)))) = 200
  /\ code (fst (jwt_required
                  (change_password Sample.generate_password_hash
                                   Scenario.check_password_hash)
                  [] (Scenario.as_seeker
                        (Sample.new_password "password1" Sample.five_letters))
                  Scenario.db)) = 400.
Proof.
  destruct (change_password_replaces_the_credential
              Sample.generate_password_hash Scenario.check_password_hash
              Scenario.create_token Scenario.create_token Scenario.db
              (Scenario.as_seeker (Sample.new_password "password1" Sample.five_letters))
              (PasswordData (Some "password1") (Some Sample.five_letters))
              Scenario.seeker sample_verifier eq_refl eq_refl eq_refl eq_refl
              ltac:(discriminate) ltac:(discriminate))
    as (_ & Hshort & _).
  destruct (change_password_replaces_the_credential
              Sample.generate_password_hash Scenario.check_password_hash
              Scenario.create_token Scenario.create_token Scenario.db
              (Scenario.as_seeker (Sample.new_password "password1" "password2"))
              (PasswordData (Some "password1") (Some "password2"))
              Scenario.seeker sample_verifier eq_refl eq_refl eq_refl eq_refl
              ltac:(discriminate) ltac:(discriminate))
    as (_ & _ & Hchanged).
  destruct (Hchanged eq_refl ltac:(vm_compute; discriminate))
    as (_ & _ & _ & _ & _ & _ & _ & _ & Hlogin).
  split.
  - exact (f_equal (fun r => code (fst r))
             (Hlogin (Scenario.anonymous (Scenario.credentials "s@x.com" "password2"))
                     (LoginData (Some "s@x.com") (Some "password2"))
                     eq_refl eq_refl eq_refl ltac:(discriminate) eq_refl)).
  - apply Hshort; [reflexivity | vm_compute; reflexivity].
Defined.

(** ** Roles *)

Lemma mem_In x l : Py.mem x l = true <-> In x l.
Proof.
  unfold Py.mem. rewrite existsb_exists. split.
  - intros (y & Hy & E). apply String.eqb_eq in E. now subst.
  - intros H. exists x. split; [exact H | apply String.eqb_refl].
Qed.

(** X23.  [role_required] runs the function for exactly the users whose
    role is in its list: such a caller gets the function's answer, every
    other caller with an account a 403 that names the list and the
    caller's role, with the store untouched.  [employer_required] and
    [job_seeker_required] decide as [role_required] does for the one-role
    lists: same store and same status code on every request. *)
Theorem role_required_runs_for_the_listed_roles {P : Type}
    (allowed_roles : list string) (fn : protected P) (kw : kwargs) (req : request P)
    (db : database) (U : User.t) :
  jwt req = Valid (User.id U) ->
  get_user db (User.id U) = Some U ->
  (In (User.role U) allowed_roles ->
   role_required allowed_roles fn kw req db = fn (User.id U) kw req db)
  /\ (~ In (User.role U) allowed_roles ->
      snd (role_required allowed_roles fn kw req db) = db
      /\ code (fst (role_required allowed_roles fn kw req db)) = 403
      /\ field "required_roles" (body (fst (role_required allowed_roles fn kw req db)))
         = JList (map JStr allowed_roles)
      /\ field "your_role" (body (fst (role_required allowed_roles fn kw req db)))
         = JStr (User.role U))
  /\ (forall req' db',
         snd (employer_required fn kw req' db')
         = snd (role_required [UserRole.EMPLOYER] fn kw req' db')
         /\ code (fst (employer_required fn kw req' db'))
            = code (fst (role_required [UserRole.EMPLOYER] fn kw req' db')))
  /\ (forall req' db',
         snd (job_seeker_required fn kw req' db')
         = snd (role_required [UserRole.JOB_SEEKER] fn kw req' db')
         /\ code (fst (job_seeker_required fn kw req' db'))
            = code (fst (role_required [UserRole.JOB_SEEKER] fn kw req' db'))).
Proof.
  intros Hjwt Huser. split; [|split; [|split]].
  - intros Hin. apply mem_In in Hin.
    unfold role_required, jwt_required. now rewrite Hjwt, Huser, Hin.
  - intros Hout.
    assert (Hmem : Py.mem (User.role U) allowed_roles = false).
    { destruct (Py.mem _ _) eqn:E; [|reflexivity]. apply mem_In in E. contradiction. }
    unfold role_required, jwt_required. rewrite Hjwt, Huser, Hmem. simpl. auto.
  - intros req' db'. unfold employer_required, role_required, jwt_required.
    destruct (jwt req'); auto. destruct (get_user db' identity); auto.
    unfold Py.mem. simpl existsb. rewrite orb_false_r.
    destruct (String.eqb _ _); simpl; auto.
  - intros req' db'. unfold job_seeker_required, role_required, jwt_required.
    destruct (jwt req'); auto. destruct (get_user db' identity); auto.
    unfold Py.mem. simpl existsb. rewrite orb_false_r.
    destruct (String.eqb _ _); simpl; auto.
Qed.

(** The job seeker at a route for employers and job seekers, and at one
    for employers. *)
Lemma role_required_runs_for_the_listed_roles_witness :
  code (fst (role_required [UserRole.EMPLOYER; UserRole.JOB_SEEKER]
                           get_current_user [] (Scenario.as_seeker tt)
                           Scenario.db)) = 200
  /\ code (fst (role_required [UserRole.EMPLOYER]
                              get_current_user [] (Scenario.as_seeker tt)
                              Scenario.db)) = 403.
Proof.
  split.
  - rewrite (proj1 (role_required_runs_for_the_listed_roles
                      [UserRole.EMPLOYER; UserRole.JOB_SEEKER] get_current_user []
                      (Scenario.as_seeker tt) Scenario.db Scenario.seeker
                      eq_refl eq_refl)); [reflexivity | simpl; auto].
  - apply (proj1 (proj2 (role_required_runs_for_the_listed_roles
                           [UserRole.EMPLOYER] get_current_user []
                           (Scenario.as_seeker tt) Scenario.db Scenario.seeker
                           eq_refl eq_refl))).
    simpl. intros [H|[]]. discriminate.
Defined.

(** X24.  The routes that write are split by role.  A caller with an
    account whose role is not "employer" is answered 403 by the routes
    that decide an application, post a job and change a job; one whose
    role is not "job_seeker" is answered 403 by the routes that apply,
    withdraw and delete an application.  The store is untouched either
    way, whatever the body and the path say. *)
Theorem write_routes_are_split_by_role (op : operation) (db : database) (U : User.t) :
  caller op = Valid (User.id U) ->
  get_user db (User.id U) = Some U ->
  (for_employers op = true -> User.role U <> UserRole.EMPLOYER ->
   snd (run op db) = db /\ code (fst (run op db)) = 403)
  /\ (for_employers op = false -> User.role U <> UserRole.JOB_SEEKER ->
      snd (run op db) = db /\ code (fst (run op db)) = 403).
Proof.
  intros Hjwt Huser. split; intros Hop Hrole; destruct op; try discriminate Hop;
    simpl in Hjwt; simpl run;
    unfold Route.create_application, Route.withdraw_application,
      Route.update_application_status, Route.delete_application,
      Route.create_job, Route.update_job,
      job_seeker_required, employer_required, jwt_required;
    rewrite Hjwt, Huser;
    match goal with
    | |- context [String.eqb ?a ?b] => destruct (String.eqb_spec a b)
    end; try contradiction; simpl; auto.
Qed.

(** The job seeker posts a job; the employer applies. *)
Lemma write_routes_are_split_by_role_witness :
  code (fst (run (CreateJob (Scenario.as_seeker (Scenario.post_job "Data Engineer" "Pipelines")))
                 Scenario.db)) = 403
  /\ code (fst (run (Apply (Scenario.as_employer Scenario.apply_to_job)) Sample.db_open))
     = 403.
Proof.
  split.
  - apply (proj1 (write_routes_are_split_by_role
                    (CreateJob (Scenario.as_seeker
                                  (Scenario.post_job "Data Engineer" "Pipelines")))
                    Scenario.db Scenario.seeker eq_refl eq_refl));
      [reflexivity | discriminate].
  - apply (proj2 (write_routes_are_split_by_role
                    (Apply (Scenario.as_employer Scenario.apply_to_job))
                    Sample.db_open Scenario.employer eq_refl eq_refl));
      [reflexivity | discriminate].
Defined.

Section Tokens.
Variable session_delete_job : database -> Job.t -> database + string.
Variable generate_password_hash : string -> string.
Variable check_password_hash : string -> string -> bool.
Variables create_access_token create_refresh_token : Z -> string.

(** X25.  Every call that writes, registration apart, needs the token of
    an account.  With no token, an expired or an invalid one it is
    answered 401; with a valid token whose user is no longer in the store
    it is answered 401 by the routes that check a role and 404 by the
    change of password.  The store is untouched in each case. *)
Theorem writes_need_the_token_of_an_account (c : call) (db : database) (t : token) :
  credential c = Some t ->
  (forall k, t = Valid k -> get_user db k = None) ->
  snd (serve session_delete_job generate_password_hash check_password_hash
                create_access_token create_refresh_token c db) = db
  /\ code (fst (serve session_delete_job generate_password_hash check_password_hash
                create_access_token create_refresh_token c db))
     = match t, c with
       | Valid _, ChangePassword _ => 404
       | _, _ => 401
       end.
Proof.
  intros Hc Hgone.
  assert (Hgone' : forall k, t = Valid k -> get_user db k = None) by exact Hgone.
  destruct c as [op|req|req|job_id req]; simpl in Hc; try discriminate;
    injection Hc as Ht; subst t; [destruct op; simpl in *|..];
    unfold serve; simpl;
    unfold Route.create_application, Route.withdraw_application,
      Route.update_application_status, Route.delete_application,
      Route.create_job, Route.update_job, Endpoint.delete_job,
      job_seeker_required, employer_required, jwt_required, change_password;
    destruct (jwt req) as [k| | |]; try (simpl; auto; fail);
    rewrite (Hgone' k eq_refl); simpl; auto.
Qed.
End Tokens.

(** The change of a job with no token, and the change of a password with
    the token of a user who is gone. *)
Lemma writes_need_the_token_of_an_account_witness :
  code (fst (run (UpdateJob 1 (Scenario.anonymous (Scenario.rename "Platform Engineer")))
                 Scenario.db)) = 401
  /\ code (fst (jwt_required
                  (change_password Sample.generate_password_hash
                                   Scenario.check_password_hash)
                  [] (Sample.as_rival (Sample.new_password "password3" "password4"))
                  Scenario.db)) = 404.
Proof.
  split.
  - refine (proj2 (writes_need_the_token_of_an_account
                     Sample.session_delete_job Sample.generate_password_hash
                     Scenario.check_password_hash Scenario.create_token
                     Scenario.create_token
                     (Write (UpdateJob 1 (Scenario.anonymous
                                            (Scenario.rename "Platform Engineer"))))
                     Scenario.db Absent eq_refl _)).
    intros k Hk. discriminate Hk.
  - refine (proj2 (writes_need_the_token_of_an_account
                     Sample.session_delete_job Sample.generate_password_hash
                     Scenario.check_password_hash Scenario.create_token
                     Scenario.create_token
                     (ChangePassword (Sample.as_rival
                                        (Sample.new_password "password3" "password4")))
                     Scenario.db (Valid 3) eq_refl _)).
    intros k Hk. injection Hk as <-. reflexivity.
Defined.
